(** * Intracellular-electrophysiology conversion: Neo readers to NWB

    A shallow embedding of
    - [nwb_conversion_tools/utils/neo.py]
      ([get_number_of_electrodes], [get_number_of_segments],
      [add_icephys_electrode], [add_icephys_recording]) and
    - [nwb_conversion_tools/datainterfaces/icephys/abf/abf_neo_datainterface.py]
      ([AbfNeoDataInterface.get_metadata], the recordings block),
    followed by the properties of the hierarchical table identifiers, of the
    relative session start time, and of the electrode/device resolution.

    Python exceptions are values of [exn]; code that only reads is written in
    the error monad [Result], code that mutates the NWB file in the monad
    [M], which threads the file and the warnings log and keeps the state
    reached when an exception is raised (Python mutates in place, so what
    was written before a raise stays written). *)

From Stdlib Require Import ZArith Lia Floats Ascii.
From stdpp Require Import base strings gmap list pretty.

#[local] Set Warnings "-inexact-float".

Open Scope Z_scope.
Open Scope string_scope.
Open Scope nat_scope.
Open Scope list_scope.

(** ** Python values and exceptions *)

Inductive exn : Type :=
| AssertionError (msg : string)
| IndexError
| KeyError (key : string)
| TypeError
| ValueError
| AttributeError
| OverflowError.

Inductive Result (A : Type) : Type :=
| Ok (a : A)
| Raise (e : exn).
Arguments Ok {A} a.
Arguments Raise {A} e.

Definition rbind {A B} (c : Result A) (k : A -> Result B) : Result B :=
  match c with
  | Ok a => k a
  | Raise e => Raise e
  end.

Declare Scope result_scope.
Delimit Scope result_scope with result.
Notation "x <-? c ; k" := (rbind c (fun x => k))
  (at level 100, c at next level, right associativity) : result_scope.

(** A Python [dict] with string keys.  The values read by the code are
    strings (names, descriptions, stimulus types). *)
Abbreviation dict := (gmap string string).

(** [d.get(key, dflt)] *)
Definition dict_get (d : dict) (key dflt : string) : string :=
  default dflt (d !! key).

(** [l[i]] on a list: [IndexError] out of range. *)
Definition list_index {A} (l : list A) (i : nat) : Result A :=
  match l !! i with
  | Some x => Ok x
  | None => Raise IndexError
  end.

(** ** The Neo reader, as far as the two modules read it *)

Record NeoReader : Type := {
  filename : string;
  (** [reader._axon_info] *)
  uFileStartDate : Z;
  uFileStartTimeMS : Z;
  (** [reader.header["nb_segment"]], one count per block *)
  nb_segment : list nat;
  (** [reader.header["signal_channels"]], the channel names *)
  signal_channels : list string;
  (** [reader.read_raw_protocol()]: traces, titles and units; each is
      indexed by segment, then by command channel *)
  read_raw_protocol : list (list (list float)) * list (list string) * list (list string);
  (** [reader.get_analogsignal_chunk(block_index=0, seg_index, channel_indexes)] *)
  get_analogsignal_chunk : nat -> nat -> list Z;
  (** [reader.get_signal_t_start(block_index=0, seg_index)] *)
  get_signal_t_start : nat -> float;
  get_signal_sampling_rate : float
}.


(** ** The NWB file, as far as [utils/neo.py] writes it *)

Record Device : Type := {
  dev_name : string;
  dev_description : option string;
  dev_manufacturer : option string
}.

Record IntracellularElectrode : Type := {
  el_name : string;
  el_description : string;
  el_device : Device
}.

Record VoltageClampSeries : Type := {
  vcs_name : string;
  vcs_electrode : IntracellularElectrode;
  vcs_data : list Z;
  vcs_starting_time : float;
  vcs_rate : float;
  vcs_gain : float
}.

Record VoltageClampStimulusSeries : Type := {
  vcss_name : string;
  vcss_electrode : IntracellularElectrode;
  vcss_data : list float;
  vcss_rate : float;
  vcss_starting_time : float;
  vcss_gain : float
}.

(** One row of the intracellular recordings table. *)
Record IntracellularRecording : Type := {
  ir_electrode : IntracellularElectrode;
  ir_stimulus : VoltageClampStimulusSeries;
  ir_response : VoltageClampSeries
}.

(** [nwbfile.devices], [nwbfile.icephys_electrodes], [nwbfile.acquisition]
    and [nwbfile.stimulus] are dictionaries keyed by name that keep
    insertion order (the code reads the first device, and enumerates the
    electrodes); they are lists here, and membership is membership of the
    name. *)
Record NWBFile : Type := {
  devices : list Device;
  icephys_electrodes : list IntracellularElectrode;
  acquisition : list VoltageClampSeries;
  stimulus : list VoltageClampStimulusSeries;
  intracellular_recordings : list IntracellularRecording
}.

(** [d[x.name] = x] unless the name is taken: what [pynwb] does with an
    object that it adds to the file if it does not exist yet. *)
Definition store_by_name {A} (name_of : A -> string) (l : list A) (x : A) : list A :=
  if bool_decide (name_of x ∈ map name_of l) then l else l ++ [x].

(** What a call can change: the file and the warnings issued so far. *)
Record World : Type := {
  nwbfile : NWBFile;
  warnings : list string
}.

(** Stateful code: the world reached is returned also when an exception
    is raised. *)
Definition M (A : Type) : Type := World -> Result A * World.

Definition ret {A} (a : A) : M A := fun w => (Ok a, w).

Definition bind {A B} (c : M A) (k : A -> M B) : M B :=
  fun w => match c w with
           | (Ok a, w') => k a w'
           | (Raise e, w') => (Raise e, w')
           end.

Definition raise {A} (e : exn) : M A := fun w => (Raise e, w).

Definition lift {A} (r : Result A) : M A := fun w => (r, w).

Definition get_nwbfile : M NWBFile := fun w => (Ok (nwbfile w), w).

Definition put_nwbfile (f : NWBFile) : M unit :=
  fun w => (Ok tt, {| nwbfile := f; warnings := warnings w |}).

(** [warnings.warn(msg)] *)
Definition warn (msg : string) : M unit :=
  fun w => (Ok tt, {| nwbfile := nwbfile w; warnings := warnings w ++ [msg] |}).

Declare Scope M_scope.
Delimit Scope M_scope with M.
Notation "x <- c ;; k" := (bind c (fun x => k))
  (at level 100, c at next level, right associativity) : M_scope.
Notation "c ;; k" := (bind c (fun _ => k))
  (at level 100, right associativity) : M_scope.

(** [for x in l: body(x)] *)
Fixpoint for_each {A} (l : list A) (body : A -> M unit) : M unit :=
  match l with
  | [] => ret tt
  | x :: rest => bind (body x) (fun _ => for_each rest body)
  end.

(** [for i, x in enumerate(l): body(i, x)], counting from [start] *)
Fixpoint for_enumerate {A} (start : nat) (l : list A) (body : nat -> A -> M unit) : M unit :=
  match l with
  | [] => ret tt
  | x :: rest => bind (body start x) (fun _ => for_enumerate (S start) rest body)
  end.

Module pynwb.

Local Open Scope M_scope.

Definition device_names (f : NWBFile) : list string := map dev_name (devices f).
Definition electrode_names (f : NWBFile) : list string := map el_name (icephys_electrodes f).

(** [name in nwbfile.devices] *)
Definition has_device (f : NWBFile) (name : string) : bool :=
  bool_decide (name ∈ device_names f).

(** [name in nwbfile.icephys_electrodes] *)
Definition has_icephys_electrode (f : NWBFile) (name : string) : bool :=
  bool_decide (name ∈ electrode_names f).

(** [nwbfile.devices[name]] *)
Definition get_device (f : NWBFile) (name : string) : Result Device :=
  match List.find (fun d => bool_decide (dev_name d = name)) (devices f) with
  | Some d => Ok d
  | None => Raise (KeyError name)
  end.

(** [nwbfile.create_device(name, description, manufacturer)]: a name that
    is taken is refused. *)
Definition create_device (d : Device) : M unit :=
  f <- get_nwbfile ;;
  if has_device f (dev_name d) then raise ValueError
  else put_nwbfile {| devices := devices f ++ [d];
                      icephys_electrodes := icephys_electrodes f;
                      acquisition := acquisition f;
                      stimulus := stimulus f;
                      intracellular_recordings := intracellular_recordings f |}.

(** [nwbfile.create_icephys_electrode(name, description, device)] *)
Definition create_icephys_electrode (e : IntracellularElectrode) : M unit :=
  f <- get_nwbfile ;;
  if has_icephys_electrode f (el_name e) then raise ValueError
  else put_nwbfile {| devices := devices f;
                      icephys_electrodes := icephys_electrodes f ++ [e];
                      acquisition := acquisition f;
                      stimulus := stimulus f;
                      intracellular_recordings := intracellular_recordings f |}.

(** [nwbfile.add_intracellular_recording(electrode, stimulus, response)].
    The stimulus, the response and the electrode are first added to the
    file, each unless its name is in the file already (the file has no
    stimulus template: nothing here writes one).  Then the table's
    [add_recording] works out the sample range of the stimulus and of the
    response, from sample 0 to the last one: a series without samples is
    refused with [IndexError], the stimulus being looked at first.  Only
    then is the row appended. *)
Definition add_intracellular_recording (row : IntracellularRecording) : M unit :=
  f <- get_nwbfile ;;
  put_nwbfile {| devices := devices f;
                 icephys_electrodes :=
                   store_by_name el_name (icephys_electrodes f) (ir_electrode row);
                 acquisition := store_by_name vcs_name (acquisition f) (ir_response row);
                 stimulus := store_by_name vcss_name (stimulus f) (ir_stimulus row);
                 intracellular_recordings := intracellular_recordings f |} ;;
  (if bool_decide (length (vcss_data (ir_stimulus row)) = 0) then raise IndexError
   else ret tt) ;;
  (if bool_decide (length (vcs_data (ir_response row)) = 0) then raise IndexError
   else ret tt) ;;
  f <- get_nwbfile ;;
  put_nwbfile {| devices := devices f;
                 icephys_electrodes := icephys_electrodes f;
                 acquisition := acquisition f;
                 stimulus := stimulus f;
                 intracellular_recordings := intracellular_recordings f ++ [row] |}.

End pynwb.

(** ** [utils/neo.py] *)

(** An element of a caller-supplied override list: a mapping, or
    something else (a string, say). *)
Inductive PyValue : Type :=
| PyDict (d : dict)
| PyStr (s : string).

Definition is_dict (x : PyValue) : bool :=
  match x with PyDict _ => true | PyStr _ => false end.

(** [metadata[data_type]], with the two keys the code reads. *)
Record DataTypeMetadata : Type := {
  md_Device : option (list dict);
  md_Electrodes : option (list PyValue)
}.

(** The [metadata] dictionary. *)
Record Metadata : Type := {
  md_Ecephys : option DataTypeMetadata;
  md_Icephys : option DataTypeMetadata
}.

Inductive DataType : Type := Ecephys | Icephys.

Definition md_section (data_type : DataType) (metadata : Metadata) : option DataTypeMetadata :=
  match data_type with
  | Ecephys => md_Ecephys metadata
  | Icephys => md_Icephys metadata
  end.

(** [d[key]] on a dictionary *)
Definition dict_item (d : dict) (key : string) : Result string :=
  match d !! key with
  | Some v => Ok v
  | None => Raise (KeyError key)
  end.

Module Neo.

Local Open Scope M_scope.

(** [get_number_of_electrodes] *)
Definition get_number_of_electrodes (neo_reader : NeoReader) : nat :=
  length (signal_channels neo_reader).

(** [get_number_of_segments] *)
Definition get_number_of_segments (neo_reader : NeoReader) (block : nat) : Result nat :=
  list_index (nb_segment neo_reader) block.


(** *** [add_devices]

    [add_devices] is imported from [utils/conversion_tools.py], which is
    not among the sources; the next four definitions model it from the
    specification.  Section 4.1 there: a device is resolved by name; one
    whose name the container already has is reused, never overwritten and
    never duplicated; a descriptor whose name is absent from the container
    is created with the fields it gives; when no device is named, the
    default device (name ["Device"], description ["no description"]) is the
    one requested.  Section 4.1 asks for no warning on reuse and the model
    issues none. *)

(** Modelled from the spec: the default device of [add_devices] (missing
    [utils/conversion_tools.py]), name ["Device"] and description
    ["no description"]. *)
Definition default_device : dict :=
  {[ "name" := "Device"; "description" := "no description" ]}.

(** Modelled from the spec: the resolution of one descriptor by
    [add_devices] (missing [utils/conversion_tools.py]): reuse by name, or
    creation with the fields that the descriptor gives. *)
Definition add_device (dev : dict) : M unit :=
  f <- get_nwbfile ;;
  if pynwb.has_device f (dict_get dev "name" "Device") then ret tt
  else pynwb.create_device {| dev_name := dict_get dev "name" "Device";
                              dev_description := dev !! "description";
                              dev_manufacturer := dev !! "manufacturer" |}.

(** Modelled from the spec: the descriptors that [add_devices] (missing
    [utils/conversion_tools.py]) resolves, [metadata[data_type]["Device"]],
    or the default device when the metadata names none. *)
Definition requested_devices (data_type : DataType) (metadata : option Metadata) : list dict :=
  match metadata with
  | Some m =>
      match md_section data_type m with
      | Some sec =>
          match md_Device sec with
          | Some (dev :: rest) => dev :: rest
          | _ => [default_device]
          end
      | None => [default_device]
      end
  | None => [default_device]
  end.

(** Modelled from the spec: [add_devices(nwbfile, data_type, metadata)] of
    the missing [utils/conversion_tools.py].  Both calls in
    [add_icephys_electrode] leave [data_type] out, and the descriptor built
    at line 167 is filed under ["Ecephys"], which is therefore the value
    they run with. *)
Definition add_devices (data_type : DataType) (metadata : option Metadata) : M unit :=
  for_each (requested_devices data_type metadata) add_device.

(** The list [defaults] of [add_icephys_electrode] (lines 146-153); the
    first device is looked up once per electrode. *)
Definition default_electrode (f : NWBFile) (elec_id : nat) : Result dict :=
  (device_name <-? list_index (pynwb.device_names f) 0;
   Ok ({[ "name" := "icephys_electrode_" +:+ pretty elec_id;
          "description" := "no description";
          "device_name" := device_name ]} : dict))%result.

Fixpoint default_electrodes (f : NWBFile) (elec_ids : list nat) : Result (list dict) :=
  match elec_ids with
  | [] => Ok []
  | elec_id :: rest =>
      (d <-? default_electrode f elec_id;
       ds <-? default_electrodes f rest;
       Ok (d :: ds))%result
  end.

(** Body of the loop that creates the electrodes (lines 164-178). *)
Definition electrode_body (defaults : list dict) (elec : PyValue) : M unit :=
  match elec with
  | PyStr _ => raise AttributeError           (* a [str] has no [get] *)
  | PyDict elec =>
      d0 <- lift (list_index defaults 0) ;;
      default_name <- lift (dict_item d0 "name") ;;
      let name := dict_get elec "name" default_name in
      f <- get_nwbfile ;;
      if pynwb.has_icephys_electrode f name then ret tt
      else
        default_device_name <- lift (dict_item d0 "device_name") ;;
        let device_name := dict_get elec "device_name" default_device_name in
        (if pynwb.has_device f device_name then ret tt
         else
           (let new_device_metadata :=
              {| md_Ecephys := Some {| md_Device := Some [ ({[ "name" := device_name ]} : dict) ];
                                       md_Electrodes := None |};
                 md_Icephys := None |} in
            add_devices Ecephys (Some new_device_metadata) ;;
            warn ("Device '" +:+ device_name +:+
                  "' not detected in attempted link to icephys electrode! Automatically generating."))) ;;
        default_description <- lift (dict_item d0 "description") ;;
        f <- get_nwbfile ;;
        device <- lift (pynwb.get_device f device_name) ;;
        pynwb.create_icephys_electrode
          {| el_name := name;
             el_description := dict_get elec "description" default_description;
             el_device := device |}
  end.

Definition no_devices_warning : string :=
  "When adding Icephys Electrode, no Devices were found on nwbfile. Creating a Device now...".

Definition electrodes_assertion : string :=
  "Expected metadata['Icephys']['Electrodes'] to be a list of dictionaries!".

(** Lines 136-138: a file without device gets one before anything else. *)
Definition ensure_devices (metadata : option Metadata) : M unit :=
  f <- get_nwbfile ;;
  if bool_decide (length (devices f) = 0)
  then warn no_devices_warning ;; add_devices Ecephys metadata
  else ret tt.

Definition empty_metadata : Metadata := {| md_Ecephys := None; md_Icephys := None |}.
Definition empty_section : DataTypeMetadata := {| md_Device := None; md_Electrodes := None |}.

(** Lines 155-156: the caller's list, or [defaults] when it is missing or
    empty. *)
Definition chosen_electrodes (icephys : DataTypeMetadata) (defaults : list dict) : list PyValue :=
  match md_Electrodes icephys with
  | Some (x :: rest) => x :: rest
  | _ => map PyDict defaults
  end.

(** [metadata["Icephys"]] after lines 140-144. *)
Definition icephys_section (metadata : option Metadata) : DataTypeMetadata :=
  default empty_section (md_Icephys (default empty_metadata metadata)).

(** [metadata] after line 156. *)
Definition set_electrodes (metadata : option Metadata) (Electrodes : list PyValue) : Metadata :=
  {| md_Ecephys := md_Ecephys (default empty_metadata metadata);
     md_Icephys := Some {| md_Device := md_Device (icephys_section metadata);
                           md_Electrodes := Some Electrodes |} |}.

(** Lines 140-178. *)
Definition resolve_electrodes (neo_reader : NeoReader) (metadata : option Metadata)
    : M Metadata :=
  let icephys := icephys_section metadata in
  f <- get_nwbfile ;;
  defaults <- lift (default_electrodes f (seq 0 (get_number_of_electrodes neo_reader))) ;;
  let Electrodes := chosen_electrodes icephys defaults in
  let metadata := set_electrodes metadata Electrodes in
  (if forallb is_dict Electrodes then ret tt
   else raise (AssertionError electrodes_assertion)) ;;
  for_each Electrodes (electrode_body defaults) ;;
  ret metadata.

(** [add_icephys_electrode].  The function returns nothing; it writes into
    the caller's [metadata] dictionary when one is given, so the dictionary
    as the call leaves it is the result here.  [nwbfile] is a file: with
    [None] the first line that reads it fails. *)
Definition add_icephys_electrode (neo_reader : NeoReader) (metadata : option Metadata)
    : M Metadata :=
  ensure_devices metadata ;;
  resolve_electrodes neo_reader metadata.

(** Body of the loop over the electrodes of the file (lines 209-232). *)
Definition recording_body (neo_reader : NeoReader) (si ei : nat)
    (electrode : IntracellularElectrode) : M unit :=
  let response :=
    {| vcs_name := "response-" +:+ pretty si +:+ "-ch-" +:+ pretty ei;
       vcs_electrode := electrode;
       vcs_data := get_analogsignal_chunk neo_reader si ei;
       vcs_starting_time := get_signal_t_start neo_reader si;
       vcs_rate := get_signal_sampling_rate neo_reader;
       vcs_gain := 1000.0%float |} in
  segment_traces <- lift (list_index (read_raw_protocol neo_reader).1.1 si) ;;
  data <- lift (list_index segment_traces ei) ;;
  let stimulus :=
    {| vcss_name := "stimulus-" +:+ pretty si +:+ "-ch-" +:+ pretty ei;
       vcss_electrode := electrode;
       vcss_data := data;
       vcss_rate := get_signal_sampling_rate neo_reader;
       vcss_starting_time := 123.6%float;
       vcss_gain := 1000.0%float |} in
  pynwb.add_intracellular_recording
    {| ir_electrode := electrode; ir_stimulus := stimulus; ir_response := response |}.

(** Body of the loop over segments (lines 207-232). *)
Definition segment_body (neo_reader : NeoReader) (si : nat) : M unit :=
  f <- get_nwbfile ;;
  for_enumerate 0 (icephys_electrodes f) (recording_body neo_reader si).

Definition commands_assertion (n_segments n_commands : nat) : string :=
  "File contains inconsistent number of segments (" +:+ pretty n_segments +:+
  ") and commands (" +:+ pretty n_commands +:+ ")".

(** [add_icephys_recording] *)
Definition add_icephys_recording (neo_reader : NeoReader) (metadata : option Metadata)
    : M unit :=
  n_segments <- lift (get_number_of_segments neo_reader 0) ;;
  let protocol := read_raw_protocol neo_reader in
  let n_commands := length protocol.1.1 in
  (if bool_decide (n_commands = 0) then ret tt      (* experiment_type = "i_zero" *)
   else if bool_decide (n_commands = n_segments) then ret tt
   else raise (AssertionError (commands_assertion n_segments n_commands))) ;;
  for_each (seq 0 n_segments) (segment_body neo_reader).

(** [get_electrodes_metadata]: nothing is read from the reader yet. *)
Definition get_electrodes_metadata (neo_reader : NeoReader) (electrodes_ids : list nat)
    (block : nat) : list dict := [].

(** [get_command_traces]: the trace, title and unit of one command channel
    in one segment. *)
Definition get_command_traces (neo_reader : NeoReader) (block segment cmd_channel : nat)
    : Result (list float * string * string) :=
  let '(traces, titles, units) := read_raw_protocol neo_reader in
  (segment_traces <-? list_index traces segment;
   trace <-? list_index segment_traces cmd_channel;
   segment_titles <-? list_index titles segment;
   title <-? list_index segment_titles cmd_channel;
   segment_units <-? list_index units segment;
   unit <-? list_index segment_units cmd_channel;
   Ok (trace, title, unit))%result.

(** [get_nwb_metadata]: the default metadata; the argument [metadata] is
    overwritten.  The ["NWBFile"] entry (description, identifier, start
    time) has no counterpart in [Metadata]. *)
Definition get_nwb_metadata (neo_reader : NeoReader) (metadata : option Metadata) : Metadata :=
  {| md_Ecephys := None;
     md_Icephys :=
       Some {| md_Device := Some [ ({[ "name" := "Device";
                                       "description" := "no description" ]} : dict) ];
               md_Electrodes := None |} |}.

(** [add_all_to_nwbfile]; the arguments about the electrical series are not
    used by the function.  The three calls share the one [metadata]
    dictionary. *)
Definition add_all_to_nwbfile (neo_reader : NeoReader) (metadata : option Metadata) : M unit :=
  add_devices Icephys metadata ;;
  add_icephys_electrode neo_reader metadata ;;
  add_icephys_recording neo_reader metadata.

End Neo.

(** ** [datetime], as far as [get_metadata] uses it *)

Module datetime.

Definition is_leap (y : Z) : bool :=
  ((y mod 4 =? 0) && (negb (y mod 100 =? 0) || (y mod 400 =? 0)))%Z.

Definition days_in_month (y m : Z) : Z :=
  (if m =? 2 then (if is_leap y then 29 else 28)
   else if (m =? 4) || (m =? 6) || (m =? 9) || (m =? 11) then 30 else 31)%Z.

Definition days_before_year (y : Z) : Z :=
  (let p := y - 1 in p * 365 + p / 4 - p / 100 + p / 400)%Z.

Definition days_before_month (y m : Z) : Z :=
  foldr (fun k acc => (days_in_month y (Z.of_nat k) + acc)%Z) 0%Z
        (seq 1 (Z.to_nat m - 1)).

(** Proleptic Gregorian ordinal, 0001-01-01 being day 1 ([date.toordinal]). *)
Definition ymd2ord (y m d : Z) : Z :=
  (days_before_year y + days_before_month y m + d)%Z.

Definition MAXORDINAL : Z := 3652059%Z.

(** The year, month and day fields that the pattern [%Y%m%d] reads off the
    decimal writing of [n] ([str(n)]): [%Y] is four digits, [%m] prefers two
    digits ([01]..[12]) over one ([1]..[9]), [%d] prefers two digits
    ([01]..[31]) over one, and the whole string has to be consumed. *)
Definition fields_Ymd (n : Z) : option (Z * Z * Z) :=
  (if (10000000 <=? n) && (n <? 100000000) then
     let m := (n / 100) mod 100 in
     let d := n mod 100 in
     if (1 <=? m) && (m <=? 12) && (1 <=? d) && (d <=? 31)
     then Some (n / 10000, m, d) else None
   else if (1000000 <=? n) && (n <? 10000000) then
     let a := (n / 100) mod 10 in
     let ab := (n / 10) mod 100 in
     let c := n mod 10 in
     let bc := n mod 100 in
     if (1 <=? ab) && (ab <=? 12) && (1 <=? c) then Some (n / 1000, ab, c)
     else if (1 <=? a) && (1 <=? bc) && (bc <=? 31) then Some (n / 1000, a, bc)
     else None
   else if (100000 <=? n) && (n <? 1000000) then
     let a := (n / 10) mod 10 in
     let b := n mod 10 in
     if (1 <=? a) && (1 <=? b) then Some (n / 100, a, b) else None
   else None)%Z.

(** A [datetime] without time zone is kept as the number of seconds since
    the midnight that starts ordinal day 0. *)
Definition SECONDS_PER_DAY : Z := 86400%Z.

(** [datetime.strptime(str(n), "%Y%m%d")] *)
Definition strptime_Ymd (n : Z) : Result Z :=
  match fields_Ymd n with
  | Some (y, m, d) =>
      if (d <=? days_in_month y m)%Z
      then Ok (ymd2ord y m d * SECONDS_PER_DAY)%Z
      else Raise ValueError
  | None => Raise ValueError
  end.

(** [round(ms / 1000)]: the quotient is rounded to the nearest integer,
    a tie to the even one. *)
Definition round_div_1000 (ms : Z) : Z :=
  (let q := ms / 1000 in
   let r := ms mod 1000 in
   if r <? 500 then q
   else if 500 <? r then q + 1
   else if Z.even q then q else q + 1)%Z.

(** [dt + timedelta(seconds=s)]: the date has to stay within years 1..9999. *)
Definition add_seconds (dt s : Z) : Result Z :=
  (let t := dt + s in
   if (SECONDS_PER_DAY <=? t) && (t <? (MAXORDINAL + 1) * SECONDS_PER_DAY)
   then Ok t else Raise OverflowError)%Z.

(** [(a - b).seconds]: a [timedelta] is normalised to days, seconds and
    microseconds with [0 <= seconds < 86400]; the attribute [seconds] is
    that field alone, the days are a separate field. *)
Definition timedelta_seconds (a b : Z) : Z := ((a - b) mod SECONDS_PER_DAY)%Z.

(** [(a - b).total_seconds()], the whole difference. *)
Definition timedelta_total_seconds (a b : Z) : Z := (a - b)%Z.

End datetime.

(** ** [AbfNeoDataInterface.get_metadata]: the recordings block *)

Module Abf.

Import Neo.
Local Open Scope result_scope.

(** One element of [metadata["Icephys"]["Recordings"]].  The start time is
    [float(relative_session_start_time.seconds)], a whole number of seconds
    below 86400, kept as an integer. *)
Record Recording : Type := {
  relative_session_start_time : Z;
  stimulus_type : string;
  icephys_experiment_type : option string;
  intracellular_recordings_table_id : nat;
  simultaneous_recordings_table_id : nat;
  sequential_recordings_table_id : nat
}.

Record AbfNeoDataInterface : Type := {
  (** [super().get_metadata()]: the base class is not part of the sources,
      so what it returns, or raises, is an input.  Of the dictionary,
      [get_metadata] reads the key ["Icephys"], to write the recordings
      under it. *)
  super_get_metadata : Result Metadata;
  readers_list : list NeoReader;
  (** [source_data["metadata_file_path"]] *)
  metadata_file_path : option string
}.

(** The value of ["recording_sessions"] in the metadata file, as the loop
    over the readers meets it: a value that iterates over [items] (a JSON
    array; an object iterates over its keys and a string over its
    characters, which are strings), or one that does not iterate (a number,
    a boolean, [null]).  An item is a mapping, or something else, for which
    [PyStr] stands; the values that a mapping gives for the keys read are
    strings. *)
Inductive Sessions : Type :=
| Iterable (items : list PyValue)
| NotIterable.

(** The document that [json.load] returns: an object, of which the
    recordings block reads the key ["recording_sessions"], or another JSON
    value. *)
Inductive Document : Type :=
| Mapping (recording_sessions : option Sessions)
| NotAMapping.

(** What is at a path. *)
Inductive MetaFile : Type :=
| NotAFile                      (* [Path(metafile).is_file()] is false *)
| Unreadable (e : exn)          (* [open] or [json.load] raises [e] *)
| Loads (doc : Document).

(** The file system seen through [Path(metafile).is_file()], [open] and
    [json.load]. *)
Definition FileSystem : Type := string -> MetaFile.

(** [s.split("/")[-1]] *)
Fixpoint last_component (acc s : string) : string :=
  match s with
  | EmptyString => acc
  | String c s' =>
      if Ascii.eqb c "/"%char then last_component "" s'
      else last_component (acc +:+ String c "") s'
  end.

(** The wall-clock start of a file: [startDate + startTime]. *)
Definition abf_date_time (reader : NeoReader) : Result Z :=
  startDate <-? datetime.strptime_Ymd (uFileStartDate reader);
  datetime.add_seconds startDate (datetime.round_div_1000 (uFileStartTimeMS reader)).

(** The running state of the three nested loops. *)
Record Counters : Type := {
  Recordings : list Recording;
  i : nat;
  ii : nat;
  iii : nat
}.

(** The entry appended at lines 111-122. *)
Definition recording_entry (rel : Z) (extra_info : dict) (i ii iii : nat) : Recording :=
  {| relative_session_start_time := rel;
     stimulus_type := dict_get extra_info "stimulus_type" "not described";
     icephys_experiment_type := extra_info !! "icephys_experiment_type";
     intracellular_recordings_table_id := i;
     simultaneous_recordings_table_id := ii;
     sequential_recordings_table_id := iii |}.

(** Body of the innermost loop (lines 111-123). *)
Definition electrode_body (rel : Z) (extra_info : dict) (st : Counters) (el : nat) : Counters :=
  {| Recordings := Recordings st ++ [recording_entry rel extra_info (i st) (ii st) (iii st)];
     i := S (i st);
     ii := ii st;
     iii := iii st |}.

(** Body of the loop over segments (lines 108-124). *)
Definition segment_body (rel : Z) (extra_info : dict) (n_electrodes : nat)
    (st : Counters) (sg : nat) : Counters :=
  let st' := foldl (electrode_body rel extra_info) st (seq 0 n_electrodes) in
  {| Recordings := Recordings st'; i := i st'; ii := S (ii st'); iii := iii st' |}.

(** Lines 40-44: [metafile_data], an empty dictionary unless the path is a
    file. *)
Definition load_metafile (fs : FileSystem) (metafile : string) : Result Document :=
  match fs metafile with
  | NotAFile => Ok (Mapping None)
  | Unreadable e => Raise e
  | Loads doc => Ok doc
  end.

(** [metafile_data.get("recording_sessions", dict())], line 81; the first
    [metafile_data.get] is at line 57, and a document that is not an object
    has no [get]. *)
Definition recording_sessions_of (metafile_data : Document) : Result Sessions :=
  match metafile_data with
  | Mapping sessions => Ok (default (Iterable []) sessions)
  | NotAMapping => Raise AttributeError
  end.

(** [[s for s in metafile_sessions if s.get("abf_file_name", "") ==
    abf_file_name]], line 91: an item that is not a mapping has no [get]. *)
Fixpoint matching_sessions (abf_file_name : string) (items : list PyValue)
    : Result (list dict) :=
  match items with
  | [] => Ok []
  | PyStr _ :: _ => Raise AttributeError
  | PyDict s :: rest =>
      item <-? matching_sessions abf_file_name rest;
      Ok (if bool_decide (dict_get s "abf_file_name" "" = abf_file_name)
          then s :: item else item)
  end.

(** The side-table entry of a file (lines 90-92), [extra_info]. *)
Definition session_info (metafile_sessions : Sessions) (reader : NeoReader) : Result dict :=
  let abf_file_name := last_component "" (filename reader) in
  match metafile_sessions with
  | NotIterable => Raise TypeError
  | Iterable items =>
      item <-? matching_sessions abf_file_name items;
      Ok (match item with s :: _ => s | [] => ∅ end)
  end.

(** Body of the loop over readers (lines 88-125). *)
Definition reader_body (metafile_sessions : Sessions) (first_session_time : Z)
    (st : Counters) (reader : NeoReader) : Result Counters :=
  extra_info <-? session_info metafile_sessions reader;
  abfDateTime <-? abf_date_time reader;
  let rel := datetime.timedelta_seconds abfDateTime first_session_time in
  n_segments <-? get_number_of_segments reader 0;
  let n_electrodes := get_number_of_electrodes reader in
  let st' := foldl (segment_body rel extra_info n_electrodes) st (seq 0 n_segments) in
  Ok {| Recordings := Recordings st'; i := i st'; ii := ii st'; iii := S (iii st') |}.

Fixpoint readers_loop (metafile_sessions : Sessions) (first_session_time : Z)
    (st : Counters) (readers : list NeoReader) : Result Counters :=
  match readers with
  | [] => Ok st
  | reader :: rest =>
      st' <-? reader_body metafile_sessions first_session_time st reader;
      readers_loop metafile_sessions first_session_time st' rest
  end.

(** [get_metadata], returning [metadata["Icephys"]["Recordings"]].  The
    [NWBFile], [Subject] and [LabMetadata] entries, which are read off the
    metadata file and the first start time, do not enter the recordings
    block; what can fail on the way to it is kept, in the order of the
    source. *)
Definition get_metadata (fs : FileSystem) (self : AbfNeoDataInterface)
    : Result (list Recording) :=
  metadata <-? super_get_metadata self;                            (* line 36 *)
  metafile <-? match metadata_file_path self with
               | Some p => Ok p
               | None => Raise TypeError        (* [Path(None)] *)
               end;
  metafile_data <-? load_metafile fs metafile;                     (* lines 42-44 *)
  first_reader <-? list_index (readers_list self) 0;
  first_session_time <-? abf_date_time first_reader;
  metafile_sessions <-? recording_sessions_of metafile_data;       (* lines 57-81 *)
  _ <-? match md_Icephys metadata with                             (* line 82 *)
        | Some _ => Ok tt
        | None => Raise (KeyError "Icephys")
        end;
  st <-? readers_loop metafile_sessions first_session_time
           {| Recordings := []; i := 0; ii := 0; iii := 0 |} (readers_list self);
  Ok (Recordings st).

End Abf.

(** ** Positions in the recordings list

    A sequence of files is summarised by its counts: the pair (segments,
    electrodes) of each file, in order. *)

Definition has_counts (reader : NeoReader) (c : nat * nat) : Prop :=
  nb_segment reader !! 0 = Some c.1 ∧ length (signal_channels reader) = c.2.

Definition total_entries (counts : list (nat * nat)) : nat :=
  sum_list_with (fun c => c.1 * c.2) counts.

Definition total_segments (counts : list (nat * nat)) : nat :=
  sum_list_with fst counts.

(** Entries, and segments, of the files before file [k]. *)
Definition entry_offset (counts : list (nat * nat)) (k : nat) : nat :=
  total_entries (take k counts).

Definition segment_offset (counts : list (nat * nat)) (k : nat) : nat :=
  total_segments (take k counts).

(** The entries that one file contributes: [s] segments of [e] electrodes,
    the counters starting at [i0], [ii0] and [iii0]. *)
Definition file_block (rel : Z) (extra : dict) (s e i0 ii0 iii0 : nat) : list Abf.Recording :=
  flat_map (fun sg => map (fun el => Abf.recording_entry rel extra (i0 + sg * e + el) (ii0 + sg) iii0)
                          (seq 0 e)) (seq 0 s).

(** The side table that [get_metadata] reads, when it is one: the mappings
    of ["recording_sessions"] in the object that the metadata file loads
    as, none when the path is no file or the object has no such key. *)
Definition holds_sessions (file : Abf.MetaFile) (sessions : list dict) : Prop :=
  file = Abf.NotAFile /\ sessions = [] \/
  file = Abf.Loads (Abf.Mapping None) /\ sessions = [] \/
  file = Abf.Loads (Abf.Mapping (Some (Abf.Iterable (map PyDict sessions)))).

(** ** Relations between the file before and after a call *)

(** [w'] is [w] with more devices, electrodes and warnings; every added
    electrode is linked to a device of [w']; the recordings are the same. *)
Record grows (w w' : World) : Prop := {
  grows_devices : devices (nwbfile w) `prefix_of` devices (nwbfile w');
  grows_electrodes :
    exists es, icephys_electrodes (nwbfile w') = icephys_electrodes (nwbfile w) ++ es /\
               Forall (fun e => el_device e ∈ devices (nwbfile w')) es;
  grows_recordings :
    intracellular_recordings (nwbfile w') = intracellular_recordings (nwbfile w);
  grows_warnings : warnings w `prefix_of` warnings w'
}.



(** A computation respects a relation between the world it starts in and the
    world it reaches, whatever it returns or raises. *)
Definition respects (R : World -> World -> Prop) {A} (c : M A) : Prop :=
  forall w, R w (c w).2.

(** The metadata names no device under the key that the device check of
    [add_icephys_electrode] reads. *)
Definition names_no_device (metadata : option Metadata) : Prop :=
  match metadata with
  | None => True
  | Some m =>
      match md_Ecephys m with
      | None => True
      | Some sec => md_Device sec = None \/ md_Device sec = Some []
      end
  end.

Definition the_default_device : Device :=
  {| dev_name := "Device";
     dev_description := Some "no description";
     dev_manufacturer := None |}.

(** The row [row] is the recording of segment [idx.1] through the electrode
    enumerated as [idx.2]. *)
Definition recorded_at (neo_reader : NeoReader) (row : IntracellularRecording)
    (idx : nat * nat) : Prop :=
  vcss_starting_time (ir_stimulus row) = 123.6%float /\
  vcs_starting_time (ir_response row) = get_signal_t_start neo_reader idx.1 /\
  vcss_name (ir_stimulus row) = "stimulus-" +:+ pretty idx.1 +:+ "-ch-" +:+ pretty idx.2 /\
  vcs_name (ir_response row) = "response-" +:+ pretty idx.1 +:+ "-ch-" +:+ pretty idx.2.

(** [w'] is [w] after [add_intracellular_recording] has stored the stimulus
    and the response of the rows [series], each unless its name was taken,
    and appended the rows [rows]; devices, electrodes and warnings are the
    same. *)
Definition recorded (w w' : World) (series rows : list IntracellularRecording) : Prop :=
  devices (nwbfile w') = devices (nwbfile w) /\
  icephys_electrodes (nwbfile w') = icephys_electrodes (nwbfile w) /\
  acquisition (nwbfile w') =
    foldl (store_by_name vcs_name) (acquisition (nwbfile w)) (map ir_response series) /\
  stimulus (nwbfile w') =
    foldl (store_by_name vcss_name) (stimulus (nwbfile w)) (map ir_stimulus series) /\
  intracellular_recordings (nwbfile w') = intracellular_recordings (nwbfile w) ++ rows /\
  warnings w' = warnings w.

(** ** Example data *)

(** A reader of [segments] sweeps over [channels] channels, with one command
    trace per sweep and channel; sweep [si] starts at [si] seconds. *)
Definition example_reader (name : string) (date ms : Z) (segments channels : nat) : NeoReader :=
  {| filename := name;
     uFileStartDate := date;
     uFileStartTimeMS := ms;
     nb_segment := [segments];
     signal_channels := map (fun k => "IN " +:+ pretty k) (seq 0 channels);
     read_raw_protocol := (replicate segments (replicate channels []), [], []);
     get_analogsignal_chunk := fun _ _ => [];
     get_signal_t_start := fun si => PrimFloat.of_uint63 (Uint63.of_Z (Z.of_nat si));
     get_signal_sampling_rate := 10000%float |}.

Definition no_metafile : Abf.FileSystem := fun _ => Abf.NotAFile.

(** What the base class hands over: a dictionary with an ["Icephys"]
    entry. *)
Definition base_metadata : Metadata :=
  {| md_Ecephys := None;
     md_Icephys := Some {| md_Device := None; md_Electrodes := None |} |}.

(** Two files of one session: 2 segments x 2 electrodes, then 1 segment x
    2 electrodes, recorded 25 minutes apart. *)
Definition two_files : Abf.AbfNeoDataInterface :=
  {| Abf.super_get_metadata := Ok base_metadata;
     Abf.readers_list := [ example_reader "/data/cell1/21o05000.abf" 20211005 36000000 2 2;
                           example_reader "/data/cell1/21o05001.abf" 20211005 37500000 1 2 ];
     Abf.metadata_file_path := Some "/data/cell1/metadata.json" |}.

Definition two_files_recordings : list Abf.Recording :=
  [ Abf.recording_entry 0 ∅ 0 0 0; Abf.recording_entry 0 ∅ 1 0 0;
    Abf.recording_entry 0 ∅ 2 1 0; Abf.recording_entry 0 ∅ 3 1 0;
    Abf.recording_entry 1500 ∅ 4 2 1; Abf.recording_entry 1500 ∅ 5 2 1 ].

(** The same cell recorded again the next day at the same time of day. *)
Definition next_day_files : Abf.AbfNeoDataInterface :=
  {| Abf.super_get_metadata := Ok base_metadata;
     Abf.readers_list := [ example_reader "/data/cell1/21o05000.abf" 20211005 36000000 1 1;
                           example_reader "/data/cell1/21o06000.abf" 20211006 36000000 1 1 ];
     Abf.metadata_file_path := Some "/data/cell1/metadata.json" |}.

Definition one_channel : NeoReader :=
  example_reader "/data/cell1/21o05000.abf" 20211005 36000000 2 1.

(** A reader without command traces (the branch of experiment type
    ["i_zero"]) whose file has one segment. *)
Definition no_commands : NeoReader :=
  {| filename := "/data/cell1/21o05002.abf";
     uFileStartDate := 20211005;
     uFileStartTimeMS := 39000000;
     nb_segment := [1];
     signal_channels := ["IN 0"];
     read_raw_protocol := ([], [], []);
     get_analogsignal_chunk := fun _ _ => [];
     get_signal_t_start := fun _ => 0%float;
     get_signal_sampling_rate := 10000%float |}.

(** A reader with three command sweeps for two segments. *)
Definition three_commands : NeoReader :=
  {| filename := "/data/cell1/21o05003.abf";
     uFileStartDate := 20211005;
     uFileStartTimeMS := 39600000;
     nb_segment := [2];
     signal_channels := ["IN 0"];
     read_raw_protocol := ([[[]]; [[]]; [[]]], [], []);
     get_analogsignal_chunk := fun _ _ => [];
     get_signal_t_start := fun _ => 0%float;
     get_signal_sampling_rate := 10000%float |}.

Definition empty_file : World :=
  {| nwbfile := {| devices := []; icephys_electrodes := [];
                   acquisition := []; stimulus := [];
                   intracellular_recordings := [] |};
     warnings := [] |}.

Definition amplifier : Device :=
  {| dev_name := "Amplifier";
     dev_description := Some "patch-clamp amplifier";
     dev_manufacturer := None |}.

(** A file with one device and one electrode linked to it. *)
Definition rig_file : World :=
  {| nwbfile := {| devices := [amplifier];
                   icephys_electrodes := [ {| el_name := "electrode_0";
                                              el_description := "whole-cell";
                                              el_device := amplifier |} ];
                   acquisition := [];
                   stimulus := [];
                   intracellular_recordings := [] |};
     warnings := [] |}.

Definition electrodes_override (Electrodes : list PyValue) : Metadata :=
  {| md_Ecephys := None;
     md_Icephys := Some {| md_Device := None; md_Electrodes := Some Electrodes |} |}.

(** A descriptor for an electrode on a device that the file does not have. *)
Definition pipette : dict :=
  {[ "name" := "pipette"; "device_name" := "Headstage" ]}.

(** A descriptor that names the registered electrode and another device. *)
Definition electrode_0_moved : dict :=
  {[ "name" := "electrode_0"; "device_name" := "Headstage" ]}.

Definition one_channel_defaults : list dict :=
  [ {[ "name" := "icephys_electrode_0";
       "description" := "no description";
       "device_name" := "Amplifier" ]} ].

(** The same descriptor twice in one override list. *)
Definition pipette_twice : Metadata :=
  electrodes_override [PyDict pipette; PyDict pipette].


(** A reader like [example_reader] whose command traces and signal chunks
    have samples. *)
Definition sampled_reader (segments channels : nat) : NeoReader :=
  {| filename := "/data/cell1/21o05007.abf";
     uFileStartDate := 20211005;
     uFileStartTimeMS := 42000000;
     nb_segment := [segments];
     signal_channels := map (fun k => "IN " +:+ pretty k) (seq 0 channels);
     read_raw_protocol :=
       (replicate segments (replicate channels [0%float; 10%float; 0%float]),
        replicate segments (replicate channels "Cmd"),
        replicate segments (replicate channels "mV"));
     get_analogsignal_chunk := fun si ei => [Z.of_nat si; Z.of_nat ei; 0%Z];
     get_signal_t_start := fun si => PrimFloat.of_uint63 (Uint63.of_Z (Z.of_nat si));
     get_signal_sampling_rate := 10000%float |}.

(** A reader of two channels whose protocol has one command trace per
    sweep. *)
Definition one_command_channel : NeoReader :=
  {| filename := "/data/cell1/21o05004.abf";
     uFileStartDate := 20211005;
     uFileStartTimeMS := 40200000;
     nb_segment := [2];
     signal_channels := ["IN 0"; "IN 1"];
     read_raw_protocol := ([[[0%float; 10%float]]; [[0%float; 20%float]]], [], []);
     get_analogsignal_chunk := fun _ _ => [0%Z; 1%Z];
     get_signal_t_start := fun _ => 0%float;
     get_signal_sampling_rate := 10000%float |}.

(** A reader without signal channel. *)
Definition no_channels : NeoReader :=
  example_reader "/data/cell1/21o05005.abf" 20211005 40800000 1 0.

(** A reader whose protocol names its command trace and gives its unit. *)
Definition with_protocol : NeoReader :=
  {| filename := "/data/cell1/21o05006.abf";
     uFileStartDate := 20211005;
     uFileStartTimeMS := 41400000;
     nb_segment := [1];
     signal_channels := ["IN 0"];
     read_raw_protocol := ([[[0%float; 10%float; 0%float]]], [["Cmd 0"]], [["mV"]]);
     get_analogsignal_chunk := fun _ _ => [0%Z; 5%Z; 0%Z];
     get_signal_t_start := fun _ => 0%float;
     get_signal_sampling_rate := 10000%float |}.

(** A file with one device and two electrodes linked to it. *)
Definition two_electrode_file : World :=
  {| nwbfile := {| devices := [amplifier];
                   icephys_electrodes := [ {| el_name := "electrode_0";
                                              el_description := "whole-cell";
                                              el_device := amplifier |};
                                           {| el_name := "electrode_1";
                                              el_description := "whole-cell";
                                              el_device := amplifier |} ];
                   acquisition := [];
                   stimulus := [];
                   intracellular_recordings := [] |};
     warnings := [] |}.

(** Two descriptors with new names, the first without device and
    description. *)
Definition left_right : list dict :=
  [ {[ "name" := "left" ]};
    {[ "name" := "right"; "description" := "sharp"; "device_name" := "Amplifier" ]} ].

(** Two descriptors without name. *)
Definition nameless_pair : list dict :=
  [ {[ "description" := "first" ]}; {[ "description" := "second" ]} ].

(** The first file of [two_files] alone. *)
Definition first_file_only : Abf.AbfNeoDataInterface :=
  {| Abf.super_get_metadata := Ok base_metadata;
     Abf.readers_list := [ example_reader "/data/cell1/21o05000.abf" 20211005 36000000 2 2 ];
     Abf.metadata_file_path := Some "/data/cell1/metadata.json" |}.

(** A side table that describes the second file of [two_files]. *)
Definition side_table : Abf.FileSystem :=
  fun path =>
    if String.eqb path "/data/cell1/metadata.json"
    then Abf.Loads
           (Abf.Mapping
              (Some (Abf.Iterable
                       [ PyDict {[ "abf_file_name" := "21o05001.abf";
                                   "stimulus_type" := "long square" ]} ])))
    else Abf.NotAFile.

(** ** Descriptions of the loops of [utils/neo.py] *)

(** [protocol[0][si][ei]] when both indices are in range. *)
Definition command_trace (neo_reader : NeoReader) (si ei : nat) : option (list float) :=
  match (read_raw_protocol neo_reader).1.1 !! si with
  | Some segment_traces => segment_traces !! ei
  | None => None
  end.

(** The number of command traces that the protocol has for segment [si]. *)
Definition command_channels (neo_reader : NeoReader) (si : nat) : nat :=
  length (default [] ((read_raw_protocol neo_reader).1.1 !! si)).

(** The row that [add_icephys_recording] builds for segment [si] and the
    electrode enumerated as [ei] (lines 211-232). *)
Definition recording_row (neo_reader : NeoReader) (si ei : nat)
    (electrode : IntracellularElectrode) (data : list float) : IntracellularRecording :=
  {| ir_electrode := electrode;
     ir_stimulus :=
       {| vcss_name := "stimulus-" +:+ pretty si +:+ "-ch-" +:+ pretty ei;
          vcss_electrode := electrode;
          vcss_data := data;
          vcss_rate := get_signal_sampling_rate neo_reader;
          vcss_starting_time := 123.6%float;
          vcss_gain := 1000.0%float |};
     ir_response :=
       {| vcs_name := "response-" +:+ pretty si +:+ "-ch-" +:+ pretty ei;
          vcs_electrode := electrode;
          vcs_data := get_analogsignal_chunk neo_reader si ei;
          vcs_starting_time := get_signal_t_start neo_reader si;
          vcs_rate := get_signal_sampling_rate neo_reader;
          vcs_gain := 1000.0%float |} |}.

(** The command trace and the signal chunk of segment [si] and channel [ei]
    exist and have a first sample: what [add_intracellular_recording] asks
    of the stimulus and of the response before it appends their row. *)
Definition ready (neo_reader : NeoReader) (si ei : nat) : bool :=
  match command_trace neo_reader si ei with
  | Some data =>
      bool_decide (length data <> 0 /\
                   length (get_analogsignal_chunk neo_reader si ei) <> 0)
  | None => false
  end.

(** The file once the stimulus and the response of a row are stored. *)
Definition store_series (w : World) (row : IntracellularRecording) : World :=
  {| nwbfile := {| devices := devices (nwbfile w);
                   icephys_electrodes := icephys_electrodes (nwbfile w);
                   acquisition :=
                     store_by_name vcs_name (acquisition (nwbfile w)) (ir_response row);
                   stimulus :=
                     store_by_name vcss_name (stimulus (nwbfile w)) (ir_stimulus row);
                   intracellular_recordings := intracellular_recordings (nwbfile w) |};
     warnings := warnings w |}.

(** The file once the row is appended as well. *)
Definition store_row (w : World) (row : IntracellularRecording) : World :=
  {| nwbfile := {| devices := devices (nwbfile w);
                   icephys_electrodes := icephys_electrodes (nwbfile w);
                   acquisition :=
                     store_by_name vcs_name (acquisition (nwbfile w)) (ir_response row);
                   stimulus :=
                     store_by_name vcss_name (stimulus (nwbfile w)) (ir_stimulus row);
                   intracellular_recordings := intracellular_recordings (nwbfile w) ++ [row] |};
     warnings := warnings w |}.

(** The file once the rows [rows] are recorded, one after the other. *)
Definition add_rows (w : World) (rows : list IntracellularRecording) : World :=
  foldl store_row w rows.

(** The file once the series of the rows [rows] are stored. *)
Definition add_series (w : World) (rows : list IntracellularRecording) : World :=
  foldl store_series w rows.

(** The rows of one segment, up to the first electrode that is not
    ready. *)
Fixpoint segment_rows (neo_reader : NeoReader) (si ei : nat)
    (els : list IntracellularElectrode) : list IntracellularRecording :=
  match els with
  | [] => []
  | electrode :: rest =>
      match command_trace neo_reader si ei with
      | Some data =>
          if ready neo_reader si ei
          then recording_row neo_reader si ei electrode data ::
               segment_rows neo_reader si (S ei) rest
          else []
      | None => []
      end
  end.

(** The row whose series are stored although it is not appended: that of
    the first electrode that is not ready, when it has a command trace. *)
Fixpoint segment_pending (neo_reader : NeoReader) (si ei : nat)
    (els : list IntracellularElectrode) : list IntracellularRecording :=
  match els with
  | [] => []
  | electrode :: rest =>
      match command_trace neo_reader si ei with
      | Some data =>
          if ready neo_reader si ei
          then segment_pending neo_reader si (S ei) rest
          else [recording_row neo_reader si ei electrode data]
      | None => []
      end
  end.

(** Every electrode from [ei] on is ready in segment [si]. *)
Definition segment_complete (neo_reader : NeoReader) (si ei : nat)
    (els : list IntracellularElectrode) : bool :=
  forallb (ready neo_reader si) (seq ei (length els)).

(** The rows of the segments [sis], up to the first electrode that is not
    ready, and the row that is stored but not appended there. *)
Fixpoint recording_rows (neo_reader : NeoReader) (els : list IntracellularElectrode)
    (sis : list nat) : list IntracellularRecording :=
  match sis with
  | [] => []
  | si :: rest =>
      segment_rows neo_reader si 0 els ++
      (if segment_complete neo_reader si 0 els then recording_rows neo_reader els rest else [])
  end.

Fixpoint recording_pending (neo_reader : NeoReader) (els : list IntracellularElectrode)
    (sis : list nat) : list IntracellularRecording :=
  match sis with
  | [] => []
  | si :: rest =>
      if segment_complete neo_reader si 0 els then recording_pending neo_reader els rest
      else segment_pending neo_reader si 0 els
  end.

(** The file with more electrodes. *)
Definition add_electrodes (w : World) (es : list IntracellularElectrode) : World :=
  {| nwbfile := {| devices := devices (nwbfile w);
                   icephys_electrodes := icephys_electrodes (nwbfile w) ++ es;
                   acquisition := acquisition (nwbfile w);
                   stimulus := stimulus (nwbfile w);
                   intracellular_recordings := intracellular_recordings (nwbfile w) |};
     warnings := warnings w |}.

(** The name, the device name and the description that
    [add_icephys_electrode] reads off a descriptor, the defaults being those
    of the first channel and [device] the first device of the file. *)
Definition resolved_name (elec : dict) : string :=
  dict_get elec "name" "icephys_electrode_0".

Definition resolved_device_name (device : string) (elec : dict) : string :=
  dict_get elec "device_name" device.

Definition resolved_description (elec : dict) : string :=
  dict_get elec "description" "no description".

(** The electrode that a descriptor stands for in the file [w]. *)
Definition stands_for (device_name : string) (w : World)
    (e : IntracellularElectrode) (elec : dict) : Prop :=
  el_name e = resolved_name elec /\
  el_description e = resolved_description elec /\
  pynwb.get_device (nwbfile w) (resolved_device_name device_name elec) = Ok (el_device e).

(** The mappings of a list of override elements. *)
Definition dicts_of (l : list PyValue) : list dict :=
  omap (fun x => match x with PyDict d => Some d | PyStr _ => None end) l.


(** * Properties *)

Lemma bind_run {A B} (c : M A) (k : A -> M B) w :
  bind c k w = match c w with
               | (Ok a, w') => k a w'
               | (Raise e, w') => (Raise e, w')
               end.
Proof. reflexivity. Qed.


(** ** The nested loops of [get_metadata] *)

Section AbfLoops.

Import Abf.

Variables (rel : Z) (extra : dict).

(** The innermost loop appends one entry per electrode. *)
Lemma electrode_loop_spec (n a : nat) (st : Counters) :
  foldl (electrode_body rel extra) st (seq a n) =
    {| Recordings := Recordings st ++
         map (fun el => recording_entry rel extra (i st + el) (ii st) (iii st)) (seq 0 n);
       i := i st + n; ii := ii st; iii := iii st |}.
Proof.
  revert a st. induction n as [|n IH]; intros a st.
  - destruct st; simpl. by rewrite app_nil_r, Nat.add_0_r.
  - rewrite !seq_S, foldl_app, IH. simpl. unfold electrode_body; simpl.
    rewrite map_app, app_assoc. simpl.
    f_equal. lia.
Qed.

(** The loop over segments appends the block of the file. *)
Lemma segment_loop_spec (e s a : nat) (st : Counters) :
  foldl (segment_body rel extra e) st (seq a s) =
    {| Recordings := Recordings st ++ file_block rel extra s e (i st) (ii st) (iii st);
       i := i st + s * e; ii := ii st + s; iii := iii st |}.
Proof.
  unfold file_block.
  revert a st. induction s as [|s IH]; intros a st.
  - destruct st; simpl. by rewrite app_nil_r, !Nat.add_0_r.
  - rewrite !seq_S, foldl_app, IH. simpl. unfold segment_body.
    rewrite electrode_loop_spec. simpl.
    rewrite flat_map_app, app_assoc. simpl. rewrite app_nil_r.
    f_equal; lia.
Qed.

Lemma file_block_length (s e i0 ii0 iii0 : nat) :
  length (file_block rel extra s e i0 ii0 iii0) = s * e.
Proof.
  unfold file_block. generalize 0 at 2 as a.
  induction s as [|s IH]; intros a; simpl; [done|].
  by rewrite length_app, length_map, length_seq, IH.
Qed.

Lemma file_block_intracellular (s e i0 ii0 iii0 : nat) :
  map intracellular_recordings_table_id (file_block rel extra s e i0 ii0 iii0) = seq i0 (s * e).
Proof.
  unfold file_block. 
  induction s as [|s IH]; [done|].
  replace (S s * e) with (s * e + e) by lia.
  rewrite seq_S, flat_map_app, map_app, IH, seq_app. f_equal.
  cbn [flat_map]. rewrite app_nil_r, map_map. cbn [intracellular_recordings_table_id recording_entry].
  rewrite <- (Nat.add_0_r (i0 + s * e)) at 1. by rewrite <- fmap_add_seq.
Qed.

Lemma file_block_lookup (s e i0 ii0 iii0 j l : nat) :
  j < s -> l < e ->
  file_block rel extra s e i0 ii0 iii0 !! (j * e + l) =
    Some (recording_entry rel extra (i0 + j * e + l) (ii0 + j) iii0).
Proof.
  unfold file_block. intros Hj Hl.
  induction s as [|s IH]; [lia|].
  rewrite seq_S, flat_map_app. simpl. rewrite app_nil_r.
  destruct (decide (j < s)) as [Hlt|Hge].
  - rewrite lookup_app_l; [by apply IH|].
    fold (file_block rel extra s e i0 ii0 iii0). rewrite file_block_length. nia.
  - assert (j = s) as -> by lia.
    fold (file_block rel extra s e i0 ii0 iii0).
    rewrite lookup_app_r; rewrite file_block_length; [|lia].
    replace (s * e + l - s * e) with l by lia.
    rewrite list_lookup_fmap, lookup_seq_lt by done. simpl. f_equal; f_equal; lia.
Qed.

End AbfLoops.

Section AbfReaders.

Import Neo Abf.

Variables (metafile_sessions : Sessions) (first_session_time : Z).

Lemma reader_body_spec (st st' : Counters) (reader : NeoReader) :
  reader_body metafile_sessions first_session_time st reader = Ok st' ->
  exists t s extra,
    abf_date_time reader = Ok t /\ nb_segment reader !! 0 = Some s /\
    session_info metafile_sessions reader = Ok extra /\
    st' = {| Recordings := Recordings st ++
               file_block (datetime.timedelta_seconds t first_session_time) extra
                          s (get_number_of_electrodes reader) (i st) (ii st) (iii st);
             i := i st + s * get_number_of_electrodes reader;
             ii := ii st + s;
             iii := S (iii st) |}.
Proof.
  unfold reader_body, get_number_of_segments, list_index.
  destruct (session_info metafile_sessions reader) as [extra|]; [|done]. simpl.
  destruct (abf_date_time reader) as [t|]; [|done].
  destruct (nb_segment reader !! 0) as [s|]; [|done].
  simpl. intros [= <-]. exists t, s, extra. by rewrite segment_loop_spec.
Qed.

Lemma entry_offset_S c counts k :
  entry_offset (c :: counts) (S k) = c.1 * c.2 + entry_offset counts k.
Proof. done. Qed.

Lemma segment_offset_S c counts k :
  segment_offset (c :: counts) (S k) = c.1 + segment_offset counts k.
Proof. done. Qed.

Lemma readers_loop_spec (readers : list NeoReader) :
  forall (counts : list (nat * nat)) (st st' : Counters),
    readers_loop metafile_sessions first_session_time st readers = Ok st' ->
    Forall2 has_counts readers counts ->
    exists new,
      Recordings st' = Recordings st ++ new /\
      length new = total_entries counts /\
      map intracellular_recordings_table_id new = seq (i st) (total_entries counts) /\
      forall k reader s e j l,
        readers !! k = Some reader -> counts !! k = Some (s, e) -> j < s -> l < e ->
        exists t extra,
          abf_date_time reader = Ok t /\
          session_info metafile_sessions reader = Ok extra /\
          new !! (entry_offset counts k + j * e + l) =
            Some (recording_entry (datetime.timedelta_seconds t first_session_time)
                    extra
                    (i st + entry_offset counts k + j * e + l)
                    (ii st + segment_offset counts k + j)
                    (iii st + k)).
Proof.
  induction readers as [|reader rest IH]; intros counts st st' Hrun Hcounts.
  - inversion Hcounts; subst. injection Hrun as <-.
    exists []. rewrite app_nil_r. repeat split; try done.
  - inversion Hcounts as [|? [s0 e0] ? cs [Hs0 He0] Hrest]; subst.
    simpl in Hrun, Hs0, He0.
    destruct (reader_body _ _ st reader) as [st1|] eqn:Hbody; [|done].
    simpl in Hrun.
    apply reader_body_spec in Hbody as (t & s & extra & Ht & Hs & Hextra & ->).
    assert (s = s0) as -> by congruence.
    unfold get_number_of_electrodes in *. rewrite He0 in *.
    destruct (IH cs _ _ Hrun Hrest) as (new & Hnew & Hlen & Hintra & Hlook).
    simpl in *.
    set (blk := file_block _ _ s0 e0 (i st) (ii st) (iii st)) in *.
    assert (length blk = s0 * e0) as Hblk by apply file_block_length.
    exists (blk ++ new). repeat split.
    + by rewrite Hnew, app_assoc.
    + rewrite length_app, Hblk, Hlen. done.
    + rewrite map_app, Hintra. unfold blk. rewrite file_block_intracellular.
      unfold total_entries at 2. simpl. by rewrite seq_app.
    + intros k r s e j l Hr Hc Hj Hl. destruct k as [|k]; simpl in Hr, Hc.
      * injection Hr as <-. injection Hc as <- <-. exists t, extra.
        split; [done|]. split; [done|].
        unfold entry_offset, segment_offset. simpl.
        rewrite lookup_app_l by (rewrite Hblk; nia).
        unfold blk. rewrite file_block_lookup by done.
        unfold total_entries, total_segments. simpl.
        f_equal. f_equal; lia.
      * destruct (Hlook k r s e j l Hr Hc Hj Hl) as (t' & extra' & Ht' & Hextra' & Hx).
        exists t', extra'. split; [done|]. split; [done|].
        rewrite entry_offset_S, segment_offset_S. simpl.
        rewrite lookup_app_r by (rewrite Hblk; lia).
        rewrite Hblk.
        replace (s0 * e0 + entry_offset cs k + j * e + l - s0 * e0)
          with (entry_offset cs k + j * e + l) by lia.
        rewrite Hx. f_equal. f_equal; lia.
Qed.

End AbfReaders.

Section AbfMetadata.

Import Neo Abf.

Lemma readers_loop_counts ms t0 (readers : list NeoReader) :
  forall st st',
    readers_loop ms t0 st readers = Ok st' ->
    exists counts, Forall2 has_counts readers counts.
Proof.
  induction readers as [|reader rest IH]; intros st st' Hrun.
  - by exists [].
  - simpl in Hrun.
    destruct (reader_body ms t0 st reader) as [st1|] eqn:Hbody; [|done].
    apply reader_body_spec in Hbody as (t & s & extra & _ & Hs & _).
    destruct (IH _ _ Hrun) as [counts Hcounts].
    exists ((s, length (signal_channels reader)) :: counts).
    by constructor.
Qed.

(** What a returning call has gone through. *)
Lemma get_metadata_steps fs self recs :
  get_metadata fs self = Ok recs ->
  exists metadata path metafile_data first t0 sessions st,
    super_get_metadata self = Ok metadata /\
    metadata_file_path self = Some path /\
    load_metafile fs path = Ok metafile_data /\
    readers_list self !! 0 = Some first /\
    abf_date_time first = Ok t0 /\
    recording_sessions_of metafile_data = Ok sessions /\
    md_Icephys metadata <> None /\
    readers_loop sessions t0
      {| Recordings := []; i := 0; ii := 0; iii := 0 |} (readers_list self) = Ok st /\
    recs = Recordings st.
Proof.
  unfold get_metadata, list_index.
  destruct (super_get_metadata self) as [metadata|] eqn:Hbase; [|done]. simpl.
  destruct (metadata_file_path self) as [path|] eqn:Hpath; [|done]. simpl.
  destruct (load_metafile fs path) as [metafile_data|] eqn:Hload; [|done]. simpl.
  destruct (readers_list self !! 0) as [first|] eqn:Hfirst; [|done]. simpl.
  destruct (abf_date_time first) as [t0|] eqn:Ht0; [|done]. simpl.
  destruct (recording_sessions_of metafile_data) as [sessions|] eqn:Hsessions; [|done]. simpl.
  destruct (md_Icephys metadata) as [icephys|] eqn:Hicephys; [|done]. simpl.
  destruct (readers_loop _ _ _ _) as [st|] eqn:Hloop; [|done]. simpl.
  intros [= <-]. exists metadata, path, metafile_data, first, t0, sessions, st.
  repeat split; try done. by rewrite Hicephys.
Qed.

Lemma get_metadata_inv fs self recs :
  get_metadata fs self = Ok recs ->
  exists sessions path first t0 st,
    metadata_file_path self = Some path /\
    readers_list self !! 0 = Some first /\
    abf_date_time first = Ok t0 /\
    readers_loop sessions t0
      {| Recordings := []; i := 0; ii := 0; iii := 0 |} (readers_list self) = Ok st /\
    recs = Recordings st.
Proof.
  intros Hrun.
  apply get_metadata_steps in Hrun
    as (metadata & path & metafile_data & first & t0 & sessions & st &
        _ & Hpath & _ & Hfirst & Ht0 & _ & _ & Hloop & ->).
  by exists sessions, path, first, t0, st.
Qed.

Lemma total_segments_app (c1 c2 : list (nat * nat)) :
  total_segments (c1 ++ c2) = total_segments c1 + total_segments c2.
Proof. apply sum_list_with_app. Qed.

Lemma segment_offset_end counts k s e :
  counts !! k = Some (s, e) ->
  segment_offset counts k + s <= total_segments counts.
Proof.
  intros Hk. unfold segment_offset.
  rewrite <- (take_drop_middle counts k (s, e) Hk) at 2.
  rewrite total_segments_app. unfold total_segments at 3. simpl. lia.
Qed.

Lemma segment_offset_lt counts k k' s e :
  counts !! k = Some (s, e) -> k < k' ->
  segment_offset counts k + s <= segment_offset counts k'.
Proof.
  intros Hk Hlt.
  assert (take k' counts !! k = Some (s, e)) as Hk'
    by (by rewrite lookup_take_lt).
  apply segment_offset_end in Hk'. unfold segment_offset in *.
  rewrite take_take in Hk'. by replace (k `min` k') with k in Hk' by lia.
Qed.

Lemma segment_offset_inj counts k k' s e s' e' j j' :
  counts !! k = Some (s, e) -> counts !! k' = Some (s', e') ->
  j < s -> j' < s' ->
  segment_offset counts k + j = segment_offset counts k' + j' ->
  k = k' /\ j = j'.
Proof.
  intros Hk Hk' Hj Hj' Heq.
  destruct (Nat.lt_trichotomy k k') as [Hlt|[->|Hgt]].
  - pose proof (segment_offset_lt _ _ _ _ _ Hk Hlt). lia.
  - split; [done|lia].
  - pose proof (segment_offset_lt _ _ _ _ _ Hk' Hgt). lia.
Qed.

End AbfMetadata.

(** C1 (amended). [get_metadata] numbers the recordings of a sequence of
    files, file [k] having [s] segments and [e] electrodes, as follows: the
    intracellular ids are [0 .. sum (s * e) - 1] in emission order, without
    gap or repeat; every entry of file [k] carries the sequential id [k]
    (one id per file); every entry of segment [j] of file [k] carries the
    simultaneous id (segments of the files before [k]) + [j] (one id per
    segment, shared by its electrodes), and these ids are below the number
    of segments and differ from one segment to another. *)
Theorem hierarchical_counter_laws fs self recs counts :
  Abf.get_metadata fs self = Ok recs ->
  Forall2 has_counts (Abf.readers_list self) counts ->
  map Abf.intracellular_recordings_table_id recs = seq 0 (total_entries counts) /\
  (forall k s e j l,
     counts !! k = Some (s, e) -> j < s -> l < e ->
     exists x,
       recs !! (entry_offset counts k + j * e + l) = Some x /\
       Abf.sequential_recordings_table_id x = k /\
       Abf.simultaneous_recordings_table_id x = segment_offset counts k + j) /\
  (forall k s e j,
     counts !! k = Some (s, e) -> j < s ->
     segment_offset counts k + j < total_segments counts) /\
  (forall k k' s e s' e' j j',
     counts !! k = Some (s, e) -> counts !! k' = Some (s', e') ->
     j < s -> j' < s' ->
     segment_offset counts k + j = segment_offset counts k' + j' ->
     k = k' /\ j = j').
Proof.
  intros Hrun Hcounts.
  apply get_metadata_inv in Hrun as (sessions & path & first & t0 & st & _ & _ & _ & Hloop & ->).
  destruct (readers_loop_spec _ _ _ _ _ _ Hloop Hcounts)
    as (new & Hnew & _ & Hintra & Hlook).
  simpl in Hnew, Hintra, Hlook. rewrite Hnew.
  split; [done|]. split; [|split].
  - intros k s e j l Hk Hj Hl.
    destruct (Forall2_lookup_r _ _ _ _ _ Hcounts Hk) as (reader & Hreader & _).
    destruct (Hlook k reader s e j l Hreader Hk Hj Hl) as (t & extra & _ & _ & Hx).
    eexists. split; [exact Hx|]. done.
  - intros k s e j Hk Hj.
    pose proof (segment_offset_end _ _ _ _ Hk). lia.
  - apply segment_offset_inj.
Qed.

Lemma two_files_get_metadata :
  Abf.get_metadata no_metafile two_files = Ok two_files_recordings.
Proof. vm_compute. reflexivity. Qed.

(** The scenario of the two files: intracellular ids 0..5, simultaneous ids
    0, 1 for the first file and 2 for the second, sequential ids 0 and 1. *)
Lemma hierarchical_counter_laws_witness :
  Abf.get_metadata no_metafile two_files = Ok two_files_recordings /\
  Forall2 has_counts (Abf.readers_list two_files) [(2, 2); (1, 2)] /\
  map Abf.intracellular_recordings_table_id two_files_recordings = [0; 1; 2; 3; 4; 5] /\
  map Abf.simultaneous_recordings_table_id two_files_recordings = [0; 0; 1; 1; 2; 2] /\
  map Abf.sequential_recordings_table_id two_files_recordings = [0; 0; 0; 0; 1; 1] /\
  exists x, two_files_recordings !! 5 = Some x /\
            Abf.sequential_recordings_table_id x = 1 /\
            Abf.simultaneous_recordings_table_id x = 2.
Proof.
  assert (Abf.get_metadata no_metafile two_files = Ok two_files_recordings) as Hrun
    by (vm_compute; reflexivity).
  assert (Forall2 has_counts (Abf.readers_list two_files) [(2, 2); (1, 2)]) as Hcounts
    by (repeat constructor).
  destruct (hierarchical_counter_laws no_metafile two_files two_files_recordings
              [(2, 2); (1, 2)] Hrun Hcounts) as (Hintra & Hids & _).
  split; [exact Hrun|]. split; [exact Hcounts|].
  split; [exact Hintra|]. split; [reflexivity|]. split; [reflexivity|].
  apply (Hids 1 1 2 0 1); [reflexivity|lia|lia].
Defined.

(** C1, as stated, at its own scenario: the two files have six recordings,
    so the intracellular ids are [0..5] and not [0..7]. *)
Lemma scenario_ids_are_not_0_to_7 :
  exists recs,
    Abf.get_metadata no_metafile two_files = Ok recs /\
    map Abf.intracellular_recordings_table_id recs = seq 0 6 /\
    map Abf.intracellular_recordings_table_id recs <> seq 0 8.
Proof.
  exists two_files_recordings. split; [apply two_files_get_metadata|].
  split; [reflexivity|discriminate].
Qed.

Lemma timedelta_seconds_diag t : datetime.timedelta_seconds t t = 0%Z.
Proof. unfold datetime.timedelta_seconds. by rewrite Z.sub_diag. Qed.

(** The start time that [get_metadata] writes on the entries of file [k]:
    the [seconds] field of the difference to the start of the first file. *)
Lemma relative_time_of_entry fs self recs counts k reader s e j l :
  Abf.get_metadata fs self = Ok recs ->
  Forall2 has_counts (Abf.readers_list self) counts ->
  Abf.readers_list self !! k = Some reader ->
  counts !! k = Some (s, e) -> j < s -> l < e ->
  exists first t0 t x,
    Abf.readers_list self !! 0 = Some first /\
    Abf.abf_date_time first = Ok t0 /\
    Abf.abf_date_time reader = Ok t /\
    recs !! (entry_offset counts k + j * e + l) = Some x /\
    Abf.relative_session_start_time x = datetime.timedelta_seconds t t0.
Proof.
  intros Hrun Hcounts Hreader Hk Hj Hl.
  apply get_metadata_inv in Hrun as (sessions & path & first & t0 & st & _ & Hfirst & Ht0 & Hloop & ->).
  destruct (readers_loop_spec _ _ _ _ _ _ Hloop Hcounts) as (new & Hnew & _ & _ & Hlook).
  destruct (Hlook k reader s e j l Hreader Hk Hj Hl) as (t & extra & Ht & _ & Hx).
  simpl in Hnew. rewrite Hnew.
  exists first, t0, t. eexists. by repeat split.
Qed.

(** C3. Every entry of the first file of the sequence (the first
    [segments * electrodes] entries emitted) has
    [relative_session_start_time] 0. *)
Theorem first_file_relative_time_zero fs self recs first s p :
  Abf.get_metadata fs self = Ok recs ->
  Abf.readers_list self !! 0 = Some first ->
  nb_segment first !! 0 = Some s ->
  p < s * Neo.get_number_of_electrodes first ->
  exists x, recs !! p = Some x /\ Abf.relative_session_start_time x = 0%Z.
Proof.
  intros Hrun Hfirst Hs Hp.
  pose proof Hrun as Hinv.
  apply get_metadata_inv in Hinv as (sessions & path & first' & t0 & st & _ & _ & _ & Hloop & _).
  destruct (readers_loop_counts _ _ _ _ _ Hloop) as [counts Hcounts].
  destruct (Forall2_lookup_l _ _ _ _ _ Hcounts Hfirst) as ([s' e] & Hc & Hs' & He).
  simpl in Hs', He. assert (s' = s) as -> by congruence.
  unfold Neo.get_number_of_electrodes in Hp. rewrite He in Hp.
  assert (0 < e) as He0 by nia.
  destruct (relative_time_of_entry fs self recs counts 0 first s e (p / e) (p mod e))
    as (first'' & t0' & t & x & Hf & Ht0 & Ht & Hx & Hrel); try done.
  - apply Nat.Div0.div_lt_upper_bound. lia.
  - apply Nat.mod_upper_bound. lia.
  - assert (first'' = first) as -> by congruence.
    assert (t0' = t) as -> by congruence.
    exists x. split.
    + rewrite <- Hx. f_equal. unfold entry_offset. simpl.
      unfold total_entries. simpl.
      pose proof (Nat.div_mod_eq p e). lia.
    + by rewrite Hrel, timedelta_seconds_diag.
Qed.

Lemma first_file_relative_time_zero_witness :
  exists x, two_files_recordings !! 3 = Some x /\
            Abf.relative_session_start_time x = 0%Z.
Proof.
  apply (first_file_relative_time_zero no_metafile two_files two_files_recordings
           (example_reader "/data/cell1/21o05000.abf" 20211005 36000000 2 2) 2 3).
  - vm_compute. reflexivity.
  - reflexivity.
  - reflexivity.
  - vm_compute. lia.
Defined.

(** C2, at two files recorded one day apart: the second file starts 86400
    seconds after the first (the whole difference), the [seconds] field of
    the difference is 0, and 0 is what its entry carries. *)
Theorem relative_time_drops_whole_days :
  exists first second t1 t2 e1 e2,
    Abf.readers_list next_day_files = [first; second] /\
    Abf.abf_date_time first = Ok t1 /\
    Abf.abf_date_time second = Ok t2 /\
    datetime.timedelta_total_seconds t2 t1 = 86400%Z /\
    datetime.timedelta_seconds t2 t1 = 0%Z /\
    Abf.get_metadata no_metafile next_day_files = Ok [e1; e2] /\
    Abf.relative_session_start_time e2 = 0%Z.
Proof.
  do 6 eexists. split; [reflexivity|].
  split; [vm_compute; reflexivity|].
  split; [vm_compute; reflexivity|].
  split; [reflexivity|]. split; [reflexivity|].
  split; [vm_compute; reflexivity|reflexivity].
Qed.

Section Respects.

Import Neo.

Variable R : World -> World -> Prop.
Hypothesis R_refl : forall w, R w w.
Hypothesis R_trans : forall w1 w2 w3, R w1 w2 -> R w2 w3 -> R w1 w3.
Hypothesis R_warn : forall msg, respects R (warn msg).
Hypothesis R_create_device : forall d, respects R (pynwb.create_device d).
Hypothesis R_create_icephys_electrode :
  forall e w, el_device e ∈ devices (nwbfile w) ->
              R w (pynwb.create_icephys_electrode e w).2.

Lemma respects_ret {A} (a : A) : respects R (ret a).
Proof. intros w. apply R_refl. Qed.

Lemma respects_raise {A} (e : exn) : respects R (raise e : M A).
Proof. intros w. apply R_refl. Qed.

Lemma respects_lift {A} (r : Result A) : respects R (lift r).
Proof. intros w. apply R_refl. Qed.

Lemma respects_bind {A B} (c : M A) (k : A -> M B) :
  respects R c -> (forall a, respects R (k a)) -> respects R (bind c k).
Proof.
  intros Hc Hk w. unfold bind. specialize (Hc w).
  destruct (c w) as [[a|e] w1]; simpl in *; [|done].
  eapply R_trans; [exact Hc|apply Hk].
Qed.

Lemma respects_get {B} (k : NWBFile -> M B) :
  (forall w, R w (k (nwbfile w) w).2) -> respects R (bind get_nwbfile k).
Proof. intros Hk w. apply Hk. Qed.

Lemma respects_get_any {B} (k : NWBFile -> M B) :
  (forall f, respects R (k f)) -> respects R (bind get_nwbfile k).
Proof. intros Hk w. apply Hk. Qed.

Lemma respects_for_each {A} (l : list A) (body : A -> M unit) :
  (forall x, respects R (body x)) -> respects R (for_each l body).
Proof.
  intros Hbody. induction l as [|x l IH]; simpl.
  - apply respects_ret.
  - by apply respects_bind.
Qed.

Lemma respects_add_device dev : respects R (add_device dev).
Proof.
  apply respects_get_any. intros f.
  destruct (pynwb.has_device _ _); [apply respects_ret|apply R_create_device].
Qed.

Lemma respects_add_devices data_type metadata : respects R (add_devices data_type metadata).
Proof. apply respects_for_each, respects_add_device. Qed.

Lemma respects_ensure_devices metadata : respects R (ensure_devices metadata).
Proof.
  apply respects_get_any. intros f.
  destruct (bool_decide _); [|apply respects_ret].
  apply respects_bind; [apply R_warn|intros _; apply respects_add_devices].
Qed.

Lemma get_device_elem_of f name d :
  pynwb.get_device f name = Ok d -> d ∈ devices f /\ dev_name d = name.
Proof.
  unfold pynwb.get_device.
  destruct (List.find _ _) as [d'|] eqn:Hfind; [|done].
  intros [= <-]. apply List.find_some in Hfind as [Hin Hname].
  split; [by apply list_elem_of_In|]. by apply bool_decide_eq_true in Hname.
Qed.

Lemma respects_electrode_body defaults elec : respects R (electrode_body defaults elec).
Proof.
  destruct elec as [elec|]; [|apply respects_raise]. simpl.
  apply respects_bind; [apply respects_lift|intros d0].
  apply respects_bind; [apply respects_lift|intros default_name].
  apply respects_get_any. intros f.
  destruct (pynwb.has_icephys_electrode _ _); [apply respects_ret|].
  apply respects_bind; [apply respects_lift|intros default_device_name].
  apply respects_bind.
  { destruct (pynwb.has_device _ _); [apply respects_ret|].
    apply respects_bind; [apply respects_add_devices|intros _; apply R_warn]. }
  intros _.
  apply respects_bind; [apply respects_lift|intros default_description].
  apply respects_get. intros w.
  unfold bind, lift.
  destruct (pynwb.get_device _ _) as [device|] eqn:Hdev; [|apply R_refl].
  apply R_create_icephys_electrode. simpl. by apply get_device_elem_of in Hdev as [? _].
Qed.

Lemma respects_resolve_electrodes neo_reader metadata :
  respects R (resolve_electrodes neo_reader metadata).
Proof.
  apply respects_get_any. intros f.
  apply respects_bind; [apply respects_lift|intros defaults].
  apply respects_bind.
  { destruct (forallb _ _); [apply respects_ret|apply respects_raise]. }
  intros _. apply respects_bind; [|intros _; apply respects_ret].
  apply respects_for_each, respects_electrode_body.
Qed.

Lemma respects_add_icephys_electrode neo_reader metadata :
  respects R (add_icephys_electrode neo_reader metadata).
Proof.
  apply respects_bind; [apply respects_ensure_devices|].
  intros _. apply respects_resolve_electrodes.
Qed.

End Respects.

Section Growth.

Lemma grows_refl w : grows w w.
Proof. split; try done. exists []. by rewrite app_nil_r. Qed.

Lemma grows_trans w1 w2 w3 : grows w1 w2 -> grows w2 w3 -> grows w1 w3.
Proof.
  intros [Hd1 (es1 & He1 & Hl1) Hr1 Hw1] [Hd2 (es2 & He2 & Hl2) Hr2 Hw2].
  split.
  - by etrans.
  - exists (es1 ++ es2). split; [by rewrite He2, He1, app_assoc|].
    apply Forall_app. split; [|done].
    eapply Forall_impl; [exact Hl1|]. intros e He. simpl in He.
    destruct Hd2 as [ds ->]. apply elem_of_app. by left.
  - congruence.
  - by etrans.
Qed.

Lemma grows_warn msg : respects grows (warn msg).
Proof.
  intros w. split; simpl; try done.
  - exists []. by rewrite app_nil_r.
  - by apply prefix_app_r.
Qed.

Lemma grows_create_device d : respects grows (pynwb.create_device d).
Proof.
  intros w. unfold pynwb.create_device, bind, get_nwbfile.
  destruct (pynwb.has_device _ _); simpl; [apply grows_refl|].
  split; simpl; try done.
  - by apply prefix_app_r.
  - exists []. by rewrite app_nil_r.
Qed.

Lemma grows_create_icephys_electrode e w :
  el_device e ∈ devices (nwbfile w) ->
  grows w (pynwb.create_icephys_electrode e w).2.
Proof.
  intros He. unfold pynwb.create_icephys_electrode, bind, get_nwbfile.
  destruct (pynwb.has_icephys_electrode _ _); simpl; [apply grows_refl|].
  split; simpl; try done.
  exists [e]. split; [done|]. by apply Forall_singleton.
Qed.




Lemma add_icephys_electrode_grows neo_reader metadata :
  respects grows (Neo.add_icephys_electrode neo_reader metadata).
Proof.
  apply respects_add_icephys_electrode.
  - apply grows_refl.
  - apply grows_trans.
  - apply grows_warn.
  - apply grows_create_device.
  - apply grows_create_icephys_electrode.
Qed.


End Growth.

(** ** Devices: the initial check *)

Section Devices.

Import Neo.

Ltac run := unfold bind, ret, lift, raise, get_nwbfile, put_nwbfile, warn; simpl.

Lemma for_each_ok {A} (body : A -> M unit) (l : list A) :
  (forall x w, (body x w).1 = Ok tt) -> forall w, (for_each l body w).1 = Ok tt.
Proof.
  intros Hbody. induction l as [|x l IH]; intros w; [done|].
  simpl. unfold bind. specialize (Hbody x w).
  destruct (body x w) as [[[]|e] w1]; simpl in *; [apply IH|done].
Qed.

Lemma add_device_ok dev w : (add_device dev w).1 = Ok tt.
Proof.
  unfold add_device, pynwb.create_device. run.
  destruct (pynwb.has_device _ _) eqn:Hhas; [done|]. run. by rewrite Hhas.
Qed.

Lemma add_devices_ok data_type metadata w : (add_devices data_type metadata w).1 = Ok tt.
Proof. apply for_each_ok, add_device_ok. Qed.

Lemma requested_devices_cons data_type metadata :
  exists dev rest, requested_devices data_type metadata = dev :: rest.
Proof.
  unfold requested_devices.
  destruct metadata as [m|]; [|by eexists _, _].
  destruct (md_section data_type m) as [sec|]; [|by eexists _, _].
  destruct (md_Device sec) as [[|dev rest]|]; by eexists _, _.
Qed.

Lemma add_device_registers dev w :
  dict_get dev "name" "Device" ∈ pynwb.device_names (nwbfile (add_device dev w).2).
Proof.
  unfold add_device, pynwb.create_device. run.
  destruct (pynwb.has_device _ _) eqn:Hhas.
  - simpl. by apply bool_decide_eq_true in Hhas.
  - run. rewrite Hhas. simpl. unfold pynwb.device_names. simpl.
    rewrite map_app. apply elem_of_app. right. by apply list_elem_of_singleton.
Qed.

Lemma grows_device_names w w' name :
  grows w w' ->
  name ∈ pynwb.device_names (nwbfile w) -> name ∈ pynwb.device_names (nwbfile w').
Proof.
  intros [[ds Hds] _ _ _]. unfold pynwb.device_names. rewrite Hds, map_app.
  intros ?. apply elem_of_app. by left.
Qed.

Lemma grows_electrode_names w w' name :
  grows w w' ->
  name ∈ pynwb.electrode_names (nwbfile w) -> name ∈ pynwb.electrode_names (nwbfile w').
Proof.
  intros [_ (es & Hes & _) _ _]. unfold pynwb.electrode_names. rewrite Hes, map_app.
  intros ?. apply elem_of_app. by left.
Qed.


Lemma ensure_devices_ok metadata w : (ensure_devices metadata w).1 = Ok tt.
Proof.
  unfold ensure_devices. run.
  destruct (bool_decide _); [|done]. run. apply add_devices_ok.
Qed.

Lemma ensure_devices_id metadata w :
  devices (nwbfile w) <> [] -> ensure_devices metadata w = (Ok tt, w).
Proof.
  intros Hne. unfold ensure_devices. run.
  rewrite bool_decide_eq_false_2; [done|].
  by destruct (devices (nwbfile w)).
Qed.

Lemma ensure_devices_nonempty metadata w :
  devices (nwbfile (ensure_devices metadata w).2) <> [].
Proof.
  destruct (devices (nwbfile w)) as [|d ds] eqn:Hdev.
  - unfold ensure_devices. run. rewrite Hdev. simpl. run.
    unfold add_devices.
    destruct (requested_devices_cons Ecephys metadata) as (dev & rest & ->).
    simpl. unfold bind at 1.
    pose proof (add_device_ok dev
      {| nwbfile := nwbfile w; warnings := warnings w ++ [no_devices_warning] |}) as Hok.
    pose proof (add_device_registers dev
      {| nwbfile := nwbfile w; warnings := warnings w ++ [no_devices_warning] |}) as Hreg.
    destruct (add_device dev _) as [[[]|] w1]; simpl in *; [|done].
    pose proof (respects_for_each grows grows_refl grows_trans rest add_device
                  (respects_add_device grows grows_refl grows_create_device) w1) as Hg.
    apply (grows_device_names _ _ _ Hg) in Hreg.
    intros Hnil. unfold pynwb.device_names in Hreg. rewrite Hnil in Hreg.
    by apply elem_of_nil in Hreg.
  - rewrite ensure_devices_id by (by rewrite Hdev). simpl. by rewrite Hdev.
Qed.

End Devices.

Section DefaultDevice.

Import Neo.

Lemma default_device_name : dict_get default_device "name" "Device" = "Device".
Proof. reflexivity. Qed.

Lemma default_device_description : default_device !! "description" = Some "no description".
Proof. reflexivity. Qed.

Lemma default_device_manufacturer : default_device !! "manufacturer" = None.
Proof. reflexivity. Qed.

Lemma names_no_device_requested metadata :
  names_no_device metadata -> requested_devices Ecephys metadata = [default_device].
Proof.
  unfold names_no_device, requested_devices.
  destruct metadata as [m|]; [|done]. simpl.
  destruct (md_Ecephys m) as [sec|]; [|done].
  by intros [-> | ->].
Qed.

Lemma ensure_devices_default metadata w :
  devices (nwbfile w) = [] -> names_no_device metadata ->
  ensure_devices metadata w =
    (Ok tt,
     {| nwbfile := {| devices := [the_default_device];
                      icephys_electrodes := icephys_electrodes (nwbfile w);
                      acquisition := acquisition (nwbfile w);
                      stimulus := stimulus (nwbfile w);
                      intracellular_recordings := intracellular_recordings (nwbfile w) |};
        warnings := warnings w ++ [no_devices_warning] |}).
Proof.
  intros Hdev Hmd. unfold ensure_devices, add_devices.
  rewrite (names_no_device_requested _ Hmd).
  unfold bind, get_nwbfile, warn. rewrite Hdev. simpl.
  unfold bind, add_device, pynwb.create_device, bind, get_nwbfile, put_nwbfile, ret.
  cbn [nwbfile warnings fst snd].
  rewrite default_device_name, default_device_description, default_device_manufacturer.
  unfold pynwb.has_device, pynwb.device_names. rewrite Hdev. simpl.
  rewrite Hdev. reflexivity.
Qed.

End DefaultDevice.

(** C4. When the file has no device and the metadata names none, the call
    issues the warning about missing devices and creates the default device,
    named ["Device"] and described as ["no description"], before anything
    else: it is the first device of the file, whatever the call does next. *)
Theorem default_device_is_created neo_reader metadata w :
  devices (nwbfile w) = [] ->
  names_no_device metadata ->
  exists ds ws,
    devices (nwbfile (Neo.add_icephys_electrode neo_reader metadata w).2) =
      the_default_device :: ds /\
    warnings (Neo.add_icephys_electrode neo_reader metadata w).2 =
      warnings w ++ Neo.no_devices_warning :: ws.
Proof.
  intros Hdev Hmd. unfold Neo.add_icephys_electrode, bind.
  rewrite (ensure_devices_default _ _ Hdev Hmd).
  match goal with |- context [Neo.resolve_electrodes ?r ?m ?w0] =>
    pose proof (respects_resolve_electrodes grows grows_refl grows_trans grows_warn
                  grows_create_device grows_create_icephys_electrode r m w0) as Hg
  end.
  destruct Hg as [[ds Hds] _ _ [ws Hws]]. simpl in Hds, Hws.
  exists ds, ws. split; [exact Hds|]. by rewrite Hws, <- app_assoc.
Qed.

Section Electrodes.

Import Neo.

Lemma default_electrodes_head f n defaults :
  default_electrodes f (seq 0 n) = Ok defaults -> 0 < n ->
  exists d0 device_name,
    defaults !! 0 = Some d0 /\
    pynwb.device_names f !! 0 = Some device_name /\
    d0 !! "name" = Some "icephys_electrode_0" /\
    d0 !! "description" = Some "no description" /\
    d0 !! "device_name" = Some device_name.
Proof.
  intros Hdef Hn. destruct n as [|n]; [lia|]. simpl in Hdef.
  unfold default_electrode, list_index in Hdef.
  destruct (pynwb.device_names f !! 0) as [device_name|]; [|done]. simpl in Hdef.
  destruct (default_electrodes f (seq 1 n)) as [ds|]; [|done]. simpl in Hdef.
  injection Hdef as <-. eexists _, device_name.
  split; [reflexivity|]. split; [done|].
  split; [|split].
  - by rewrite lookup_insert_eq.
  - rewrite lookup_insert_ne by done. by rewrite lookup_insert_eq.
  - rewrite !lookup_insert_ne by done. by rewrite lookup_singleton_eq.
Qed.

Lemma dict_get_Some (d : dict) key v dflt : d !! key = Some v -> dict_get d key dflt = v.
Proof. unfold dict_get. by intros ->. Qed.

Lemma get_device_last f d :
  dev_name d ∉ pynwb.device_names f ->
  pynwb.get_device
    {| devices := devices f ++ [d];
       icephys_electrodes := icephys_electrodes f;
       acquisition := acquisition f;
       stimulus := stimulus f;
       intracellular_recordings := intracellular_recordings f |} (dev_name d) = Ok d.
Proof.
  unfold pynwb.get_device, pynwb.device_names. simpl.
  induction (devices f) as [|d' ds IH]; simpl; intros Hnot.
  - by rewrite bool_decide_eq_true_2.
  - rewrite bool_decide_eq_false_2.
    + apply IH. intros Hin. apply Hnot. by right.
    + intros Heq. apply Hnot. rewrite <- Heq. by left.
Qed.


End Electrodes.

(** The iteration on a descriptor whose electrode name is not registered
    and whose device is absent: device, warning, electrode. *)
Lemma electrode_body_creates_device f n defaults elec device_name w :
  0 < n ->
  Neo.default_electrodes f (seq 0 n) = Ok defaults ->
  elec !! "device_name" = Some device_name ->
  pynwb.has_icephys_electrode (nwbfile w)
    (dict_get elec "name" "icephys_electrode_0") = false ->
  pynwb.has_device (nwbfile w) device_name = false ->
  let device := {| dev_name := device_name;
                   dev_description := None;
                   dev_manufacturer := None |} in
  Neo.electrode_body defaults (PyDict elec) w =
    (Ok tt,
     {| nwbfile :=
          {| devices := devices (nwbfile w) ++ [device];
             icephys_electrodes := icephys_electrodes (nwbfile w) ++
               [ {| el_name := dict_get elec "name" "icephys_electrode_0";
                    el_description := dict_get elec "description" "no description";
                    el_device := device |} ];
             acquisition := acquisition (nwbfile w);
             stimulus := stimulus (nwbfile w);
             intracellular_recordings := intracellular_recordings (nwbfile w) |};
        warnings := warnings w ++
          [ "Device '" +:+ device_name +:+
            "' not detected in attempted link to icephys electrode! Automatically generating." ] |}).
Proof.
  intros Hn Hdef Hdn Hel Hdev device. subst device.
  destruct (default_electrodes_head _ _ _ Hdef Hn)
    as (d0 & dn0 & Hd0 & _ & Hname & Hdescr & Hdevn).
  unfold Neo.electrode_body, list_index, dict_item.
  unfold bind at 1, lift at 1. rewrite Hd0.
  unfold bind at 1, lift at 1. rewrite Hname.
  unfold bind at 1, get_nwbfile at 1. rewrite Hel.
  unfold bind at 1, lift at 1. rewrite Hdevn.
  rewrite !(dict_get_Some elec "device_name" device_name) by done.
  rewrite Hdev.
  unfold Neo.add_devices, Neo.requested_devices. cbn [md_section md_Ecephys md_Device for_each].
  unfold Neo.add_device.
  rewrite !(dict_get_Some {[ "name" := device_name ]} "name" device_name)
    by apply lookup_singleton_eq.
  rewrite !lookup_singleton_ne by done.
  unfold pynwb.create_device, bind, get_nwbfile, put_nwbfile, ret, warn, lift.
  cbn [nwbfile warnings dev_name]. rewrite !Hdev. cbv beta iota zeta.
  cbn [nwbfile warnings dev_name].
  rewrite Hdescr.
  pose proof (get_device_last (nwbfile w)
                {| dev_name := device_name; dev_description := None;
                   dev_manufacturer := None |}) as Hget.
  cbn [dev_name] in Hget.
  rewrite Hget.
  2:{ unfold pynwb.has_device in Hdev. by apply bool_decide_eq_false in Hdev. }
  unfold pynwb.create_icephys_electrode, bind, get_nwbfile, put_nwbfile, raise.
  cbn [nwbfile warnings el_name].
  unfold pynwb.has_icephys_electrode, pynwb.electrode_names in *.
  cbn [icephys_electrodes]. rewrite Hel.
  reflexivity.
Qed.

Section Resolution.

Import Neo.

Lemma add_icephys_electrode_unfold neo_reader metadata w :
  add_icephys_electrode neo_reader metadata w =
    resolve_electrodes neo_reader metadata (ensure_devices metadata w).2.
Proof.
  unfold add_icephys_electrode, bind.
  pose proof (ensure_devices_ok metadata w) as Hok.
  destruct (ensure_devices metadata w) as [[[]|] w0]; simpl in *; done.
Qed.

Lemma resolve_electrodes_inv neo_reader metadata w md1 w1 :
  resolve_electrodes neo_reader metadata w = (Ok md1, w1) ->
  exists defaults,
    default_electrodes (nwbfile w) (seq 0 (get_number_of_electrodes neo_reader)) = Ok defaults /\
    forallb is_dict (chosen_electrodes (icephys_section metadata) defaults) = true /\
    for_each (chosen_electrodes (icephys_section metadata) defaults)
             (electrode_body defaults) w = (Ok tt, w1) /\
    md1 = set_electrodes metadata (chosen_electrodes (icephys_section metadata) defaults).
Proof.
  unfold resolve_electrodes, bind, get_nwbfile, lift.
  destruct (default_electrodes _ _) as [defaults|]; [|done].
  destruct (forallb _ _) eqn:Hdicts; [|done]. unfold ret at 1.
  destruct (for_each _ _ w) as [[[]|] w'] eqn:Hloop; [|done].
  unfold ret. intros [= <- <-]. by exists defaults.
Qed.

Lemma resolve_electrodes_run neo_reader metadata w defaults w1 :
  default_electrodes (nwbfile w) (seq 0 (get_number_of_electrodes neo_reader)) = Ok defaults ->
  forallb is_dict (chosen_electrodes (icephys_section metadata) defaults) = true ->
  for_each (chosen_electrodes (icephys_section metadata) defaults)
           (electrode_body defaults) w = (Ok tt, w1) ->
  resolve_electrodes neo_reader metadata w =
    (Ok (set_electrodes metadata (chosen_electrodes (icephys_section metadata) defaults)), w1).
Proof.
  intros Hdef Hdicts Hloop.
  unfold resolve_electrodes, bind, get_nwbfile, lift.
  rewrite Hdef, Hdicts. unfold ret at 1. by rewrite Hloop.
Qed.





(** What an iteration that returns leaves behind. *)
Lemma electrode_body_inv defaults x w w' :
  electrode_body defaults x w = (Ok tt, w') ->
  exists elec d0 default_name,
    x = PyDict elec /\ defaults !! 0 = Some d0 /\ d0 !! "name" = Some default_name /\
    dict_get elec "name" default_name ∈ pynwb.electrode_names (nwbfile w').
Proof.
  destruct x as [elec|]; [|done]. unfold electrode_body, list_index, dict_item.
  unfold bind at 1, lift at 1.
  destruct (defaults !! 0) as [d0|] eqn:Hd0; [|done].
  unfold bind at 1, lift at 1.
  destruct (d0 !! "name") as [default_name|] eqn:Hname; [|done].
  unfold bind at 1, get_nwbfile at 1.
  destruct (pynwb.has_icephys_electrode _ _) eqn:Hhas.
  - unfold ret. intros [= <-]. exists elec, d0, default_name.
    do 3 (split; [done|]).
    unfold pynwb.has_icephys_electrode in Hhas. by apply bool_decide_eq_true in Hhas.
  - unfold bind at 1, lift at 1.
    destruct (d0 !! "device_name") as [default_device_name|]; [|done].
    unfold bind at 1.
    match goal with |- context [(if ?b then ?c1 else ?c2) w] =>
      destruct ((if b then c1 else c2) w) as [[[]|] w1] end; [|done].
    unfold bind at 1, lift at 1.
    destruct (d0 !! "description") as [default_description|]; [|done].
    unfold bind at 1, get_nwbfile at 1.
    unfold bind at 1, lift at 1.
    destruct (pynwb.get_device _ _) as [device|]; [|done].
    unfold pynwb.create_icephys_electrode, bind, get_nwbfile, put_nwbfile, raise.
    cbn [el_name].
    destruct (pynwb.has_icephys_electrode (nwbfile w1) _); [done|].
    intros [= <-]. exists elec, d0, default_name. do 3 (split; [done|]).
    unfold pynwb.electrode_names. simpl. rewrite map_app.
    apply elem_of_app. right. by apply list_elem_of_singleton.
Qed.

(** An iteration on a registered name changes nothing. *)
Lemma electrode_body_skip defaults elec d0 default_name w :
  defaults !! 0 = Some d0 -> d0 !! "name" = Some default_name ->
  dict_get elec "name" default_name ∈ pynwb.electrode_names (nwbfile w) ->
  electrode_body defaults (PyDict elec) w = (Ok tt, w).
Proof.
  intros Hd0 Hname Hin. unfold electrode_body, list_index, dict_item.
  unfold bind at 1, lift at 1. rewrite Hd0.
  unfold bind at 1, lift at 1. rewrite Hname.
  unfold bind at 1, get_nwbfile at 1.
  unfold pynwb.has_icephys_electrode. by rewrite bool_decide_eq_true_2.
Qed.

Lemma electrode_body_grows defaults x : respects grows (electrode_body defaults x).
Proof.
  apply respects_electrode_body.
  - apply grows_refl.
  - apply grows_trans.
  - apply grows_warn.
  - apply grows_create_device.
  - apply grows_create_icephys_electrode.
Qed.


End Resolution.


(** C9. Every electrode that a call of [add_icephys_electrode] adds to the
    file is linked to a device of the file (devices are only ever added, and
    the device is looked up in the file when the electrode is created); and
    the file has at least one device after the call, in particular when the
    call returns. *)
Theorem electrodes_are_linked_to_devices neo_reader metadata w :
  (exists es,
     icephys_electrodes (nwbfile (Neo.add_icephys_electrode neo_reader metadata w).2) =
       icephys_electrodes (nwbfile w) ++ es /\
     Forall (fun e =>
               el_device e ∈
                 devices (nwbfile (Neo.add_icephys_electrode neo_reader metadata w).2)) es) /\
  devices (nwbfile (Neo.add_icephys_electrode neo_reader metadata w).2) <> [].
Proof.
  split.
  - apply (add_icephys_electrode_grows neo_reader metadata w).
  - rewrite add_icephys_electrode_unfold.
    pose proof (ensure_devices_nonempty metadata w) as Hne.
    pose proof (respects_resolve_electrodes grows grows_refl grows_trans grows_warn
                  grows_create_device grows_create_icephys_electrode neo_reader metadata
                  (Neo.ensure_devices metadata w).2) as [[ds Hds] _ _ _].
    rewrite Hds. by destruct (devices (nwbfile (Neo.ensure_devices metadata w).2)).
Qed.

Section Malformed.

Import Neo.

Lemma default_electrodes_ok f ids :
  devices f <> [] -> exists defaults, default_electrodes f ids = Ok defaults.
Proof.
  intros Hne. induction ids as [|elec_id ids [defaults IH]]; [by exists []|].
  simpl. unfold default_electrode, list_index, pynwb.device_names.
  destruct (devices f) as [|d ds]; [done|]. simpl in *.
  rewrite IH. simpl. by eexists.
Qed.

Lemma forallb_false_chosen icephys Electrodes defaults :
  md_Electrodes icephys = Some Electrodes ->
  forallb is_dict Electrodes = false ->
  chosen_electrodes icephys defaults = Electrodes.
Proof.
  unfold chosen_electrodes. intros -> Hf. by destruct Electrodes.
Qed.

Lemma ensure_devices_keeps_electrodes metadata w :
  icephys_electrodes (nwbfile (ensure_devices metadata w).2) =
  icephys_electrodes (nwbfile w).
Proof.
  apply (respects_ensure_devices
           (fun w w' => icephys_electrodes (nwbfile w') = icephys_electrodes (nwbfile w))).
  - done.
  - intros w1 w2 w3 H12 H23. by rewrite H23.
  - by intros msg w'.
  - intros d w'. unfold pynwb.create_device, bind, get_nwbfile.
    by destruct (pynwb.has_device _ _).
Qed.

End Malformed.

(** C8 (amended). When [metadata["Icephys"]["Electrodes"]] holds an element
    that is not a mapping, [add_icephys_electrode] fails with its assertion
    error before any electrode is resolved: the file is as the initial
    device check (lines 136-138) left it, so no electrode has been added,
    and a file that had a device is unchanged, warnings included. *)
Theorem malformed_electrodes_are_rejected neo_reader m icephys Electrodes w :
  md_Icephys m = Some icephys ->
  md_Electrodes icephys = Some Electrodes ->
  forallb is_dict Electrodes = false ->
  Neo.add_icephys_electrode neo_reader (Some m) w =
    (Raise (AssertionError Neo.electrodes_assertion), (Neo.ensure_devices (Some m) w).2) /\
  icephys_electrodes (nwbfile (Neo.ensure_devices (Some m) w).2) =
    icephys_electrodes (nwbfile w) /\
  (devices (nwbfile w) <> [] -> (Neo.ensure_devices (Some m) w).2 = w).
Proof.
  intros Hic Hel Hbad. split; [|split].
  - rewrite add_icephys_electrode_unfold.
    pose proof (ensure_devices_nonempty (Some m) w) as Hne.
    set (w0 := (Neo.ensure_devices (Some m) w).2) in *.
    destruct (default_electrodes_ok (nwbfile w0)
                (seq 0 (Neo.get_number_of_electrodes neo_reader)) Hne) as [defaults Hdef].
    unfold Neo.resolve_electrodes, bind, get_nwbfile, lift. rewrite Hdef.
    unfold Neo.icephys_section. simpl. rewrite Hic. simpl.
    rewrite (forallb_false_chosen _ _ _ Hel Hbad), Hbad. reflexivity.
  - apply ensure_devices_keeps_electrodes.
  - intros Hne. by rewrite ensure_devices_id.
Qed.

(** ** [add_icephys_recording]: the loops *)

Section RecordingRows.

Import Neo.

Variable neo_reader : NeoReader.

Lemma command_trace_None si ei :
  command_channels neo_reader si <= ei -> command_trace neo_reader si ei = None.
Proof.
  unfold command_channels, command_trace.
  destruct ((read_raw_protocol neo_reader).1.1 !! si) as [ts|]; simpl; [|done].
  intros Hle. by apply lookup_ge_None_2.
Qed.

Lemma ready_trace si ei :
  ready neo_reader si ei = true ->
  exists data,
    command_trace neo_reader si ei = Some data /\ length data <> 0 /\
    length (get_analogsignal_chunk neo_reader si ei) <> 0.
Proof.
  unfold ready. destruct (command_trace neo_reader si ei) as [data|]; [|done].
  intros [? ?]%bool_decide_eq_true. by exists data.
Qed.

Lemma store_by_name_present {A} (name_of : A -> string) l x :
  name_of x ∈ map name_of l -> store_by_name name_of l x = l.
Proof. intros Hin. unfold store_by_name. by rewrite bool_decide_eq_true_2. Qed.

(** One iteration, for an electrode of the file. *)
Lemma recording_body_run si ei electrode w :
  el_name electrode ∈ pynwb.electrode_names (nwbfile w) ->
  recording_body neo_reader si ei electrode w =
    match command_trace neo_reader si ei with
    | Some data =>
        if ready neo_reader si ei
        then (Ok tt, store_row w (recording_row neo_reader si ei electrode data))
        else (Raise IndexError,
              store_series w (recording_row neo_reader si ei electrode data))
    | None => (Raise IndexError, w)
    end.
Proof.
  intros Hel. unfold ready.
  unfold recording_body, command_trace, list_index. rewrite bind_run. unfold lift at 1.
  destruct ((read_raw_protocol neo_reader).1.1 !! si) as [ts|]; [|done].
  rewrite bind_run. unfold lift at 1.
  destruct (ts !! ei) as [data|]; [|done].
  unfold pynwb.add_intracellular_recording.
  rewrite bind_run. unfold get_nwbfile at 1.
  rewrite bind_run. unfold put_nwbfile at 1.
  cbn [ir_electrode ir_stimulus ir_response vcss_data vcs_data].
  rewrite (store_by_name_present el_name) by done.
  destruct (decide (length data = 0)) as [Hdata|Hdata].
  { rewrite bind_run, (bool_decide_eq_true_2 _ Hdata).
    assert (bool_decide (length data <> 0 /\
                         length (get_analogsignal_chunk neo_reader si ei) <> 0) = false)
      as -> by (apply bool_decide_eq_false_2; intros [? _]; done).
    done. }
  rewrite bind_run, (bool_decide_eq_false_2 _ Hdata). unfold ret at 1.
  destruct (decide (length (get_analogsignal_chunk neo_reader si ei) = 0)) as [Hchunk|Hchunk].
  { rewrite bind_run, (bool_decide_eq_true_2 _ Hchunk).
    assert (bool_decide (length data <> 0 /\
                         length (get_analogsignal_chunk neo_reader si ei) <> 0) = false)
      as -> by (apply bool_decide_eq_false_2; intros [_ ?]; done).
    done. }
  rewrite bind_run, (bool_decide_eq_false_2 _ Hchunk). unfold ret at 1.
  assert (bool_decide (length data <> 0 /\
                       length (get_analogsignal_chunk neo_reader si ei) <> 0) = true)
    as -> by (by apply bool_decide_eq_true_2).
  done.
Qed.

Lemma add_rows_app w rows1 rows2 :
  add_rows (add_rows w rows1) rows2 = add_rows w (rows1 ++ rows2).
Proof. unfold add_rows. by rewrite foldl_app. Qed.

Lemma add_rows_electrodes rows :
  forall w, icephys_electrodes (nwbfile (add_rows w rows)) = icephys_electrodes (nwbfile w).
Proof. induction rows as [|row rows IH]; intros w; [done|]. simpl. by rewrite IH. Qed.

Lemma segment_complete_cons si ei electrode els :
  segment_complete neo_reader si ei (electrode :: els) =
    ready neo_reader si ei && segment_complete neo_reader si (S ei) els.
Proof. done. Qed.

Lemma segment_pending_complete si els :
  forall ei,
    segment_complete neo_reader si ei els = true ->
    segment_pending neo_reader si ei els = [].
Proof.
  induction els as [|electrode els IH]; intros ei; [done|].
  rewrite segment_complete_cons. intros [Hready Hrest]%andb_true_iff.
  cbn [segment_pending]. destruct (ready_trace _ _ Hready) as (data & -> & _).
  rewrite Hready. by apply IH.
Qed.

Lemma electrodes_loop_run si (els : list IntracellularElectrode) :
  forall ei w,
    Forall (fun e => el_name e ∈ pynwb.electrode_names (nwbfile w)) els ->
    for_enumerate ei els (recording_body neo_reader si) w =
      (if segment_complete neo_reader si ei els then Ok tt else Raise IndexError,
       add_series (add_rows w (segment_rows neo_reader si ei els))
                  (segment_pending neo_reader si ei els)).
Proof.
  induction els as [|electrode els IH]; intros ei w Hels; [done|].
  apply Forall_cons in Hels as [Hel Hels].
  cbn [for_enumerate segment_rows segment_pending].
  rewrite bind_run, recording_body_run, segment_complete_cons by done.
  destruct (command_trace neo_reader si ei) as [data|] eqn:Htrace.
  - destruct (ready neo_reader si ei); [|done].
    rewrite IH; [done|]. exact Hels.
  - unfold ready. by rewrite Htrace.
Qed.

Lemma segment_body_run si w :
  segment_body neo_reader si w =
    (if segment_complete neo_reader si 0 (icephys_electrodes (nwbfile w))
     then Ok tt else Raise IndexError,
     add_series (add_rows w (segment_rows neo_reader si 0 (icephys_electrodes (nwbfile w))))
                (segment_pending neo_reader si 0 (icephys_electrodes (nwbfile w)))).
Proof.
  unfold segment_body. rewrite bind_run. apply electrodes_loop_run.
  apply Forall_forall. intros e He. by apply list_elem_of_fmap_2.
Qed.

Lemma segments_loop_run (sis : list nat) :
  forall w,
    for_each sis (segment_body neo_reader) w =
      (if forallb (fun si => segment_complete neo_reader si 0 (icephys_electrodes (nwbfile w))) sis
       then Ok tt else Raise IndexError,
       add_series
         (add_rows w (recording_rows neo_reader (icephys_electrodes (nwbfile w)) sis))
         (recording_pending neo_reader (icephys_electrodes (nwbfile w)) sis)).
Proof.
  induction sis as [|si sis IH]; intros w; [done|].
  cbn [for_each recording_rows recording_pending forallb].
  rewrite bind_run, segment_body_run.
  destruct (segment_complete _ _ _ _) eqn:Hcomplete; simpl.
  - rewrite (segment_pending_complete _ _ _ Hcomplete). cbn [add_series foldl].
    rewrite IH, add_rows_electrodes. by rewrite add_rows_app.
  - by rewrite app_nil_r.
Qed.

(** The whole function, by cases. *)
Lemma add_icephys_recording_run metadata w :
  add_icephys_recording neo_reader metadata w =
    match nb_segment neo_reader !! 0 with
    | None => (Raise IndexError, w)
    | Some n_segments =>
        let n_commands := length (read_raw_protocol neo_reader).1.1 in
        if bool_decide (n_commands = 0 \/ n_commands = n_segments)
        then for_each (seq 0 n_segments) (segment_body neo_reader) w
        else (Raise (AssertionError (commands_assertion n_segments n_commands)), w)
    end.
Proof.
  unfold add_icephys_recording, get_number_of_segments, list_index.
  rewrite bind_run. unfold lift at 1.
  destruct (nb_segment neo_reader !! 0) as [n_segments|]; [|done].
  rewrite bind_run. cbv zeta.
  destruct (decide (length (read_raw_protocol neo_reader).1.1 = 0)) as [H0|H0].
  - rewrite !bool_decide_eq_true_2; [done|by left|done].
  - rewrite (bool_decide_eq_false_2 _ H0).
    destruct (decide (length (read_raw_protocol neo_reader).1.1 = n_segments)) as [Hn|Hn].
    + rewrite !bool_decide_eq_true_2; [done|by right|done].
    + rewrite !bool_decide_eq_false_2; [done|intros [?|?]; done|done].
Qed.

End RecordingRows.

Section RecordingFacts.

Import Neo.

Variable neo_reader : NeoReader.

(** The fields of the file after rows and series. *)
Lemma add_rows_recorded rows :
  forall w, recorded w (add_rows w rows) rows rows.
Proof.
  induction rows as [|row rows IH]; intros w.
  - unfold recorded. simpl. by rewrite app_nil_r.
  - destruct (IH (store_row w row)) as (Hd & He & Ha & Hs & Hr & Hw).
    unfold recorded. cbn [add_rows foldl map]. fold (add_rows (store_row w row) rows).
    rewrite Hd, He, Ha, Hs, Hr, Hw. simpl. by rewrite <- app_assoc.
Qed.

Lemma add_series_recorded pending :
  forall w w0 series rows,
    recorded w0 w series rows ->
    recorded w0 (add_series w pending) (series ++ pending) rows.
Proof.
  induction pending as [|row pending IH]; intros w w0 series rows Hrec.
  - by rewrite app_nil_r.
  - cbn [add_series foldl]. fold (add_series (store_series w row) pending).
    replace (series ++ row :: pending) with ((series ++ [row]) ++ pending)
      by (by rewrite <- app_assoc).
    apply IH. destruct Hrec as (Hd & He & Ha & Hs & Hr & Hw).
    unfold recorded. simpl. rewrite !map_app, !foldl_app. simpl.
    by rewrite Hd, He, Ha, Hs, Hr, Hw.
Qed.

Lemma recorded_at_row si ei electrode data :
  recorded_at neo_reader (recording_row neo_reader si ei electrode data) (si, ei).
Proof. by repeat split. Qed.

(** Every row of a segment is the row of an electrode and its trace. *)
Lemma segment_rows_inv si (els : list IntracellularElectrode) :
  forall ei k row,
    segment_rows neo_reader si ei els !! k = Some row ->
    exists electrode data,
      els !! k = Some electrode /\
      command_trace neo_reader si (ei + k) = Some data /\
      ready neo_reader si (ei + k) = true /\
      row = recording_row neo_reader si (ei + k) electrode data.
Proof.
  induction els as [|electrode els IH]; intros ei k row Hrow; [done|].
  cbn [segment_rows] in Hrow.
  destruct (command_trace neo_reader si ei) as [data|] eqn:Htrace; [|done].
  destruct (ready neo_reader si ei) eqn:Hready; [|done].
  destruct k as [|k]; simpl in Hrow.
  - injection Hrow as <-. exists electrode, data. rewrite Nat.add_0_r. by repeat split.
  - destruct (IH (S ei) k row Hrow) as (e & d & He & Hd & Hr & ->).
    exists e, d. replace (ei + S k) with (S ei + k) by lia. by repeat split.
Qed.

Lemma segment_pending_inv si (els : list IntracellularElectrode) :
  forall ei row,
    row ∈ segment_pending neo_reader si ei els ->
    exists k electrode data, row = recording_row neo_reader si (ei + k) electrode data.
Proof.
  induction els as [|electrode els IH]; intros ei row Hrow.
  - by apply elem_of_nil in Hrow.
  - cbn [segment_pending] in Hrow.
    destruct (command_trace neo_reader si ei) as [data|] eqn:Htrace;
      [|by apply elem_of_nil in Hrow].
    destruct (ready neo_reader si ei).
    + destruct (IH (S ei) row Hrow) as (k & e & d & ->).
      exists (S k), e, d. by replace (ei + S k) with (S ei + k) by lia.
    + apply list_elem_of_singleton in Hrow as ->. exists 0, electrode, data.
      by rewrite Nat.add_0_r.
Qed.

(** The rows of a segment whose first [m] electrodes are ready and whose
    next one, if any, is not. *)
Lemma segment_rows_stop si (els : list IntracellularElectrode) :
  forall ei m,
    m <= length els ->
    (forall k, k < m -> ready neo_reader si (ei + k) = true) ->
    (m < length els -> ready neo_reader si (ei + m) = false) ->
    length (segment_rows neo_reader si ei els) = m /\
    (segment_complete neo_reader si ei els = true <-> m = length els).
Proof.
  induction els as [|electrode els IH]; intros ei m Hm Hready Hstop.
  - simpl in *. assert (m = 0) as -> by lia. done.
  - rewrite segment_complete_cons. cbn [segment_rows length] in *.
    destruct m as [|m].
    + rewrite Nat.add_0_r in Hstop. rewrite (Hstop ltac:(lia)).
      destruct (command_trace neo_reader si ei); simpl; split; done.
    + pose proof (Hready 0 ltac:(lia)) as H0. rewrite Nat.add_0_r in H0.
      destruct (ready_trace _ _ _ H0) as (data & -> & _). rewrite H0.
      destruct (IH (S ei) m) as [Hlen Hcomplete].
      * lia.
      * intros k Hk. replace (S ei + k) with (ei + S k) by lia. apply Hready. lia.
      * intros Hlt. replace (S ei + m) with (ei + S m) by lia. apply Hstop. lia.
      * cbn [length]. rewrite Hlen. split; [done|].
        simpl. rewrite Hcomplete. split; intros; lia.
Qed.

Lemma segment_complete_spec si (els : list IntracellularElectrode) :
  segment_complete neo_reader si 0 els = true <->
  forall ei, ei < length els -> ready neo_reader si ei = true.
Proof.
  unfold segment_complete. rewrite forallb_forall. split.
  - intros Hall ei Hei. apply Hall, in_seq. lia.
  - intros Hall ei Hei%in_seq. apply Hall. lia.
Qed.

Lemma segment_rows_complete si (els : list IntracellularElectrode) :
  segment_complete neo_reader si 0 els = true ->
  length (segment_rows neo_reader si 0 els) = length els.
Proof.
  intros Hcomplete.
  destruct (segment_rows_stop si els 0 (length els)) as [Hlen _]; [done| |lia|done].
  intros k Hk. simpl. by apply (proj1 (segment_complete_spec si els) Hcomplete).
Qed.

(** All segments of [sis] complete: the rows are those of every segment,
    and no series is stored without its row. *)
Lemma recording_rows_complete (els : list IntracellularElectrode) (sis : list nat) :
  forallb (fun si => segment_complete neo_reader si 0 els) sis = true ->
  recording_pending neo_reader els sis = [] /\
  length (recording_rows neo_reader els sis) = length sis * length els /\
  forall j si k electrode,
    sis !! j = Some si -> els !! k = Some electrode ->
    exists data,
      command_trace neo_reader si k = Some data /\
      recording_rows neo_reader els sis !! (j * length els + k) =
        Some (recording_row neo_reader si k electrode data).
Proof.
  induction sis as [|si0 sis IH]; intros Hall; [done|].
  cbn [forallb] in Hall. apply andb_true_iff in Hall as [H0 Hrest].
  destruct (IH Hrest) as (Hpending & Hlen & Hlook).
  cbn [recording_rows recording_pending]. rewrite H0.
  pose proof (segment_rows_complete si0 els H0) as Hseg.
  split; [done|]. split.
  - rewrite length_app, Hseg, Hlen. simpl. lia.
  - intros j si k electrode Hj Hk.
    pose proof (lookup_lt_Some _ _ _ Hk) as Hklt.
    destruct j as [|j]; simpl in Hj.
    + injection Hj as ->. simpl.
      rewrite lookup_app_l by lia.
      destruct (lookup_lt_is_Some_2 (segment_rows neo_reader si 0 els) k) as [row Hrow];
        [lia|].
      destruct (segment_rows_inv _ _ _ _ _ Hrow) as (e & data & He & Hdata & _ & ->).
      simpl in Hdata. assert (e = electrode) as -> by congruence.
      by exists data.
    + destruct (Hlook j si k electrode Hj Hk) as (data & Hdata & Hrow).
      exists data. split; [done|].
      rewrite lookup_app_r by (rewrite Hseg; simpl; lia).
      rewrite Hseg. rewrite <- Hrow. f_equal. simpl. lia.
Qed.

(** The rows when segment [si0] is the first that is not complete, its
    first [m] electrodes being ready. *)
Lemma recording_rows_partial (els : list IntracellularElectrode) (pre post : list nat)
    si0 m :
  forallb (fun si => segment_complete neo_reader si 0 els) pre = true ->
  m < length els ->
  (forall k, k < m -> ready neo_reader si0 k = true) ->
  ready neo_reader si0 m = false ->
  forallb (fun si => segment_complete neo_reader si 0 els) (pre ++ si0 :: post) = false /\
  length (recording_rows neo_reader els (pre ++ si0 :: post)) = length pre * length els + m /\
  recording_pending neo_reader els (pre ++ si0 :: post) = segment_pending neo_reader si0 0 els.
Proof.
  intros Hpre Hm Hready Hstop.
  destruct (segment_rows_stop si0 els 0 m) as [Hlen Hcomplete]; [lia|done|done|].
  assert (segment_complete neo_reader si0 0 els = false) as Hinc.
  { apply not_true_is_false. rewrite Hcomplete. lia. }
  induction pre as [|si pre IH].
  - simpl. rewrite Hinc. split; [done|]. by rewrite app_nil_r.
  - cbn [forallb] in Hpre. apply andb_true_iff in Hpre as [H0 Hrest].
    destruct (IH Hrest) as (Hfalse & Hlen' & Hpending).
    cbn [app forallb recording_rows recording_pending]. rewrite H0, Hfalse.
    split; [done|]. split; [|done].
    rewrite length_app, Hlen', (segment_rows_complete _ _ H0). simpl. lia.
Qed.

(** Whatever the outcome, the rows and the stored series are those of
    pairs (segment, electrode). *)
Lemma recording_rows_recorded_at (els : list IntracellularElectrode) (sis : list nat) :
  Forall (fun row => exists si ei, recorded_at neo_reader row (si, ei))
         (recording_rows neo_reader els sis ++ recording_pending neo_reader els sis).
Proof.
  apply Forall_app. split.
  - induction sis as [|si sis IH]; [done|].
    cbn [recording_rows]. apply Forall_app. split.
    + apply Forall_forall. intros row [k Hk]%list_elem_of_lookup.
      destruct (segment_rows_inv _ _ _ _ _ Hk) as (e & data & _ & _ & _ & ->).
      exists si, (0 + k). apply recorded_at_row.
    + by destruct (segment_complete _ _ _ _).
  - induction sis as [|si sis IH]; [done|].
    cbn [recording_pending]. destruct (segment_complete _ _ _ _); [done|].
    apply Forall_forall. intros row Hrow.
    destruct (segment_pending_inv _ _ _ _ Hrow) as (k & e & data & ->).
    exists si, (0 + k). apply recorded_at_row.
Qed.

(** The file that the loop over the segments leaves. *)
Lemma segments_loop_recorded (sis : list nat) w :
  recorded w (for_each sis (segment_body neo_reader) w).2
    (recording_rows neo_reader (icephys_electrodes (nwbfile w)) sis ++
     recording_pending neo_reader (icephys_electrodes (nwbfile w)) sis)
    (recording_rows neo_reader (icephys_electrodes (nwbfile w)) sis).
Proof.
  rewrite segments_loop_run. cbn [snd].
  apply add_series_recorded, add_rows_recorded.
Qed.

End RecordingFacts.

(** C10. The series that [add_icephys_recording] creates: whatever the
    reader and the outcome of the call, every stimulus series that the call
    has stored carries the starting time 123.6 and the response series
    paired with it the reader's signal start of its segment, and the row
    of each pair is appended unless the call stopped at it.  When block 0
    has a segment count that passes the check on the command sweeps and
    every pair (segment, electrode of the file) has a command trace and a
    signal chunk with a sample, the call returns and has created the series
    of every pair, in order: the row of segment [si] and of the electrode
    enumerated as [ei] holds that electrode, a stimulus starting at 123.6
    and a response starting at the signal start of segment [si]. *)
Theorem stimulus_starting_time_is_fixed neo_reader metadata w :
  (exists series rows,
     recorded w (Neo.add_icephys_recording neo_reader metadata w).2 series rows /\
     rows `prefix_of` series /\
     Forall (fun row => exists si ei, recorded_at neo_reader row (si, ei)) series) /\
  (forall n_segments,
     nb_segment neo_reader !! 0 = Some n_segments ->
     (length (read_raw_protocol neo_reader).1.1 = 0 \/
      length (read_raw_protocol neo_reader).1.1 = n_segments) ->
     length (icephys_electrodes (nwbfile w)) <= Neo.get_number_of_electrodes neo_reader ->
     (forall si ei,
        si < n_segments -> ei < length (icephys_electrodes (nwbfile w)) ->
        ready neo_reader si ei = true) ->
     exists rows,
       (Neo.add_icephys_recording neo_reader metadata w).1 = Ok tt /\
       recorded w (Neo.add_icephys_recording neo_reader metadata w).2 rows rows /\
       length rows = n_segments * length (icephys_electrodes (nwbfile w)) /\
       forall si ei electrode,
         si < n_segments ->
         icephys_electrodes (nwbfile w) !! ei = Some electrode ->
         exists row,
           rows !! (si * length (icephys_electrodes (nwbfile w)) + ei) = Some row /\
           ir_electrode row = electrode /\
           recorded_at neo_reader row (si, ei)).
Proof.
  split.
  - rewrite add_icephys_recording_run.
    assert (exists series rows,
              recorded w w series rows /\ rows `prefix_of` series /\
              Forall (fun row => exists si ei, recorded_at neo_reader row (si, ei)) series)
      as Hnone.
    { exists [], []. split; [|done]. unfold recorded. simpl. by rewrite app_nil_r. }
    destruct (nb_segment neo_reader !! 0) as [n_segments|]; [|exact Hnone].
    cbv zeta. destruct (bool_decide _); [|exact Hnone].
    eexists _, _. split; [apply segments_loop_recorded|].
    split; [by apply prefix_app_r|apply recording_rows_recorded_at].
  - intros n_segments Hseg Hcheck _ Hready.
    rewrite add_icephys_recording_run, Hseg. cbv zeta.
    rewrite bool_decide_eq_true_2 by done.
    assert (forallb (fun si => segment_complete neo_reader si 0
                       (icephys_electrodes (nwbfile w))) (seq 0 n_segments) = true) as Hall.
    { apply forallb_forall. intros si Hin%in_seq.
      apply segment_complete_spec. intros ei Hei. apply Hready; lia. }
    destruct (recording_rows_complete neo_reader _ _ Hall) as (Hpending & Hlen & Hlook).
    pose proof (segments_loop_recorded neo_reader (seq 0 n_segments) w) as Hrec.
    rewrite Hpending, app_nil_r in Hrec.
    eexists. split; [by rewrite segments_loop_run, Hall|].
    split; [exact Hrec|]. split; [by rewrite Hlen, length_seq|].
    intros si ei electrode Hsi Hei.
    destruct (Hlook si si ei electrode) as (data & _ & Hrow);
      [by rewrite lookup_seq_lt|done|].
    eexists. split; [exact Hrow|]. split; [done|apply recorded_at_row].
Qed.

(** C7 (amended). When the reader has command traces and their number
    differs from the number of segments, [add_icephys_recording] fails with
    its assertion error and the file is untouched: no row has been
    appended. *)
Theorem inconsistent_commands_are_rejected neo_reader metadata w n_segments :
  nb_segment neo_reader !! 0 = Some n_segments ->
  length (read_raw_protocol neo_reader).1.1 <> 0 ->
  length (read_raw_protocol neo_reader).1.1 <> n_segments ->
  Neo.add_icephys_recording neo_reader metadata w =
    (Raise (AssertionError
              (Neo.commands_assertion n_segments (length (read_raw_protocol neo_reader).1.1))),
     w).
Proof.
  intros Hseg Hzero Hne.
  unfold Neo.add_icephys_recording, Neo.get_number_of_segments, list_index.
  rewrite bind_run. unfold lift at 1. rewrite Hseg.
  rewrite bind_run.
  by rewrite !bool_decide_eq_false_2.
Qed.

(** ** Calls that return *)

Section Totality.

Import Neo.

Lemma get_device_has f name :
  pynwb.has_device f name = true -> exists d, pynwb.get_device f name = Ok d.
Proof.
  unfold pynwb.has_device, pynwb.get_device, pynwb.device_names.
  intros Hin%bool_decide_eq_true.
  induction (devices f) as [|d ds IH]; simpl in *; [by apply elem_of_nil in Hin|].
  destruct (decide (dev_name d = name)) as [Heq|Hne].
  - rewrite bool_decide_eq_true_2 by done. by eexists.
  - rewrite bool_decide_eq_false_2 by done. apply IH.
    apply elem_of_cons in Hin as [Heq|Hin]; [by symmetry in Heq|done].
Qed.

(** An iteration on a mapping returns as soon as the defaults exist. *)
Lemma electrode_body_returns defaults d0 default_name default_device_name
    default_description elec w :
  defaults !! 0 = Some d0 ->
  d0 !! "name" = Some default_name ->
  d0 !! "device_name" = Some default_device_name ->
  d0 !! "description" = Some default_description ->
  (electrode_body defaults (PyDict elec) w).1 = Ok tt.
Proof.
  intros Hd0 Hname Hdevn Hdescr.
  unfold electrode_body, list_index, dict_item.
  rewrite bind_run. unfold lift at 1. rewrite Hd0.
  rewrite bind_run. unfold lift at 1. rewrite Hname.
  rewrite bind_run. unfold get_nwbfile at 1.
  destruct (pynwb.has_icephys_electrode (nwbfile w) _) eqn:Hel; [done|].
  rewrite bind_run. unfold lift at 1. rewrite Hdevn.
  set (name := dict_get elec "name" default_name) in *.
  set (device_name := dict_get elec "device_name" default_device_name).
  rewrite bind_run.
  destruct (pynwb.has_device (nwbfile w) device_name) eqn:Hdev.
  - unfold ret at 1.
    rewrite bind_run. unfold lift at 1. rewrite Hdescr.
    rewrite bind_run. unfold get_nwbfile at 1.
    rewrite bind_run. unfold lift at 1.
    destruct (get_device_has _ _ Hdev) as [d ->].
    unfold pynwb.create_icephys_electrode, bind, get_nwbfile, put_nwbfile.
    cbn [el_name]. by rewrite Hel.
  - unfold add_devices, requested_devices.
    cbn [md_section md_Ecephys md_Device for_each].
    unfold add_device.
    rewrite !(dict_get_Some {[ "name" := device_name ]} "name" device_name)
      by apply lookup_singleton_eq.
    rewrite !lookup_singleton_ne by done.
    unfold pynwb.create_device, bind, get_nwbfile, put_nwbfile, ret, warn, lift.
    cbn [nwbfile warnings dev_name]. rewrite !Hdev. cbv beta iota zeta.
    cbn [nwbfile warnings dev_name]. rewrite Hdescr.
    pose proof (get_device_last (nwbfile w)
                  {| dev_name := device_name; dev_description := None;
                     dev_manufacturer := None |}) as Hget.
    cbn [dev_name] in Hget. rewrite Hget.
    2:{ unfold pynwb.has_device in Hdev. by apply bool_decide_eq_false in Hdev. }
    unfold pynwb.create_icephys_electrode, bind, get_nwbfile, put_nwbfile, raise.
    cbn [nwbfile warnings el_name].
    unfold pynwb.has_icephys_electrode, pynwb.electrode_names in *.
    cbn [icephys_electrodes]. by rewrite Hel.
Qed.

Lemma for_each_returns {A} (body : A -> M unit) (l : list A) :
  (forall x w, x ∈ l -> (body x w).1 = Ok tt) ->
  forall w, (for_each l body w).1 = Ok tt.
Proof.
  induction l as [|x l IH]; intros Hbody w; [done|].
  cbn [for_each]. rewrite bind_run.
  pose proof (Hbody x w ltac:(by left)) as Hx.
  destruct (body x w) as [[[]|e] w1]; simpl in Hx; [|done].
  apply IH. intros y w' Hy. apply Hbody. by right.
Qed.

Lemma default_electrodes_dicts f ids defaults :
  default_electrodes f ids = Ok defaults ->
  forallb is_dict (map PyDict defaults) = true.
Proof.
  intros _. by induction defaults.
Qed.

(** The call returns when the reader has a channel and the caller's list,
    if any, holds mappings only. *)
Lemma add_icephys_electrode_returns neo_reader metadata w :
  0 < get_number_of_electrodes neo_reader ->
  forallb is_dict (default [] (md_Electrodes (icephys_section metadata))) = true ->
  exists md1 w1, add_icephys_electrode neo_reader metadata w = (Ok md1, w1).
Proof.
  intros Hn Hdicts. rewrite add_icephys_electrode_unfold.
  pose proof (ensure_devices_nonempty metadata w) as Hne.
  set (w0 := (ensure_devices metadata w).2) in *.
  destruct (default_electrodes_ok (nwbfile w0)
              (seq 0 (get_number_of_electrodes neo_reader)) Hne) as [defaults Hdef].
  destruct (default_electrodes_head _ _ _ Hdef Hn)
    as (d0 & dn & Hd0 & _ & Hname & Hdescr & Hdevn).
  assert (forallb is_dict (chosen_electrodes (icephys_section metadata) defaults) = true)
    as Hchosen.
  { unfold chosen_electrodes.
    destruct (md_Electrodes (icephys_section metadata)) as [[|x rest]|]; simpl in *;
      try done; by eapply default_electrodes_dicts. }
  pose proof (for_each_returns (electrode_body defaults)
                (chosen_electrodes (icephys_section metadata) defaults)) as Hloop.
  destruct (for_each (chosen_electrodes (icephys_section metadata) defaults)
              (electrode_body defaults) w0) as [res w1] eqn:Hrun.
  assert (res = Ok tt) as ->.
  { change res with (res, w1).1. rewrite <- Hrun. apply Hloop.
    intros x w' Hx. rewrite forallb_forall in Hchosen.
    apply list_elem_of_In, Hchosen in Hx. destruct x as [elec|]; [|done].
    by eapply electrode_body_returns. }
  eexists _, w1. by apply resolve_electrodes_run.
Qed.

End Totality.

Section AbfTotality.

Import Abf.

Lemma readers_loop_returns ms t0 (readers : list NeoReader) :
  Forall (fun reader => (exists extra, session_info ms reader = Ok extra) /\
                        (exists t, abf_date_time reader = Ok t) /\
                        nb_segment reader <> []) readers ->
  forall st, exists st', readers_loop ms t0 st readers = Ok st'.
Proof.
  induction 1 as [|reader rest ([extra Hextra] & [t Ht] & Hseg) _ IH]; intros st;
    [by eexists|].
  simpl. unfold reader_body, Neo.get_number_of_segments, list_index.
  rewrite Hextra. simpl. rewrite Ht. simpl.
  destruct (nb_segment reader) as [|s ss]; [done|]. simpl. apply IH.
Qed.

(** [get_metadata] returns when the base class hands over a dictionary with
    an ["Icephys"] entry, the interface has a metadata path that is no file
    or loads as an object, at least one reader, and every reader finds its
    side-table entry and has a start date that parses and a segment count
    for block 0. *)
Lemma get_metadata_returns fs self metadata path metafile_data sessions :
  super_get_metadata self = Ok metadata ->
  md_Icephys metadata <> None ->
  metadata_file_path self = Some path ->
  load_metafile fs path = Ok metafile_data ->
  recording_sessions_of metafile_data = Ok sessions ->
  readers_list self <> [] ->
  Forall (fun reader => (exists extra, session_info sessions reader = Ok extra) /\
                        (exists t, abf_date_time reader = Ok t) /\
                        nb_segment reader <> []) (readers_list self) ->
  exists recs, get_metadata fs self = Ok recs.
Proof.
  intros Hbase Hicephys Hpath Hload Hsessions Hne Hall.
  unfold get_metadata, list_index. rewrite Hbase. simpl. rewrite Hpath. simpl.
  rewrite Hload. simpl.
  destruct (readers_list self) as [|first rest] eqn:Hreaders; [done|]. simpl.
  pose proof (Forall_inv Hall) as (_ & [t0 Ht0] & _). rewrite Ht0. simpl.
  rewrite Hsessions. simpl.
  destruct (md_Icephys metadata) as [icephys|]; [|done]. simpl.
  destruct (readers_loop_returns sessions t0 (first :: rest) Hall
              {| Recordings := []; i := 0; ii := 0; iii := 0 |}) as [st Hst].
  simpl in Hst. rewrite Hst. simpl. by eexists.
Qed.

End AbfTotality.

(** ** The automatic link *)

Section AutoLink.

Import Neo.

Lemma for_each_app {A} (body : A -> M unit) (l1 l2 : list A) w :
  for_each (l1 ++ l2) body w =
    match for_each l1 body w with
    | (Ok _, w') => for_each l2 body w'
    | (Raise e, w') => (Raise e, w')
    end.
Proof.
  revert w. induction l1 as [|x l1 IH]; intros w; [done|].
  cbn [for_each app]. rewrite !bind_run.
  destruct (body x w) as [[[]|e] w1]; [apply IH|done].
Qed.

Lemma electrodes_loop_returns defaults n f (l : list PyValue) w :
  0 < n ->
  default_electrodes f (seq 0 n) = Ok defaults ->
  forallb is_dict l = true ->
  (for_each l (electrode_body defaults) w).1 = Ok tt.
Proof.
  intros Hn Hdef Hdicts.
  destruct (default_electrodes_head _ _ _ Hdef Hn)
    as (d0 & dn & Hd0 & _ & Hname & Hdescr & Hdevn).
  apply for_each_returns. intros x w' Hx.
  rewrite forallb_forall in Hdicts.
  apply list_elem_of_In, Hdicts in Hx. destruct x as [elec|]; [|done].
  by eapply electrode_body_returns.
Qed.

End AutoLink.

(** C5 (amended). Let the reader have at least one channel and the list of
    electrode descriptors hold mappings only.  For every descriptor of the
    list whose electrode name is not registered and whose [device_name] is
    absent from the devices of the file when the loop reaches it,
    [add_icephys_electrode] returns, and the file it leaves has the device,
    created with its name alone (no description, no manufacturer), the
    electrode linked to that device, and the warning about the automatic
    link. *)
Theorem absent_device_is_auto_created neo_reader metadata w defaults pre elec post
    device_name :
  0 < Neo.get_number_of_electrodes neo_reader ->
  Neo.default_electrodes (nwbfile (Neo.ensure_devices metadata w).2)
    (seq 0 (Neo.get_number_of_electrodes neo_reader)) = Ok defaults ->
  Neo.chosen_electrodes (Neo.icephys_section metadata) defaults =
    pre ++ PyDict elec :: post ->
  forallb is_dict (pre ++ PyDict elec :: post) = true ->
  elec !! "device_name" = Some device_name ->
  pynwb.has_icephys_electrode
    (nwbfile (for_each pre (Neo.electrode_body defaults) (Neo.ensure_devices metadata w).2).2)
    (dict_get elec "name" "icephys_electrode_0") = false ->
  pynwb.has_device
    (nwbfile (for_each pre (Neo.electrode_body defaults) (Neo.ensure_devices metadata w).2).2)
    device_name = false ->
  let device := {| dev_name := device_name;
                   dev_description := None;
                   dev_manufacturer := None |} in
  exists md1 w1,
    Neo.add_icephys_electrode neo_reader metadata w = (Ok md1, w1) /\
    device ∈ devices (nwbfile w1) /\
    {| el_name := dict_get elec "name" "icephys_electrode_0";
       el_description := dict_get elec "description" "no description";
       el_device := device |} ∈ icephys_electrodes (nwbfile w1) /\
    ("Device '" +:+ device_name +:+
     "' not detected in attempted link to icephys electrode! Automatically generating.")
      ∈ warnings w1.
Proof.
  intros Hn Hdef Hchosen Hdicts Hdn Hel Hdev device.
  set (w0 := (Neo.ensure_devices metadata w).2) in *.
  rewrite forallb_app in Hdicts. apply andb_true_iff in Hdicts as [Hpre Hpost].
  cbn [forallb is_dict] in Hpost. 
  pose proof (electrodes_loop_returns defaults _ _ pre w0 Hn Hdef Hpre) as Hrun_pre.
  destruct (for_each pre (Neo.electrode_body defaults) w0) as [res wk] eqn:Hloop_pre.
  simpl in Hrun_pre, Hel, Hdev. subst res.
  pose proof (electrode_body_creates_device _ _ _ elec device_name wk Hn Hdef Hdn Hel Hdev)
    as Hstep. cbv zeta in Hstep.
  match type of Hstep with _ = (_, ?w) => set (wk' := w) in * end.
  pose proof (electrodes_loop_returns defaults _ _ post wk' Hn Hdef Hpost) as Hrun_post.
  pose proof (respects_for_each grows grows_refl grows_trans post _
                (electrode_body_grows defaults) wk') as Hg.
  destruct (for_each post (Neo.electrode_body defaults) wk') as [res w1] eqn:Hloop_post.
  simpl in Hrun_post, Hg. subst res.
  exists (Neo.set_electrodes metadata (pre ++ PyDict elec :: post)), w1.
  split.
  - rewrite add_icephys_electrode_unfold. fold w0.
    rewrite (resolve_electrodes_run _ _ _ defaults w1 Hdef); rewrite Hchosen; try done.
    + by rewrite forallb_app, Hpre.
    + rewrite for_each_app, Hloop_pre. cbn [for_each]. rewrite bind_run, Hstep.
      exact Hloop_post.
  - destruct Hg as [[ds Hds] (es & Hes & _) _ [ws Hws]].
    rewrite Hds, Hes, Hws. subst wk'. cbn [nwbfile devices icephys_electrodes warnings].
    repeat split; apply elem_of_app; left; apply elem_of_app; right;
      by apply list_elem_of_singleton.
Qed.


(** ** Instances *)

Lemma default_device_is_created_witness :
  exists ds ws,
    devices (nwbfile (Neo.add_icephys_electrode one_channel None empty_file).2) =
      the_default_device :: ds /\
    warnings (Neo.add_icephys_electrode one_channel None empty_file).2 =
      warnings empty_file ++ Neo.no_devices_warning :: ws.
Proof.
  apply (default_device_is_created one_channel None empty_file).
  - reflexivity.
  - exact I.
Defined.

Lemma absent_device_is_auto_created_witness :
  exists md1 w1,
    Neo.add_icephys_electrode one_channel (Some pipette_twice) rig_file = (Ok md1, w1) /\
    {| dev_name := "Headstage"; dev_description := None; dev_manufacturer := None |}
      ∈ devices (nwbfile w1) /\
    {| el_name := dict_get pipette "name" "icephys_electrode_0";
       el_description := dict_get pipette "description" "no description";
       el_device := {| dev_name := "Headstage"; dev_description := None;
                       dev_manufacturer := None |} |} ∈ icephys_electrodes (nwbfile w1) /\
    ("Device '" +:+ "Headstage" +:+
     "' not detected in attempted link to icephys electrode! Automatically generating.")
      ∈ warnings w1.
Proof.
  apply (absent_device_is_auto_created one_channel (Some pipette_twice) rig_file
           one_channel_defaults [] pipette [PyDict pipette] "Headstage").
  - vm_compute. lia.
  - vm_compute. reflexivity.
  - vm_compute. reflexivity.
  - vm_compute. reflexivity.
  - vm_compute. reflexivity.
  - vm_compute. reflexivity.
  - vm_compute. reflexivity.
Defined.


(** C5, as stated, at a descriptor whose electrode is registered already:
    the call returns, the device that the descriptor names is still absent
    and no warning has been issued. *)
Lemma registered_electrode_skips_device :
  exists md',
    Neo.add_icephys_electrode one_channel
      (Some (electrodes_override [PyDict electrode_0_moved])) rig_file = (Ok md', rig_file) /\
    electrode_0_moved !! "device_name" = Some "Headstage" /\
    pynwb.has_device (nwbfile rig_file) "Headstage" = false /\
    warnings rig_file = [].
Proof.
  eexists. split; [vm_compute; reflexivity|].
  split; [vm_compute; reflexivity|]. split; [vm_compute; reflexivity|reflexivity].
Qed.


(** C7, as stated, at a reader without command traces: zero commands for
    one segment, and the call returns on a file without electrodes; on a
    file with an electrode it stops at the missing trace, not at the
    assertion on the counts. *)
Lemma no_commands_is_not_rejected :
  nb_segment no_commands !! 0 = Some 1 /\
  length (read_raw_protocol no_commands).1.1 = 0 /\
  Neo.add_icephys_recording no_commands None empty_file = (Ok tt, empty_file) /\
  Neo.add_icephys_recording no_commands None rig_file = (Raise IndexError, rig_file).
Proof. repeat split. Qed.

Lemma inconsistent_commands_are_rejected_witness :
  Neo.add_icephys_recording three_commands None rig_file =
    (Raise (AssertionError
       (Neo.commands_assertion 2 (length (read_raw_protocol three_commands).1.1))),
     rig_file).
Proof.
  apply (inconsistent_commands_are_rejected three_commands None rig_file 2).
  - reflexivity.
  - simpl. lia.
  - simpl. lia.
Defined.

(** C8, as stated, at a file without device: the call fails on the
    malformed list, and the file has gained a device. *)
Lemma malformed_override_still_creates_device :
  exists w',
    Neo.add_icephys_electrode one_channel
      (Some (electrodes_override [PyStr "electrode_0"])) empty_file =
      (Raise (AssertionError Neo.electrodes_assertion), w') /\
    devices (nwbfile empty_file) = [] /\
    devices (nwbfile w') = [the_default_device] /\
    warnings w' = [Neo.no_devices_warning].
Proof.
  eexists. split; [vm_compute; reflexivity|]. repeat split.
Qed.

Lemma malformed_electrodes_are_rejected_witness :
  Neo.add_icephys_electrode one_channel
    (Some (electrodes_override [PyDict pipette; PyStr "electrode_1"])) rig_file =
    (Raise (AssertionError Neo.electrodes_assertion), rig_file).
Proof.
  destruct (malformed_electrodes_are_rejected one_channel
              (electrodes_override [PyDict pipette; PyStr "electrode_1"])
              {| md_Device := None;
                 md_Electrodes := Some [PyDict pipette; PyStr "electrode_1"] |}
              [PyDict pipette; PyStr "electrode_1"] rig_file)
    as (Hfail & _ & Hsame); [reflexivity..|].
  rewrite Hfail, Hsame; [reflexivity|discriminate].
Defined.

(** Two sweeps through the one electrode of the file, the traces and the
    chunks having samples: the call returns with two rows, the responses
    starting at 0 and 1 second, the stimuli at 123.6. *)
Lemma stimulus_starting_time_is_fixed_witness :
  exists rows,
    (Neo.add_icephys_recording (sampled_reader 2 1) None rig_file).1 = Ok tt /\
    recorded rig_file (Neo.add_icephys_recording (sampled_reader 2 1) None rig_file).2
      rows rows /\
    length rows = 2 /\
    exists row0 row1,
      rows !! 0 = Some row0 /\ rows !! 1 = Some row1 /\
      vcss_starting_time (ir_stimulus row0) = 123.6%float /\
      vcss_starting_time (ir_stimulus row1) = 123.6%float /\
      vcs_starting_time (ir_response row0) = 0%float /\
      vcs_starting_time (ir_response row1) = 1%float.
Proof.
  destruct (proj2 (stimulus_starting_time_is_fixed (sampled_reader 2 1) None rig_file) 2)
    as (rows & Hok & Hrec & Hlen & Hlook).
  - reflexivity.
  - right. reflexivity.
  - vm_compute. lia.
  - intros si ei Hsi Hei.
    assert (ei = 0) as -> by (simpl in Hei; lia).
    assert (si = 0 \/ si = 1) as [-> | ->] by lia; vm_compute; reflexivity.
  - exists rows. split; [exact Hok|]. split; [exact Hrec|]. split; [exact Hlen|].
    destruct (Hlook 0 0 _ ltac:(lia) eq_refl) as (row0 & Hrow0 & _ & Hs0 & Hr0 & _).
    destruct (Hlook 1 0 _ ltac:(lia) eq_refl) as (row1 & Hrow1 & _ & Hs1 & Hr1 & _).
    exists row0, row1. repeat split; try assumption.
Defined.

(** * Further properties *)

(** ** [add_icephys_recording]: the rows and the failures *)

(** X1. When [add_icephys_recording] returns, the file has one new row per
    segment and electrode of the file, in that order: the row of segment
    [si] and of the electrode enumerated as [ei] pairs the command trace
    [protocol[0][si][ei]] with the signal chunk of ([si], [ei]), both with
    samples.  The stimulus and the response of every row are stored in
    [nwbfile.stimulus] and [nwbfile.acquisition], each unless its name was
    taken; devices, electrodes and warnings are as they were. *)
Theorem recording_rows_on_success neo_reader metadata w w' :
  Neo.add_icephys_recording neo_reader metadata w = (Ok tt, w') ->
  exists n_segments new,
    nb_segment neo_reader !! 0 = Some n_segments /\
    recorded w w' new new /\
    length new = n_segments * length (icephys_electrodes (nwbfile w)) /\
    forall si ei electrode,
      si < n_segments ->
      icephys_electrodes (nwbfile w) !! ei = Some electrode ->
      exists data,
        command_trace neo_reader si ei = Some data /\
        ready neo_reader si ei = true /\
        new !! (si * length (icephys_electrodes (nwbfile w)) + ei) =
          Some (recording_row neo_reader si ei electrode data).
Proof.
  intros Hrun.
  pose proof (segments_loop_recorded neo_reader) as Hrec.
  rewrite add_icephys_recording_run in Hrun.
  destruct (nb_segment neo_reader !! 0) as [n_segments|]; [|done]. cbv zeta in Hrun.
  destruct (bool_decide _); [|done].
  specialize (Hrec (seq 0 n_segments) w). rewrite Hrun in Hrec.
  rewrite segments_loop_run in Hrun.
  destruct (forallb _ _) eqn:Hall; [|done]. clear Hrun.
  destruct (recording_rows_complete neo_reader _ _ Hall) as (Hpending & Hlen & Hlook).
  rewrite Hpending, app_nil_r in Hrec. cbn [snd] in Hrec.
  exists n_segments, (recording_rows neo_reader (icephys_electrodes (nwbfile w))
                        (seq 0 n_segments)).
  split; [done|]. split; [done|]. split; [by rewrite Hlen, length_seq|].
  intros si ei electrode Hsi Hei.
  destruct (Hlook si si ei electrode) as (data & Hdata & Hrow);
    [by rewrite lookup_seq_lt|done|].
  exists data. split; [done|]. split; [|done].
  rewrite forallb_forall in Hall.
  apply (proj1 (segment_complete_spec neo_reader si (icephys_electrodes (nwbfile w)))).
  - apply Hall, in_seq. lia.
  - by apply lookup_lt_Some in Hei.
Qed.

(** X2. No roll-back in [add_icephys_recording]: on a file without series
    whose electrodes are channels of the reader, when the counts pass the
    check, segment [si0] is the first for which the protocol has fewer
    command traces than the file has electrodes, and the traces and chunks
    met until then have samples, the call fails with [IndexError] and
    leaves what it has recorded so far in the file: the rows of the
    segments before [si0] and, of segment [si0], one row per command trace,
    with their series. *)
Theorem recording_stops_at_missing_trace neo_reader metadata w n_segments si0 :
  acquisition (nwbfile w) = [] ->
  stimulus (nwbfile w) = [] ->
  length (icephys_electrodes (nwbfile w)) <= Neo.get_number_of_electrodes neo_reader ->
  nb_segment neo_reader !! 0 = Some n_segments ->
  (length (read_raw_protocol neo_reader).1.1 = 0 \/
   length (read_raw_protocol neo_reader).1.1 = n_segments) ->
  si0 < n_segments ->
  command_channels neo_reader si0 < length (icephys_electrodes (nwbfile w)) ->
  (forall si ei,
     si < si0 -> ei < length (icephys_electrodes (nwbfile w)) ->
     ready neo_reader si ei = true) ->
  (forall ei, ei < command_channels neo_reader si0 -> ready neo_reader si0 ei = true) ->
  exists w' new,
    Neo.add_icephys_recording neo_reader metadata w = (Raise IndexError, w') /\
    recorded w w' new new /\
    length new = si0 * length (icephys_electrodes (nwbfile w)) +
                 command_channels neo_reader si0.
Proof.
  intros _ _ _ Hseg Hcheck Hsi0 Hmissing Hbefore Hready.
  pose proof (segments_loop_recorded neo_reader (seq 0 n_segments) w) as Hrec.
  rewrite add_icephys_recording_run, Hseg. cbv zeta.
  rewrite bool_decide_eq_true_2 by done.
  rewrite segments_loop_run in *. cbn [snd] in Hrec.
  assert (seq 0 n_segments = seq 0 si0 ++ si0 :: seq (S si0) (n_segments - S si0)) as Hsplit.
  { replace n_segments with (si0 + S (n_segments - S si0)) at 1 by lia.
    by rewrite seq_app. }
  rewrite Hsplit in *.
  assert (command_trace neo_reader si0 (command_channels neo_reader si0) = None) as Hnone
    by (by apply command_trace_None).
  destruct (recording_rows_partial neo_reader (icephys_electrodes (nwbfile w))
              (seq 0 si0) (seq (S si0) (n_segments - S si0)) si0
              (command_channels neo_reader si0)) as (Hfalse & Hlen & Hpending).
  - apply forallb_forall. intros si Hin%in_seq.
    apply segment_complete_spec. intros ei Hei. apply Hbefore; lia.
  - done.
  - done.
  - unfold ready. by rewrite Hnone.
  - rewrite Hfalse.
    assert (segment_pending neo_reader si0 0 (icephys_electrodes (nwbfile w)) = [])
      as Hempty.
    { clear -Hready Hnone Hmissing.
      assert (forall els ei,
                ei <= command_channels neo_reader si0 ->
                command_channels neo_reader si0 < ei + length els ->
                segment_pending neo_reader si0 ei els = []) as Hgen.
      { induction els as [|electrode els IH]; intros ei Hle Hlt; [done|].
        cbn [segment_pending].
        destruct (decide (ei = command_channels neo_reader si0)) as [->|Hne].
        - by rewrite Hnone.
        - rewrite (Hready ei) by lia.
          destruct (command_trace neo_reader si0 ei); [|done].
          apply IH; simpl in *; lia. }
      apply Hgen; simpl; lia. }
    rewrite Hpending, Hempty in *. rewrite app_nil_r in Hrec.
    eexists _, _. split; [reflexivity|]. split; [exact Hrec|].
    by rewrite Hlen, length_seq.
Qed.

(** X3. A reader without command traces passes the check on the counts
    (the branch of experiment type ["i_zero"]) and then fails on the first
    trace it reads: with at least one segment, and one electrode in the
    file, the call raises [IndexError] and the file is unchanged. *)
Theorem recording_without_commands_fails neo_reader metadata w n_segments :
  0 < Neo.get_number_of_electrodes neo_reader ->
  nb_segment neo_reader !! 0 = Some n_segments ->
  length (read_raw_protocol neo_reader).1.1 = 0 ->
  0 < n_segments ->
  icephys_electrodes (nwbfile w) <> [] ->
  Neo.add_icephys_recording neo_reader metadata w = (Raise IndexError, w).
Proof.
  intros _ Hseg Hzero Hn Hels.
  assert (command_trace neo_reader 0 0 = None) as Hnone.
  { unfold command_trace.
    destruct ((read_raw_protocol neo_reader).1.1) as [|ts tss]; [done|done]. }
  rewrite add_icephys_recording_run, Hseg. cbv zeta.
  rewrite bool_decide_eq_true_2 by (by left).
  destruct n_segments as [|n]; [lia|].
  cbn [seq for_each]. rewrite bind_run.
  unfold Neo.segment_body. rewrite bind_run. unfold get_nwbfile at 1.
  destruct (icephys_electrodes (nwbfile w)) as [|electrode els] eqn:Hfile; [done|].
  cbn [for_enumerate]. rewrite bind_run, recording_body_run, Hnone; [done|].
  unfold pynwb.electrode_names. rewrite Hfile. by left.
Qed.

(** X4. On a file without series whose electrodes are channels of the
    reader, [add_icephys_recording] returns exactly when block 0 has a
    segment count, the number of command sweeps is zero or that count, and
    every segment has, for each electrode of the file, a command trace and
    a signal chunk with at least one sample. *)
Theorem recording_returns_iff neo_reader metadata w :
  acquisition (nwbfile w) = [] ->
  stimulus (nwbfile w) = [] ->
  length (icephys_electrodes (nwbfile w)) <= Neo.get_number_of_electrodes neo_reader ->
  (exists w', Neo.add_icephys_recording neo_reader metadata w = (Ok tt, w')) <->
  exists n_segments,
    nb_segment neo_reader !! 0 = Some n_segments /\
    (length (read_raw_protocol neo_reader).1.1 = 0 \/
     length (read_raw_protocol neo_reader).1.1 = n_segments) /\
    forall si ei,
      si < n_segments -> ei < length (icephys_electrodes (nwbfile w)) ->
      ready neo_reader si ei = true.
Proof.
  intros _ _ _. rewrite add_icephys_recording_run.
  destruct (nb_segment neo_reader !! 0) as [n_segments|];
    [|split; [by intros [? ?]|by intros (? & ? & _)]].
  cbv zeta. rewrite segments_loop_run.
  split.
  - intros [w' Hrun]. exists n_segments. split; [done|].
    destruct (bool_decide _) eqn:Hcheck; [|done].
    apply bool_decide_eq_true in Hcheck. split; [done|].
    destruct (forallb _ _) eqn:Hall; [|done].
    intros si ei Hsi Hei. rewrite forallb_forall in Hall.
    apply (proj1 (segment_complete_spec neo_reader si (icephys_electrodes (nwbfile w))));
      [|done].
    apply Hall, in_seq. lia.
  - intros (n & [= <-] & Hcheck & Hready).
    rewrite bool_decide_eq_true_2 by done.
    assert (forallb (fun si => segment_complete neo_reader si 0
                       (icephys_electrodes (nwbfile w))) (seq 0 n_segments) = true) as ->.
    { apply forallb_forall. intros si Hin%in_seq.
      apply segment_complete_spec. intros ei Hei. apply Hready; lia. }
    by eexists.
Qed.

(** ** [add_icephys_electrode]: what is created *)

Section ElectrodeFacts.

Import Neo.

Lemma get_device_stable w es name :
  pynwb.get_device (nwbfile (add_electrodes w es)) name = pynwb.get_device (nwbfile w) name.
Proof. done. Qed.

Lemma electrode_name_inj (k k' : nat) :
  "icephys_electrode_" +:+ pretty k = "icephys_electrode_" +:+ pretty k' -> k = k'.
Proof. intros H. apply (inj (String.append _)) in H. by apply (inj pretty) in H. Qed.

(** The iteration on a descriptor whose name is new and whose device is in
    the file. *)
Lemma electrode_body_creates defaults d0 device_name elec device w :
  defaults !! 0 = Some d0 ->
  d0 !! "name" = Some "icephys_electrode_0" ->
  d0 !! "description" = Some "no description" ->
  d0 !! "device_name" = Some device_name ->
  pynwb.has_icephys_electrode (nwbfile w) (resolved_name elec) = false ->
  pynwb.get_device (nwbfile w) (resolved_device_name device_name elec) = Ok device ->
  electrode_body defaults (PyDict elec) w =
    (Ok tt, add_electrodes w [ {| el_name := resolved_name elec;
                                  el_description := resolved_description elec;
                                  el_device := device |} ]).
Proof.
  intros Hd0 Hname Hdescr Hdevn Hel Hdev.
  unfold electrode_body, list_index, dict_item.
  rewrite bind_run. unfold lift at 1. rewrite Hd0.
  rewrite bind_run. unfold lift at 1. rewrite Hname.
  rewrite bind_run. unfold get_nwbfile at 1.
  fold (resolved_name elec). rewrite Hel.
  rewrite bind_run. unfold lift at 1. rewrite Hdevn.
  fold (resolved_device_name device_name elec).
  assert (pynwb.has_device (nwbfile w) (resolved_device_name device_name elec) = true) as ->.
  { apply get_device_elem_of in Hdev as [Hin Hn].
    unfold pynwb.has_device, pynwb.device_names. apply bool_decide_eq_true_2.
    rewrite <- Hn. by apply list_elem_of_fmap_2. }
  rewrite bind_run. unfold ret at 1.
  rewrite bind_run. unfold lift at 1. rewrite Hdescr.
  rewrite bind_run. unfold get_nwbfile at 1.
  rewrite bind_run. unfold lift at 1. rewrite Hdev.
  unfold pynwb.create_icephys_electrode. rewrite bind_run. unfold get_nwbfile at 1.
  cbn [el_name]. rewrite Hel. reflexivity.
Qed.

Lemma add_electrodes_app w es1 es2 :
  add_electrodes (add_electrodes w es1) es2 = add_electrodes w (es1 ++ es2).
Proof. unfold add_electrodes. simpl. by rewrite app_assoc. Qed.

Lemma add_electrodes_nil w : add_electrodes w [] = w.
Proof. destruct w as [[ds es rs] ws]. unfold add_electrodes. simpl. by rewrite app_nil_r. Qed.

(** The loop over descriptors with new, distinct names and devices that the
    file has: one electrode each, in order. *)
Lemma electrodes_loop_fresh defaults d0 device_name (l : list dict) :
  defaults !! 0 = Some d0 ->
  d0 !! "name" = Some "icephys_electrode_0" ->
  d0 !! "description" = Some "no description" ->
  d0 !! "device_name" = Some device_name ->
  NoDup (map resolved_name l) ->
  forall w,
    Forall (fun elec =>
              pynwb.has_icephys_electrode (nwbfile w) (resolved_name elec) = false /\
              pynwb.has_device (nwbfile w) (resolved_device_name device_name elec) = true) l ->
    exists es,
      for_each (map PyDict l) (electrode_body defaults) w = (Ok tt, add_electrodes w es) /\
      Forall2 (stands_for device_name w) es l.
Proof.
  intros Hd0 Hname Hdescr Hdevn Hnodup.
  induction l as [|elec l IH]; intros w Hall.
  - exists []. by rewrite add_electrodes_nil.
  - apply NoDup_cons in Hnodup as [Hnotin Hnodup].
    apply Forall_cons in Hall as [[Hel Hdev] Hall].
    destruct (get_device_has _ _ Hdev) as [device Hget].
    set (e := {| el_name := resolved_name elec;
                 el_description := resolved_description elec;
                 el_device := device |}).
    destruct (IH Hnodup (add_electrodes w [e])) as (es & Hrun & Hes).
    { eapply Forall_impl; [apply Forall_and; split; [exact Hall|]|].
      - apply Forall_forall. intros x Hx. exact Hx.
      - intros x [[Hx1 Hx2] Hin]. split; [|exact Hx2].
        unfold pynwb.has_icephys_electrode, pynwb.electrode_names in *.
        apply bool_decide_eq_false_2. apply bool_decide_eq_false in Hx1.
        simpl. rewrite map_app. intros [H|H]%elem_of_app; [done|].
        apply list_elem_of_singleton in H. simpl in H.
        apply Hnotin. rewrite <- H. by apply list_elem_of_fmap_2. }
    exists (e :: es). split.
    + cbn [map for_each]. rewrite bind_run.
      rewrite (electrode_body_creates _ _ _ _ _ _ Hd0 Hname Hdescr Hdevn Hel Hget).
      fold e. rewrite Hrun. by rewrite add_electrodes_app.
    + constructor; [by repeat split|].
      eapply Forall2_impl; [exact Hes|]. intros e' elec' (? & ? & ?). by repeat split.
Qed.

(** The loop over descriptors whose names are all registered changes
    nothing. *)
Lemma electrodes_loop_skip defaults d0 (l : list dict) w :
  defaults !! 0 = Some d0 ->
  d0 !! "name" = Some "icephys_electrode_0" ->
  Forall (fun elec => pynwb.has_icephys_electrode (nwbfile w) (resolved_name elec) = true) l ->
  for_each (map PyDict l) (electrode_body defaults) w = (Ok tt, w).
Proof.
  intros Hd0 Hname. induction 1 as [|elec l Hel _ IH]; [done|].
  cbn [map for_each]. rewrite bind_run.
  rewrite (electrode_body_skip _ _ _ _ _ Hd0 Hname); [exact IH|].
  unfold pynwb.has_icephys_electrode in Hel. by apply bool_decide_eq_true in Hel.
Qed.

Lemma forallb_is_dict_map (l : list dict) : forallb is_dict (map PyDict l) = true.
Proof. by induction l. Qed.

Lemma default_electrodes_Forall2 f device_name ids :
  pynwb.device_names f !! 0 = Some device_name ->
  exists defaults,
    default_electrodes f ids = Ok defaults /\
    Forall2 (fun (d : dict) k =>
               d = {[ "name" := "icephys_electrode_" +:+ pretty k;
                      "description" := "no description";
                      "device_name" := device_name ]}) defaults ids.
Proof.
  intros Hdev. induction ids as [|k ids (defaults & Hdef & Hall)].
  - by exists [].
  - simpl. unfold default_electrode, list_index. rewrite Hdev. simpl. rewrite Hdef. simpl.
    eexists. split; [reflexivity|]. by constructor.
Qed.

End ElectrodeFacts.

Section ElectrodeCalls.

Import Neo.

Lemma add_icephys_electrode_with_device neo_reader metadata w :
  devices (nwbfile w) <> [] ->
  add_icephys_electrode neo_reader metadata w = resolve_electrodes neo_reader metadata w.
Proof.
  intros Hne. by rewrite add_icephys_electrode_unfold, ensure_devices_id.
Qed.

Lemma resolve_electrodes_unfold neo_reader metadata w defaults :
  default_electrodes (nwbfile w) (seq 0 (get_number_of_electrodes neo_reader)) = Ok defaults ->
  forallb is_dict (chosen_electrodes (icephys_section metadata) defaults) = true ->
  resolve_electrodes neo_reader metadata w =
    match for_each (chosen_electrodes (icephys_section metadata) defaults)
                   (electrode_body defaults) w with
    | (Ok _, w1) =>
        (Ok (set_electrodes metadata
               (chosen_electrodes (icephys_section metadata) defaults)), w1)
    | (Raise e, w1) => (Raise e, w1)
    end.
Proof.
  intros Hdef Hdicts. unfold resolve_electrodes.
  rewrite bind_run. unfold get_nwbfile at 1.
  rewrite bind_run. unfold lift at 1. rewrite Hdef.
  rewrite bind_run, Hdicts. unfold ret at 1.
  rewrite bind_run. by destruct (for_each _ _ w) as [[[]|] w1].
Qed.

Lemma first_device_name f d ds :
  devices f = d :: ds -> pynwb.device_names f !! 0 = Some (dev_name d).
Proof. unfold pynwb.device_names. by intros ->. Qed.

Lemma get_first_device f d ds :
  devices f = d :: ds -> pynwb.get_device f (dev_name d) = Ok d.
Proof.
  unfold pynwb.get_device. intros ->. simpl. by rewrite bool_decide_eq_true_2.
Qed.

Lemma default_head neo_reader f device_name defaults :
  0 < get_number_of_electrodes neo_reader ->
  pynwb.device_names f !! 0 = Some device_name ->
  default_electrodes f (seq 0 (get_number_of_electrodes neo_reader)) = Ok defaults ->
  exists d0,
    defaults !! 0 = Some d0 /\
    d0 !! "name" = Some "icephys_electrode_0" /\
    d0 !! "description" = Some "no description" /\
    d0 !! "device_name" = Some device_name.
Proof.
  intros Hn Hdev Hdef.
  destruct (default_electrodes_head _ _ _ Hdef Hn)
    as (d0 & dn & Hd0 & Hdn & Hname & Hdescr & Hdevn).
  exists d0. repeat split; try done. congruence.
Qed.

Lemma chosen_override metadata (l : list dict) defaults :
  md_Electrodes (icephys_section metadata) = Some (map PyDict l) -> l <> [] ->
  chosen_electrodes (icephys_section metadata) defaults = map PyDict l.
Proof. unfold chosen_electrodes. intros -> Hl. by destruct l. Qed.

Lemma chosen_defaults metadata defaults :
  md_Electrodes (icephys_section metadata) = None \/
  md_Electrodes (icephys_section metadata) = Some [] ->
  chosen_electrodes (icephys_section metadata) defaults = map PyDict defaults.
Proof. unfold chosen_electrodes. by intros [-> | ->]. Qed.

End ElectrodeCalls.

(** X5. On a file that has a device, a non-empty override list of mappings
    whose electrode names are distinct and new and whose devices the file
    has replaces the defaults altogether: the call returns and appends one
    electrode per descriptor, in the order of the list, with the
    descriptor's name, description and device (the defaults of the first
    channel where a key is missing); devices, recordings and warnings are
    unchanged. *)
Theorem override_creates_its_electrodes neo_reader metadata w (l : list dict) d ds :
  0 < Neo.get_number_of_electrodes neo_reader ->
  devices (nwbfile w) = d :: ds ->
  md_Electrodes (Neo.icephys_section metadata) = Some (map PyDict l) ->
  l <> [] ->
  NoDup (map resolved_name l) ->
  Forall (fun elec =>
            pynwb.has_icephys_electrode (nwbfile w) (resolved_name elec) = false /\
            pynwb.has_device (nwbfile w) (resolved_device_name (dev_name d) elec) = true) l ->
  exists es,
    Neo.add_icephys_electrode neo_reader metadata w =
      (Ok (Neo.set_electrodes metadata (map PyDict l)), add_electrodes w es) /\
    Forall2 (stands_for (dev_name d) w) es l.
Proof.
  intros Hn Hdev Hmd Hl Hnodup Hall.
  rewrite add_icephys_electrode_with_device by (by rewrite Hdev).
  destruct (default_electrodes_ok (nwbfile w)
              (seq 0 (Neo.get_number_of_electrodes neo_reader)))
    as [defaults Hdef]; [by rewrite Hdev|].
  destruct (default_head _ _ _ _ Hn (first_device_name _ _ _ Hdev) Hdef)
    as (d0 & Hd0 & Hname & Hdescr & Hdevn).
  destruct (electrodes_loop_fresh defaults d0 (dev_name d) l Hd0 Hname Hdescr Hdevn
              Hnodup w Hall) as (es & Hrun & Hes).
  exists es. split; [|done].
  rewrite (resolve_electrodes_unfold _ _ _ defaults Hdef);
    rewrite (chosen_override _ l) by done; [|apply forallb_is_dict_map].
  by rewrite Hrun.
Qed.

(** The loop over the default descriptors of a file whose first device is
    [d]: one electrode per channel. *)
Lemma default_descriptors_loop neo_reader w d ds defaults :
  devices (nwbfile w) = d :: ds ->
  Neo.default_electrodes (nwbfile w) (seq 0 (Neo.get_number_of_electrodes neo_reader)) =
    Ok defaults ->
  Forall2 (fun (dd : dict) k =>
             dd = {[ "name" := "icephys_electrode_" +:+ pretty k;
                     "description" := "no description";
                     "device_name" := dev_name d ]})
          defaults (seq 0 (Neo.get_number_of_electrodes neo_reader)) ->
  (forall k, k < Neo.get_number_of_electrodes neo_reader ->
     pynwb.has_icephys_electrode (nwbfile w) ("icephys_electrode_" +:+ pretty k) = false) ->
  for_each (map PyDict defaults) (Neo.electrode_body defaults) w =
    (Ok tt,
     add_electrodes w
       (map (fun k => {| el_name := "icephys_electrode_" +:+ pretty k;
                         el_description := "no description";
                         el_device := d |})
            (seq 0 (Neo.get_number_of_electrodes neo_reader)))).
Proof.
  intros Hdev Hdef Hshape Hnew.
  destruct (decide (Neo.get_number_of_electrodes neo_reader = 0)) as [Hzero|Hpos].
  { rewrite Hzero in *. inversion Hshape; subst. simpl.
    by rewrite add_electrodes_nil. }
  assert (0 < Neo.get_number_of_electrodes neo_reader) as Hn by lia.
  destruct (default_head _ _ _ _ Hn (first_device_name _ _ _ Hdev) Hdef)
    as (d0 & Hd0 & Hname & Hdescr & Hdevn).
  assert (Forall2 (fun (dd : dict) k =>
            resolved_name dd = "icephys_electrode_" +:+ pretty k /\
            resolved_description dd = "no description" /\
            resolved_device_name (dev_name d) dd = dev_name d) defaults
            (seq 0 (Neo.get_number_of_electrodes neo_reader))) as Hfields.
  { eapply Forall2_impl; [exact Hshape|]. intros dd k ->.
    unfold resolved_name, resolved_description, resolved_device_name, dict_get.
    rewrite lookup_insert_eq, lookup_insert_ne, lookup_insert_eq by done.
    rewrite !lookup_insert_ne, lookup_singleton_eq by done. done. }
  destruct (electrodes_loop_fresh defaults d0 (dev_name d) defaults Hd0 Hname Hdescr Hdevn)
    with (w := w) as (es & Hrun & Hes).
  - assert (map resolved_name defaults =
            map (fun k => "icephys_electrode_" +:+ pretty k)
                (seq 0 (Neo.get_number_of_electrodes neo_reader))) as ->.
    { clear -Hfields. induction Hfields as [|dd k ?? (Hdd & _ & _) _ IH]; [done|].
      simpl. by rewrite Hdd, IH. }
    apply NoDup_fmap_2; [|apply NoDup_seq].
    intros k k'. apply electrode_name_inj.
  - apply Forall_forall. intros dd Hin.
    apply list_elem_of_lookup in Hin as [j Hj].
    destruct (Forall2_lookup_l _ _ _ _ _ Hfields Hj) as (k & Hk & Hdd & _ & Hdn).
    apply lookup_seq in Hk as [-> Hlt]. simpl. rewrite Hdd, Hdn. split; [by apply Hnew|].
    unfold pynwb.has_device, pynwb.device_names. rewrite Hdev.
    apply bool_decide_eq_true_2. by left.
  - rewrite Hrun. do 2 f_equal.
    clear -Hes Hfields Hdev.
    revert es Hes. induction Hfields as [|dd k ?? (Hn & Hde & Hdn) _ IH]; intros es Hes.
    + by inversion Hes.
    + inversion Hes as [|e ? es' ? (He1 & He2 & He3) Hes']; subst.
      simpl. f_equal; [|by apply IH].
      rewrite Hdn, (get_first_device _ _ _ Hdev) in He3. injection He3 as He3.
      destruct e as [name descr dev]. simpl in *. congruence.
Qed.

(** X6. Without override list (none, or an empty one) and on a file whose
    first device is [d], the call returns and appends one electrode per
    channel of the reader, named [icephys_electrode_k] for channel [k],
    described as ["no description"] and linked to [d], provided none of
    these names is registered; nothing else changes. *)
Theorem default_electrodes_are_created neo_reader metadata w d ds :
  devices (nwbfile w) = d :: ds ->
  (md_Electrodes (Neo.icephys_section metadata) = None \/
   md_Electrodes (Neo.icephys_section metadata) = Some []) ->
  (forall k, k < Neo.get_number_of_electrodes neo_reader ->
     pynwb.has_icephys_electrode (nwbfile w) ("icephys_electrode_" +:+ pretty k) = false) ->
  exists md1,
    Neo.add_icephys_electrode neo_reader metadata w =
      (Ok md1,
       add_electrodes w
         (map (fun k => {| el_name := "icephys_electrode_" +:+ pretty k;
                           el_description := "no description";
                           el_device := d |})
              (seq 0 (Neo.get_number_of_electrodes neo_reader)))).
Proof.
  intros Hdev Hmd Hnew.
  rewrite add_icephys_electrode_with_device by (by rewrite Hdev).
  destruct (default_electrodes_Forall2 (nwbfile w) (dev_name d)
              (seq 0 (Neo.get_number_of_electrodes neo_reader))
              (first_device_name _ _ _ Hdev)) as (defaults & Hdef & Hshape).
  rewrite (resolve_electrodes_unfold _ _ _ defaults Hdef);
    rewrite (chosen_defaults _ _ Hmd); [|apply forallb_is_dict_map].
  rewrite (default_descriptors_loop neo_reader w d ds defaults Hdev Hdef Hshape Hnew).
  by eexists.
Qed.

(** X7. Of the descriptors of an override list that resolve to one
    electrode name (descriptors without ["name"] all resolve to
    ["icephys_electrode_0"]) only the first creates an electrode: the later
    ones find the name registered and are skipped, whatever description and
    device they give. *)
Theorem descriptors_sharing_a_name_create_one neo_reader metadata w
    (elec : dict) (rest : list dict) d ds device :
  0 < Neo.get_number_of_electrodes neo_reader ->
  devices (nwbfile w) = d :: ds ->
  md_Electrodes (Neo.icephys_section metadata) = Some (map PyDict (elec :: rest)) ->
  pynwb.has_icephys_electrode (nwbfile w) (resolved_name elec) = false ->
  pynwb.get_device (nwbfile w) (resolved_device_name (dev_name d) elec) = Ok device ->
  Forall (fun elec' => resolved_name elec' = resolved_name elec) rest ->
  Neo.add_icephys_electrode neo_reader metadata w =
    (Ok (Neo.set_electrodes metadata (map PyDict (elec :: rest))),
     add_electrodes w [ {| el_name := resolved_name elec;
                           el_description := resolved_description elec;
                           el_device := device |} ]).
Proof.
  intros Hn Hdev Hmd Hnew Hget Hsame.
  rewrite add_icephys_electrode_with_device by (by rewrite Hdev).
  destruct (default_electrodes_ok (nwbfile w)
              (seq 0 (Neo.get_number_of_electrodes neo_reader)))
    as [defaults Hdef]; [by rewrite Hdev|].
  destruct (default_head _ _ _ _ Hn (first_device_name _ _ _ Hdev) Hdef)
    as (d0 & Hd0 & Hname & Hdescr & Hdevn).
  rewrite (resolve_electrodes_unfold _ _ _ defaults Hdef);
    rewrite (chosen_override _ (elec :: rest)) by done; [|apply forallb_is_dict_map].
  cbn [map for_each]. rewrite bind_run.
  rewrite (electrode_body_creates _ _ _ _ _ _ Hd0 Hname Hdescr Hdevn Hnew Hget).
  rewrite (electrodes_loop_skip defaults d0 rest _ Hd0 Hname); [done|].
  eapply Forall_impl; [exact Hsame|]. intros elec' ->.
  unfold pynwb.has_icephys_electrode, pynwb.electrode_names. simpl.
  apply bool_decide_eq_true_2. rewrite map_app. apply elem_of_app. right. by left.
Qed.

(** X8. A call never overwrites an electrode: when every descriptor of a
    non-empty override list names an electrode that the file has, the call
    returns and leaves the file and the warnings as they are, whatever
    descriptions and devices the descriptors give (a device that is absent
    is not created either). *)
Theorem registered_electrodes_are_left_alone neo_reader metadata w (l : list dict) :
  0 < Neo.get_number_of_electrodes neo_reader ->
  devices (nwbfile w) <> [] ->
  md_Electrodes (Neo.icephys_section metadata) = Some (map PyDict l) ->
  l <> [] ->
  Forall (fun elec =>
            pynwb.has_icephys_electrode (nwbfile w) (resolved_name elec) = true) l ->
  Neo.add_icephys_electrode neo_reader metadata w =
    (Ok (Neo.set_electrodes metadata (map PyDict l)), w).
Proof.
  intros Hn Hdev Hmd Hl Hall.
  rewrite add_icephys_electrode_with_device by done.
  destruct (default_electrodes_ok (nwbfile w)
              (seq 0 (Neo.get_number_of_electrodes neo_reader)) Hdev) as [defaults Hdef].
  destruct (default_electrodes_head _ _ _ Hdef Hn)
    as (d0 & dn & Hd0 & _ & Hname & _ & _).
  rewrite (resolve_electrodes_unfold _ _ _ defaults Hdef);
    rewrite (chosen_override _ l) by done; [|apply forallb_is_dict_map].
  by rewrite (electrodes_loop_skip defaults d0 l w Hd0 Hname Hall).
Qed.

(** X9. A reader without signal channel gives no default: with a non-empty
    override list of mappings the call fails with [IndexError] at the first
    descriptor, on [defaults[0]], although the descriptor may give every
    field itself; a file that has a device is unchanged. *)
Theorem override_needs_a_channel neo_reader metadata w (elec : dict) (rest : list dict) :
  Neo.get_number_of_electrodes neo_reader = 0 ->
  devices (nwbfile w) <> [] ->
  md_Electrodes (Neo.icephys_section metadata) = Some (map PyDict (elec :: rest)) ->
  Neo.add_icephys_electrode neo_reader metadata w = (Raise IndexError, w).
Proof.
  intros Hn Hdev Hmd.
  rewrite add_icephys_electrode_with_device by done.
  rewrite (resolve_electrodes_unfold _ _ _ []); [| by rewrite Hn |];
    rewrite (chosen_override _ (elec :: rest)) by done; [|apply forallb_is_dict_map].
  done.
Qed.

(** X10. Whether it returns or raises, a call of [add_icephys_electrode]
    only appends: the devices and the warnings it starts with are a prefix
    of those it ends with, and the recordings are the same. *)
Theorem electrode_call_only_appends neo_reader metadata w :
  devices (nwbfile w) `prefix_of`
    devices (nwbfile (Neo.add_icephys_electrode neo_reader metadata w).2) /\
  warnings w `prefix_of` warnings (Neo.add_icephys_electrode neo_reader metadata w).2 /\
  intracellular_recordings (nwbfile (Neo.add_icephys_electrode neo_reader metadata w).2) =
    intracellular_recordings (nwbfile w).
Proof.
  destruct (add_icephys_electrode_grows neo_reader metadata w) as [Hd _ Hr Hw].
  done.
Qed.

(** X11. The metadata dictionary as a returning call leaves it: the
    ["Ecephys"] entry and the devices of ["Icephys"] are the caller's, and
    ["Icephys"]["Electrodes"] is a list of mappings, the caller's own list
    when that is not empty and otherwise one default descriptor per channel
    of the reader. *)
Theorem returned_metadata_lists_electrodes neo_reader metadata w md1 w1 :
  Neo.add_icephys_electrode neo_reader metadata w = (Ok md1, w1) ->
  md_Ecephys md1 = md_Ecephys (default Neo.empty_metadata metadata) /\
  exists Electrodes,
    md_Icephys md1 = Some {| md_Device := md_Device (Neo.icephys_section metadata);
                             md_Electrodes := Some Electrodes |} /\
    forallb is_dict Electrodes = true /\
    (forall x rest, md_Electrodes (Neo.icephys_section metadata) = Some (x :: rest) ->
       Electrodes = x :: rest) /\
    (md_Electrodes (Neo.icephys_section metadata) = None \/
     md_Electrodes (Neo.icephys_section metadata) = Some [] ->
     exists device_name,
       pynwb.device_names (nwbfile (Neo.ensure_devices metadata w).2) !! 0 = Some device_name /\
       Electrodes =
         map (fun k => PyDict {[ "name" := "icephys_electrode_" +:+ pretty k;
                                 "description" := "no description";
                                 "device_name" := device_name ]})
             (seq 0 (Neo.get_number_of_electrodes neo_reader))).
Proof.
  intros Hrun. rewrite add_icephys_electrode_unfold in Hrun.
  pose proof (ensure_devices_ok metadata w) as Hok.
  pose proof (ensure_devices_nonempty metadata w) as Hne.
  destruct (Neo.ensure_devices metadata w) as [r0 w0]. simpl in *. subst r0.
  apply resolve_electrodes_inv in Hrun as (defaults & Hdef & Hdicts & _ & ->).
  split; [done|]. eexists. split; [reflexivity|]. split; [done|]. split.
  - intros x rest Hmd. unfold Neo.chosen_electrodes. by rewrite Hmd.
  - intros Hmd. rewrite (chosen_defaults _ _ Hmd).
    destruct (devices (nwbfile w0)) as [|d ds] eqn:Hdev; [done|].
    exists (dev_name d). split; [by apply (first_device_name _ _ ds)|].
    destruct (default_electrodes_Forall2 (nwbfile w0) (dev_name d)
                (seq 0 (Neo.get_number_of_electrodes neo_reader))
                (first_device_name _ _ _ Hdev)) as (defaults' & Hdef' & Hshape).
    rewrite Hdef in Hdef'. injection Hdef' as <-.
    clear -Hshape. induction Hshape as [|dd k ?? -> _ IH]; [done|].
    simpl. by rewrite IH.
Qed.

(** ** [get_metadata]: the entries and the side table *)

Section AbfFurther.

Import Neo Abf.

Lemma file_block_fields rel extra s e i0 ii0 iii0 x :
  x ∈ file_block rel extra s e i0 ii0 iii0 ->
  relative_session_start_time x = rel /\
  stimulus_type x = dict_get extra "stimulus_type" "not described" /\
  icephys_experiment_type x = extra !! "icephys_experiment_type".
Proof.
  unfold file_block. intros Hin.
  apply list_elem_of_In, in_flat_map in Hin as (sg & _ & Hin).
  by apply in_map_iff in Hin as (el & <- & _).
Qed.

Lemma readers_loop_app ms t0 l l' :
  forall st,
    readers_loop ms t0 st (l ++ l') =
      match readers_loop ms t0 st l with
      | Ok st' => readers_loop ms t0 st' l'
      | Raise e => Raise e
      end.
Proof.
  induction l as [|reader l IH]; intros st; [done|].
  simpl. destruct (reader_body ms t0 st reader) as [st1|]; [apply IH|done].
Qed.

Lemma readers_loop_prefix ms t0 l :
  forall st st',
    readers_loop ms t0 st l = Ok st' -> Recordings st `prefix_of` Recordings st'.
Proof.
  induction l as [|reader l IH]; intros st st' Hrun.
  - by injection Hrun as <-.
  - simpl in Hrun.
    destruct (reader_body ms t0 st reader) as [st1|] eqn:Hbody; [|done].
    apply reader_body_spec in Hbody as (t & s & extra & _ & _ & _ & ->).
    apply IH in Hrun. simpl in Hrun.
    etrans; [|exact Hrun]. by apply prefix_app_r.
Qed.

Lemma readers_loop_within_a_day ms t0 l :
  forall st st',
    readers_loop ms t0 st l = Ok st' ->
    Forall (fun x => (0 <= relative_session_start_time x < 86400)%Z) (Recordings st) ->
    Forall (fun x => (0 <= relative_session_start_time x < 86400)%Z) (Recordings st').
Proof.
  induction l as [|reader l IH]; intros st st' Hrun Hst.
  - by injection Hrun as <-.
  - simpl in Hrun.
    destruct (reader_body ms t0 st reader) as [st1|] eqn:Hbody; [|done].
    apply reader_body_spec in Hbody as (t & s & extra & _ & _ & _ & ->).
    apply (IH _ _ Hrun). simpl. apply Forall_app. split; [done|].
    apply Forall_forall. intros x Hx. apply file_block_fields in Hx as (-> & _).
    unfold datetime.timedelta_seconds, datetime.SECONDS_PER_DAY.
    apply Z.mod_pos_bound. lia.
Qed.

Lemma readers_loop_returns_inv ms t0 l :
  forall st st',
    readers_loop ms t0 st l = Ok st' ->
    Forall (fun reader => (exists extra, session_info ms reader = Ok extra) /\
                          (exists t, abf_date_time reader = Ok t) /\
                          nb_segment reader <> []) l.
Proof.
  induction l as [|reader l IH]; intros st st' Hrun; [done|].
  simpl in Hrun.
  destruct (reader_body ms t0 st reader) as [st1|] eqn:Hbody; [|done].
  constructor; [|by apply (IH st1 st')].
  apply reader_body_spec in Hbody as (t & s & extra & Ht & Hs & Hextra & _).
  split; [by exists extra|]. split; [by exists t|]. by destruct (nb_segment reader).
Qed.

Lemma last_component_directory dir s :
  forall acc, last_component acc (dir +:+ "/" +:+ s) = last_component "" s.
Proof.
  induction dir as [|c dir IH]; intros acc; simpl; [done|].
  destruct (Ascii.eqb c "/"); apply IH.
Qed.

(** Over mappings only, the entry is the first session that matches. *)
Lemma matching_sessions_dicts name (sessions : list dict) :
  matching_sessions name (map PyDict sessions) =
    Ok (filter (fun sess : dict => dict_get sess "abf_file_name" "" = name) sessions).
Proof.
  induction sessions as [|sess sessions IH]; [done|].
  cbn [map matching_sessions]. rewrite IH. simpl. rewrite filter_cons.
  destruct (decide (dict_get sess "abf_file_name" "" = name)) as [Heq|Hne].
  - by rewrite bool_decide_eq_true_2.
  - by rewrite bool_decide_eq_false_2.
Qed.

Lemma matching_sessions_inv name items item :
  matching_sessions name items = Ok item ->
  exists sessions, items = map PyDict sessions.
Proof.
  revert item. induction items as [|x items IH]; intros item Hrun; [by exists []|].
  destruct x as [sess|]; [|done]. cbn [matching_sessions] in Hrun.
  destruct (matching_sessions name items) as [item'|]; [|done].
  destruct (IH item' eq_refl) as [sessions ->]. by exists (sess :: sessions).
Qed.

Lemma session_info_find (sessions : list dict) reader :
  session_info (Iterable (map PyDict sessions)) reader =
    Ok (default ∅ (List.find (fun sess : dict =>
                                bool_decide (dict_get sess "abf_file_name" "" =
                                             last_component "" (filename reader)))
                             sessions)).
Proof.
  unfold session_info. rewrite matching_sessions_dicts. simpl. f_equal.
  induction sessions as [|sess sessions IH]; [done|].
  rewrite filter_cons. simpl.
  destruct (decide (dict_get sess "abf_file_name" "" = last_component "" (filename reader)))
    as [Heq|Hne].
  - by rewrite bool_decide_eq_true_2.
  - by rewrite bool_decide_eq_false_2.
Qed.

(** The sessions that a returning loop over at least one reader has gone
    through are mappings. *)
Lemma session_info_inv ms reader extra :
  session_info ms reader = Ok extra ->
  exists sessions, ms = Iterable (map PyDict sessions).
Proof.
  unfold session_info. destruct ms as [items|]; [|done].
  destruct (matching_sessions _ items) as [item|] eqn:Hitem; [|done].
  intros _. destruct (matching_sessions_inv _ _ _ Hitem) as [sessions ->].
  by exists sessions.
Qed.

(** The side table of a call that returns. *)
Lemma get_metadata_sessions fs self recs :
  get_metadata fs self = Ok recs ->
  exists path sessions st first t0,
    metadata_file_path self = Some path /\
    holds_sessions (fs path) sessions /\
    readers_list self !! 0 = Some first /\
    abf_date_time first = Ok t0 /\
    readers_loop (Iterable (map PyDict sessions)) t0
      {| Recordings := []; i := 0; ii := 0; iii := 0 |} (readers_list self) = Ok st /\
    recs = Recordings st.
Proof.
  intros Hrun.
  apply get_metadata_steps in Hrun
    as (metadata & path & metafile_data & first & t0 & ms & st &
        _ & Hpath & Hload & Hfirst & Ht0 & Hsessions & _ & Hloop & ->).
  pose proof (readers_loop_returns_inv _ _ _ _ _ Hloop) as Hall.
  destruct (readers_list self) as [|reader rest] eqn:Hreaders; [done|].
  apply Forall_inv in Hall as ([extra Hextra] & _).
  destruct (session_info_inv _ _ _ Hextra) as [sessions ->].
  exists path. unfold load_metafile in Hload. unfold holds_sessions.
  destruct (fs path) as [|e|doc] eqn:Hfile; [|done|].
  - injection Hload as <-. simpl in Hsessions. injection Hsessions as Hs.
    destruct sessions; [|done].
    exists [], st, first, t0. repeat split; try done. by left.
  - injection Hload as <-. destruct doc as [[ms|]|]; simpl in Hsessions; [| |done].
    + injection Hsessions as ->. exists sessions, st, first, t0.
      repeat split; try done. by right; right.
    + injection Hsessions as Hs. destruct sessions; [|done].
      exists [], st, first, t0. repeat split; try done. by right; left.
Qed.

End AbfFurther.

(** X12. Every entry that [get_metadata] emits has a
    [relative_session_start_time] of at least 0 and below 86400 seconds,
    whatever the start dates of the files: a file that starts before the
    first one or more than a day after it is not told apart by this field. *)
Theorem relative_time_is_within_a_day fs self recs :
  Abf.get_metadata fs self = Ok recs ->
  Forall (fun x => (0 <= Abf.relative_session_start_time x < 86400)%Z) recs.
Proof.
  intros Hrun.
  apply get_metadata_inv in Hrun as (sessions & path & first & t0 & st & _ & _ & _ & Hloop & ->).
  by apply (readers_loop_within_a_day _ _ _ _ _ Hloop).
Qed.

(** X13. [get_metadata] returns only if the base class has handed over a
    dictionary with an ["Icephys"] entry, the interface was given a
    metadata path (without one, the default of the constructor,
    [Path(None)] raises) which is no file or loads as an object, there is
    at least one reader, every reader has a start date and time that make a
    date of the calendar and a segment count for block 0, and the value of
    ["recording_sessions"], if any, iterates over mappings. *)
Theorem get_metadata_returns_only_if fs self recs :
  Abf.get_metadata fs self = Ok recs ->
  (exists metadata, Abf.super_get_metadata self = Ok metadata /\ md_Icephys metadata <> None) /\
  (exists path sessions,
     Abf.metadata_file_path self = Some path /\ holds_sessions (fs path) sessions) /\
  Abf.readers_list self <> [] /\
  Forall (fun reader => (exists t, Abf.abf_date_time reader = Ok t) /\
                        nb_segment reader <> []) (Abf.readers_list self).
Proof.
  intros Hrun.
  destruct (get_metadata_sessions _ _ _ Hrun)
    as (path & sessions & st & first & t0 & Hpath & Hfile & Hfirst & _ & Hloop & _).
  apply get_metadata_steps in Hrun
    as (metadata & _ & _ & _ & _ & _ & _ & Hbase & _ & _ & _ & _ & _ & Hicephys & _ & _).
  split; [by exists metadata|]. split; [by exists path, sessions|]. split.
  - by destruct (Abf.readers_list self).
  - eapply Forall_impl; [exact (readers_loop_returns_inv _ _ _ _ _ Hloop)|].
    by intros reader (_ & ? & ?).
Qed.

(** X14. Files appended to the sequence leave the entries of the files
    before them as they are: the recordings block of the sequence is a
    prefix of the block of the longer one. *)
Theorem appended_files_keep_earlier_entries fs self more recs recs' :
  Abf.get_metadata fs self = Ok recs ->
  Abf.get_metadata fs {| Abf.super_get_metadata := Abf.super_get_metadata self;
                         Abf.readers_list := Abf.readers_list self ++ more;
                         Abf.metadata_file_path := Abf.metadata_file_path self |} = Ok recs' ->
  recs `prefix_of` recs'.
Proof.
  intros Hrun Hrun'.
  apply get_metadata_steps in Hrun
    as (metadata & path & metafile_data & first & t0 & sessions & st &
        _ & Hpath & Hload & Hfirst & Ht0 & Hsessions & _ & Hloop & ->).
  apply get_metadata_steps in Hrun'
    as (metadata' & path' & metafile_data' & first' & t0' & sessions' & st' &
        _ & Hpath' & Hload' & Hfirst' & Ht0' & Hsessions' & _ & Hloop' & ->).
  simpl in *.
  rewrite lookup_app_l in Hfirst' by (by apply lookup_lt_Some in Hfirst).
  assert (path' = path) as -> by congruence.
  assert (metafile_data' = metafile_data) as -> by congruence.
  assert (sessions' = sessions) as -> by congruence.
  assert (first' = first) as -> by congruence.
  assert (t0' = t0) as -> by congruence.
  rewrite readers_loop_app, Hloop in Hloop'.
  by apply readers_loop_prefix in Hloop'.
Qed.

(** X15. The side table is searched by the last component of the path of a
    file: two readers whose paths differ in the directory only get the same
    side-table entry. *)
Theorem sessions_are_matched_by_base_name metafile_sessions reader reader' dir :
  filename reader' = dir +:+ "/" +:+ filename reader ->
  Abf.session_info metafile_sessions reader' = Abf.session_info metafile_sessions reader.
Proof.
  intros Hname. unfold Abf.session_info.
  by rewrite Hname, last_component_directory.
Qed.

(** X16. Every entry of a file carries the [stimulus_type] and the
    [icephys_experiment_type] of the first session of the side table whose
    ["abf_file_name"] is the base name of the file, ["not described"] and
    [None] standing in for a key that the session lacks; without such a
    session (or without side table) the entry has ["not described"] and
    [None]. *)
Theorem entries_carry_the_first_matching_session
    fs self recs counts k reader s e j l path :
  Abf.get_metadata fs self = Ok recs ->
  Forall2 has_counts (Abf.readers_list self) counts ->
  Abf.readers_list self !! k = Some reader ->
  counts !! k = Some (s, e) -> j < s -> l < e ->
  Abf.metadata_file_path self = Some path ->
  exists sessions x,
    holds_sessions (fs path) sessions /\
    recs !! (entry_offset counts k + j * e + l) = Some x /\
    match List.find (fun sess : dict =>
                       bool_decide (dict_get sess "abf_file_name" "" =
                                    Abf.last_component "" (filename reader)))
                    sessions with
    | Some sess =>
        Abf.stimulus_type x = dict_get sess "stimulus_type" "not described" /\
        Abf.icephys_experiment_type x = sess !! "icephys_experiment_type"
    | None =>
        Abf.stimulus_type x = "not described" /\ Abf.icephys_experiment_type x = None
    end.
Proof.
  intros Hrun Hcounts Hreader Hk Hj Hl Hpath.
  destruct (get_metadata_sessions _ _ _ Hrun)
    as (path' & sessions & st & first & t0 & Hpath' & Hfile & _ & _ & Hloop & ->).
  assert (path' = path) as -> by congruence.
  destruct (readers_loop_spec _ _ _ _ _ _ Hloop Hcounts) as (new & Hnew & _ & _ & Hlook).
  destruct (Hlook k reader s e j l Hreader Hk Hj Hl) as (t & extra & _ & Hextra & Hx).
  simpl in Hnew. rewrite Hnew. exists sessions. eexists. split; [exact Hfile|].
  split; [exact Hx|].
  rewrite session_info_find in Hextra. injection Hextra as <-.
  by destruct (List.find _ _).
Qed.

(** X20. For a file that has the start date of the first file of the
    sequence and does not start before it, the entries carry the difference
    of the two start times, each rounded to whole seconds on its own. *)
Theorem same_day_relative_time fs self recs counts k first reader s e j l :
  Abf.get_metadata fs self = Ok recs ->
  Forall2 has_counts (Abf.readers_list self) counts ->
  Abf.readers_list self !! 0 = Some first ->
  Abf.readers_list self !! k = Some reader ->
  counts !! k = Some (s, e) -> j < s -> l < e ->
  uFileStartDate reader = uFileStartDate first ->
  (0 <= datetime.round_div_1000 (uFileStartTimeMS reader) -
        datetime.round_div_1000 (uFileStartTimeMS first) < 86400)%Z ->
  exists x,
    recs !! (entry_offset counts k + j * e + l) = Some x /\
    Abf.relative_session_start_time x =
      (datetime.round_div_1000 (uFileStartTimeMS reader) -
       datetime.round_div_1000 (uFileStartTimeMS first))%Z.
Proof.
  intros Hrun Hcounts Hfirst Hreader Hk Hj Hl Hdate Hlater.
  destruct (relative_time_of_entry fs self recs counts k reader s e j l
              Hrun Hcounts Hreader Hk Hj Hl)
    as (first' & t0 & t & x & Hfirst' & Ht0 & Ht & Hx & Hrel).
  assert (first' = first) as -> by congruence.
  exists x. split; [done|]. rewrite Hrel.
  unfold Abf.abf_date_time in Ht0, Ht. rewrite Hdate in Ht.
  destruct (datetime.strptime_Ymd (uFileStartDate first)) as [d|]; [|done].
  simpl in Ht0, Ht. unfold datetime.add_seconds in Ht0, Ht.
  destruct (_ && _) in Ht0; [|done]. destruct (_ && _) in Ht; [|done].
  injection Ht0 as <-. injection Ht as <-.
  unfold datetime.timedelta_seconds, datetime.SECONDS_PER_DAY.
  rewrite Z.mod_small; lia.
Qed.

(** ** [get_command_traces] and [add_all_to_nwbfile] *)

Section Conversion.

Import Neo.

Lemma get_command_traces_trace neo_reader block si ei trace title unit :
  get_command_traces neo_reader block si ei = Ok (trace, title, unit) ->
  command_trace neo_reader si ei = Some trace.
Proof.
  unfold get_command_traces, command_trace, list_index.
  destruct (read_raw_protocol neo_reader) as [[traces titles] units]. simpl.
  destruct (traces !! si) as [segment_traces|]; [|done]. simpl.
  destruct (segment_traces !! ei) as [trace'|]; [|done]. simpl.
  destruct (titles !! si) as [segment_titles|]; [|done]. simpl.
  destruct (segment_titles !! ei) as [title'|]; [|done]. simpl.
  destruct (units !! si) as [segment_units|]; [|done]. simpl.
  destruct (segment_units !! ei) as [unit'|]; [|done]. simpl.
  by intros [= -> _ _].
Qed.

End Conversion.

(** X17. What the docstring of [add_icephys_electrode] promises (at least
    one electrode in the file) holds for every returning call on a reader
    with a signal channel: the name of the first descriptor is registered
    when its iteration ends, and electrodes are never removed. *)
Theorem returning_call_leaves_an_electrode neo_reader metadata w md1 w1 :
  0 < Neo.get_number_of_electrodes neo_reader ->
  Neo.add_icephys_electrode neo_reader metadata w = (Ok md1, w1) ->
  icephys_electrodes (nwbfile w1) <> [].
Proof.
  intros Hn Hrun. rewrite add_icephys_electrode_unfold in Hrun.
  apply resolve_electrodes_inv in Hrun as (defaults & Hdef & _ & Hloop & _).
  destruct (default_electrodes_head _ _ _ Hdef Hn) as (d0 & dn & Hd0 & _).
  assert (exists x rest,
            Neo.chosen_electrodes (Neo.icephys_section metadata) defaults = x :: rest)
    as (x & rest & Hchosen).
  { unfold Neo.chosen_electrodes.
    destruct (md_Electrodes (Neo.icephys_section metadata)) as [[|x rest]|];
      destruct defaults; try done; by eexists _, _. }
  rewrite Hchosen in Hloop. cbn [for_each] in Hloop. rewrite bind_run in Hloop.
  destruct (Neo.electrode_body defaults x _) as [[[]|] w2] eqn:Hbody; [|done].
  apply electrode_body_inv in Hbody as (elec & d0' & name & _ & _ & _ & Hin).
  pose proof (respects_for_each grows grows_refl grows_trans rest _
                (electrode_body_grows defaults) w2) as Hg.
  rewrite Hloop in Hg. simpl in Hg.
  apply (grows_electrode_names _ _ _ Hg) in Hin.
  unfold pynwb.electrode_names in Hin.
  destruct (icephys_electrodes (nwbfile w1)); [by apply elem_of_nil in Hin|done].
Qed.

(** X18. [get_command_traces] and [add_icephys_recording] read the same
    trace: when both return, the stimulus of the row appended for segment
    [si] and the electrode enumerated as [ei] holds the trace that
    [get_command_traces(segment=si, cmd_channel=ei)] returns, whatever
    [block] is. *)
Theorem stored_stimulus_is_the_command_trace
    neo_reader metadata w w' block si ei trace title unit electrode :
  Neo.add_icephys_recording neo_reader metadata w = (Ok tt, w') ->
  Neo.get_command_traces neo_reader block si ei = Ok (trace, title, unit) ->
  icephys_electrodes (nwbfile w) !! ei = Some electrode ->
  exists row,
    intracellular_recordings (nwbfile w') !!
      (length (intracellular_recordings (nwbfile w)) +
       (si * length (icephys_electrodes (nwbfile w)) + ei)) = Some row /\
    ir_electrode row = electrode /\
    vcss_data (ir_stimulus row) = trace.
Proof.
  intros Hrun Htrace Hel.
  apply get_command_traces_trace in Htrace.
  pose proof (segments_loop_recorded neo_reader) as Hrec.
  rewrite add_icephys_recording_run in Hrun.
  destruct (nb_segment neo_reader !! 0) as [n_segments|]; [|done]. cbv zeta in Hrun.
  destruct (bool_decide _) eqn:Hcheck; [|done].
  apply bool_decide_eq_true in Hcheck.
  specialize (Hrec (seq 0 n_segments) w). rewrite Hrun in Hrec.
  destruct Hrec as (_ & _ & _ & _ & Hrows & _). cbn [snd] in Hrows.
  rewrite segments_loop_run in Hrun.
  destruct (forallb _ _) eqn:Hall; [|done]. clear Hrun.
  assert (si < n_segments) as Hsi.
  { unfold command_trace in Htrace.
    destruct ((read_raw_protocol neo_reader).1.1 !! si) as [ts|] eqn:Hts; [|done].
    apply lookup_lt_Some in Hts. lia. }
  destruct (recording_rows_complete neo_reader _ _ Hall) as (_ & _ & Hlook).
  destruct (Hlook si si ei electrode) as (data & Hdata & Hrow);
    [by rewrite lookup_seq_lt|done|].
  rewrite Htrace in Hdata. injection Hdata as <-.
  exists (recording_row neo_reader si ei electrode trace). split; [|done].
  rewrite Hrows, lookup_app_r by lia. rewrite <- Hrow. f_equal. lia.
Qed.

(** X19. [add_all_to_nwbfile] does not undo what its first steps did: when
    the reader has a channel, the caller's electrodes list (if any) holds
    mappings only, and the counts of segments and command sweeps fail the
    check of [add_icephys_recording], the call raises that assertion error
    and leaves the file as [add_devices] and [add_icephys_electrode] made
    it. *)
Theorem failed_recording_keeps_devices_and_electrodes neo_reader metadata w n_segments :
  0 < Neo.get_number_of_electrodes neo_reader ->
  forallb is_dict (default [] (md_Electrodes (Neo.icephys_section metadata))) = true ->
  nb_segment neo_reader !! 0 = Some n_segments ->
  length (read_raw_protocol neo_reader).1.1 <> 0 ->
  length (read_raw_protocol neo_reader).1.1 <> n_segments ->
  Neo.add_all_to_nwbfile neo_reader metadata w =
    (Raise (AssertionError
              (Neo.commands_assertion n_segments
                 (length (read_raw_protocol neo_reader).1.1))),
     (Neo.add_icephys_electrode neo_reader metadata
        (Neo.add_devices Icephys metadata w).2).2).
Proof.
  intros Hn Hdicts Hseg Hzero Hdiff.
  unfold Neo.add_all_to_nwbfile. rewrite bind_run.
  pose proof (add_devices_ok Icephys metadata w) as Hok.
  destruct (Neo.add_devices Icephys metadata w) as [r0 w0]. simpl in Hok. subst r0.
  rewrite bind_run. cbn [snd].
  destruct (add_icephys_electrode_returns neo_reader metadata w0 Hn Hdicts)
    as (md1 & w1 & ->). cbn [snd].
  rewrite add_icephys_recording_run, Hseg. cbv zeta.
  rewrite bool_decide_eq_false_2; [done|]. by intros [?|?].
Qed.

(** X21. The conversion of a reader into a new file with the default
    metadata of [get_nwb_metadata], as [write_neo_to_nwb] runs it: when
    block 0 has a segment count, the counts of segments and command sweeps
    pass the check and every segment has, for each channel, a command trace
    and a signal chunk with a sample, the call returns and the file holds
    the device ["Device"], one electrode per channel linked to it, one
    recording per segment and channel, in that order, and the series of
    the recordings; no warning is issued. *)
Theorem default_conversion_of_a_new_file neo_reader metadata n_segments :
  nb_segment neo_reader !! 0 = Some n_segments ->
  (length (read_raw_protocol neo_reader).1.1 = 0 \/
   length (read_raw_protocol neo_reader).1.1 = n_segments) ->
  (forall si ei,
     si < n_segments -> ei < Neo.get_number_of_electrodes neo_reader ->
     ready neo_reader si ei = true) ->
  exists w' rows,
    Neo.add_all_to_nwbfile neo_reader (Some (Neo.get_nwb_metadata neo_reader metadata))
      empty_file = (Ok tt, w') /\
    devices (nwbfile w') = [the_default_device] /\
    icephys_electrodes (nwbfile w') =
      map (fun k => {| el_name := "icephys_electrode_" +:+ pretty k;
                       el_description := "no description";
                       el_device := the_default_device |})
          (seq 0 (Neo.get_number_of_electrodes neo_reader)) /\
    acquisition (nwbfile w') = foldl (store_by_name vcs_name) [] (map ir_response rows) /\
    stimulus (nwbfile w') = foldl (store_by_name vcss_name) [] (map ir_stimulus rows) /\
    intracellular_recordings (nwbfile w') = rows /\
    warnings w' = [] /\
    length rows = n_segments * Neo.get_number_of_electrodes neo_reader /\
    forall si ei,
      si < n_segments -> ei < Neo.get_number_of_electrodes neo_reader ->
      exists row,
        rows !! (si * Neo.get_number_of_electrodes neo_reader + ei) = Some row /\
        el_name (ir_electrode row) = "icephys_electrode_" +:+ pretty ei /\
        recorded_at neo_reader row (si, ei).
Proof.
  intros Hseg Hcheck Hready.
  unfold Neo.add_all_to_nwbfile. rewrite bind_run.
  set (w0 := {| nwbfile := {| devices := [the_default_device];
                              icephys_electrodes := [];
                              acquisition := [];
                              stimulus := [];
                              intracellular_recordings := [] |};
                warnings := [] |}).
  assert (Neo.add_devices Icephys (Some (Neo.get_nwb_metadata neo_reader metadata))
            empty_file = (Ok tt, w0)) as ->.
  { unfold Neo.add_devices, Neo.requested_devices, Neo.get_nwb_metadata.
    cbn [md_section md_Icephys md_Device for_each]. rewrite bind_run.
    unfold Neo.add_device. rewrite bind_run. unfold get_nwbfile at 1.
    fold Neo.default_device.
    rewrite default_device_name, default_device_description, default_device_manufacturer.
    reflexivity. }
  rewrite bind_run.
  assert (devices (nwbfile w0) = [the_default_device]) as Hdev by done.
  rewrite add_icephys_electrode_with_device by (by rewrite Hdev).
  destruct (default_electrodes_Forall2 (nwbfile w0) (dev_name the_default_device)
              (seq 0 (Neo.get_number_of_electrodes neo_reader))
              (first_device_name _ _ _ Hdev)) as (defaults & Hdef & Hshape).
  rewrite (resolve_electrodes_unfold _ _ _ defaults Hdef);
    [|rewrite chosen_defaults by (by left); apply forallb_is_dict_map].
  rewrite chosen_defaults by (by left).
  rewrite (default_descriptors_loop neo_reader w0 _ _ defaults Hdev Hdef Hshape);
    [|intros k _; by apply bool_decide_eq_false_2, not_elem_of_nil].
  set (es := map (fun k => {| el_name := "icephys_electrode_" +:+ pretty k;
                              el_description := "no description";
                              el_device := the_default_device |})
                 (seq 0 (Neo.get_number_of_electrodes neo_reader))).
  set (w1 := add_electrodes w0 es).
  assert (icephys_electrodes (nwbfile w1) = es) as Hes by done.
  assert (length es = Neo.get_number_of_electrodes neo_reader) as Hlen_es
    by (unfold es; by rewrite length_map, length_seq).
  pose proof (segments_loop_recorded neo_reader (seq 0 n_segments) w1) as Hrec.
  rewrite add_icephys_recording_run, Hseg. cbv zeta.
  rewrite bool_decide_eq_true_2 by done.
  assert (forallb (fun si => segment_complete neo_reader si 0
                     (icephys_electrodes (nwbfile w1))) (seq 0 n_segments) = true) as Hall.
  { apply forallb_forall. intros si Hin%in_seq.
    apply segment_complete_spec. intros ei Hei. rewrite Hes, Hlen_es in Hei.
    apply Hready; lia. }
  destruct (recording_rows_complete neo_reader _ _ Hall) as (Hpending & Hlen & Hlook).
  rewrite Hpending, app_nil_r in Hrec.
  destruct Hrec as (Hd & He & Ha & Hs & Hr & Hw).
  rewrite Hes, Hlen_es, length_seq in Hlen.
  destruct (for_each (seq 0 n_segments) (Neo.segment_body neo_reader) w1) as [r w'] eqn:Hrun.
  rewrite segments_loop_run, Hall in Hrun. injection Hrun as <- Hw'.
  cbn [snd] in *.
  exists w', (recording_rows neo_reader (icephys_electrodes (nwbfile w1)) (seq 0 n_segments)).
  split; [done|]. split; [by rewrite Hd|]. split; [by rewrite He|].
  split; [by rewrite Ha|]. split; [by rewrite Hs|]. split; [by rewrite Hr|].
  split; [by rewrite Hw|]. split; [by rewrite Hes|].
  intros si ei Hsi Hei.
  assert (es !! ei = Some {| el_name := "icephys_electrode_" +:+ pretty ei;
                             el_description := "no description";
                             el_device := the_default_device |}) as Hel.
  { unfold es. by rewrite list_lookup_fmap, lookup_seq_lt. }
  destruct (Hlook si si ei _ ltac:(by rewrite lookup_seq_lt) ltac:(by rewrite Hes))
    as (data & _ & Hrow).
  rewrite Hes, Hlen_es in Hrow.
  eexists. split; [rewrite Hes; exact Hrow|]. split; [done|apply recorded_at_row].
Qed.

(** ** The properties at the example data *)

Lemma recording_rows_on_success_witness :
  exists n_segments new,
    nb_segment (sampled_reader 2 1) !! 0 = Some n_segments /\
    recorded rig_file (Neo.add_icephys_recording (sampled_reader 2 1) None rig_file).2
      new new /\
    length new = n_segments * length (icephys_electrodes (nwbfile rig_file)) /\
    forall si ei electrode,
      si < n_segments ->
      icephys_electrodes (nwbfile rig_file) !! ei = Some electrode ->
      exists data,
        command_trace (sampled_reader 2 1) si ei = Some data /\
        ready (sampled_reader 2 1) si ei = true /\
        new !! (si * length (icephys_electrodes (nwbfile rig_file)) + ei) =
          Some (recording_row (sampled_reader 2 1) si ei electrode data).
Proof.
  apply (recording_rows_on_success (sampled_reader 2 1) None rig_file).
  vm_compute. reflexivity.
Defined.

Lemma recording_stops_at_missing_trace_witness :
  exists w' new,
    Neo.add_icephys_recording one_command_channel None two_electrode_file =
      (Raise IndexError, w') /\
    recorded two_electrode_file w' new new /\
    length new = 1.
Proof.
  apply (recording_stops_at_missing_trace one_command_channel None two_electrode_file 2 0).
  - reflexivity.
  - reflexivity.
  - vm_compute. lia.
  - reflexivity.
  - right. reflexivity.
  - lia.
  - vm_compute. lia.
  - intros si ei Hsi. lia.
  - intros ei Hei. assert (ei = 0) as -> by (vm_compute in Hei; lia).
    vm_compute. reflexivity.
Defined.

Lemma recording_without_commands_fails_witness :
  Neo.add_icephys_recording no_commands None rig_file = (Raise IndexError, rig_file).
Proof.
  apply (recording_without_commands_fails no_commands None rig_file 1).
  - vm_compute. lia.
  - reflexivity.
  - reflexivity.
  - lia.
  - discriminate.
Defined.

Lemma recording_returns_iff_witness :
  (exists w', Neo.add_icephys_recording (sampled_reader 2 1) None rig_file = (Ok tt, w')) <->
  exists n_segments,
    nb_segment (sampled_reader 2 1) !! 0 = Some n_segments /\
    (length (read_raw_protocol (sampled_reader 2 1)).1.1 = 0 \/
     length (read_raw_protocol (sampled_reader 2 1)).1.1 = n_segments) /\
    forall si ei,
      si < n_segments -> ei < length (icephys_electrodes (nwbfile rig_file)) ->
      ready (sampled_reader 2 1) si ei = true.
Proof.
  apply (recording_returns_iff (sampled_reader 2 1) None rig_file).
  - reflexivity.
  - reflexivity.
  - vm_compute. lia.
Defined.

Lemma override_creates_its_electrodes_witness :
  exists es,
    Neo.add_icephys_electrode one_channel
      (Some (electrodes_override (map PyDict left_right))) rig_file =
      (Ok (Neo.set_electrodes (Some (electrodes_override (map PyDict left_right)))
             (map PyDict left_right)),
       add_electrodes rig_file es) /\
    Forall2 (stands_for (dev_name amplifier) rig_file) es left_right.
Proof.
  apply (override_creates_its_electrodes one_channel
           (Some (electrodes_override (map PyDict left_right))) rig_file left_right
           amplifier []).
  - vm_compute. lia.
  - reflexivity.
  - reflexivity.
  - discriminate.
  - vm_compute. apply NoDup_cons.
    split; [intros H%list_elem_of_singleton; discriminate|apply NoDup_singleton].
  - repeat constructor; vm_compute; reflexivity.
Defined.

Lemma default_electrodes_are_created_witness :
  exists md1,
    Neo.add_icephys_electrode one_channel None rig_file =
      (Ok md1,
       add_electrodes rig_file
         (map (fun k => {| el_name := "icephys_electrode_" +:+ pretty k;
                           el_description := "no description";
                           el_device := amplifier |})
              (seq 0 (Neo.get_number_of_electrodes one_channel)))).
Proof.
  apply (default_electrodes_are_created one_channel None rig_file amplifier []).
  - reflexivity.
  - left. reflexivity.
  - intros k Hk. replace k with 0 by (vm_compute in Hk; lia). vm_compute. reflexivity.
Defined.

Lemma descriptors_sharing_a_name_create_one_witness :
  Neo.add_icephys_electrode one_channel
    (Some (electrodes_override (map PyDict nameless_pair))) rig_file =
    (Ok (Neo.set_electrodes (Some (electrodes_override (map PyDict nameless_pair)))
           (map PyDict nameless_pair)),
     add_electrodes rig_file [ {| el_name := "icephys_electrode_0";
                                  el_description := "first";
                                  el_device := amplifier |} ]).
Proof.
  refine (eq_trans
            (descriptors_sharing_a_name_create_one one_channel
               (Some (electrodes_override (map PyDict nameless_pair))) rig_file
               {[ "description" := "first" ]} [ {[ "description" := "second" ]} ]
               amplifier [] amplifier _ _ _ _ _ _) _).
  7: reflexivity.
  - vm_compute. lia.
  - reflexivity.
  - reflexivity.
  - vm_compute. reflexivity.
  - vm_compute. reflexivity.
  - repeat constructor.
Defined.

Lemma registered_electrodes_are_left_alone_witness :
  Neo.add_icephys_electrode one_channel
    (Some (electrodes_override [PyDict electrode_0_moved])) rig_file =
    (Ok (Neo.set_electrodes (Some (electrodes_override [PyDict electrode_0_moved]))
           [PyDict electrode_0_moved]),
     rig_file).
Proof.
  apply (registered_electrodes_are_left_alone one_channel
           (Some (electrodes_override [PyDict electrode_0_moved])) rig_file
           [electrode_0_moved]).
  - vm_compute. lia.
  - discriminate.
  - reflexivity.
  - discriminate.
  - repeat constructor.
Defined.

Lemma override_needs_a_channel_witness :
  Neo.add_icephys_electrode no_channels (Some (electrodes_override [PyDict pipette])) rig_file =
    (Raise IndexError, rig_file).
Proof.
  apply (override_needs_a_channel no_channels
           (Some (electrodes_override [PyDict pipette])) rig_file pipette []).
  - reflexivity.
  - discriminate.
  - reflexivity.
Defined.

Lemma returned_metadata_lists_electrodes_witness :
  md_Ecephys (Neo.set_electrodes None (map PyDict one_channel_defaults)) =
    md_Ecephys (default Neo.empty_metadata None) /\
  exists Electrodes,
    md_Icephys (Neo.set_electrodes None (map PyDict one_channel_defaults)) =
      Some {| md_Device := md_Device (Neo.icephys_section None);
              md_Electrodes := Some Electrodes |} /\
    forallb is_dict Electrodes = true /\
    (forall x rest, md_Electrodes (Neo.icephys_section None) = Some (x :: rest) ->
       Electrodes = x :: rest) /\
    (md_Electrodes (Neo.icephys_section None) = None \/
     md_Electrodes (Neo.icephys_section None) = Some [] ->
     exists device_name,
       pynwb.device_names (nwbfile (Neo.ensure_devices None rig_file).2) !! 0 =
         Some device_name /\
       Electrodes =
         map (fun k => PyDict {[ "name" := "icephys_electrode_" +:+ pretty k;
                                 "description" := "no description";
                                 "device_name" := device_name ]})
             (seq 0 (Neo.get_number_of_electrodes one_channel))).
Proof.
  apply (returned_metadata_lists_electrodes one_channel None rig_file
           (Neo.set_electrodes None (map PyDict one_channel_defaults))
           (add_electrodes rig_file [ {| el_name := "icephys_electrode_0";
                                         el_description := "no description";
                                         el_device := amplifier |} ])).
  vm_compute. reflexivity.
Defined.

Lemma relative_time_is_within_a_day_witness :
  Forall (fun x => (0 <= Abf.relative_session_start_time x < 86400)%Z) two_files_recordings.
Proof.
  apply (relative_time_is_within_a_day no_metafile two_files).
  vm_compute. reflexivity.
Defined.

Lemma get_metadata_returns_only_if_witness :
  (exists metadata,
     Abf.super_get_metadata two_files = Ok metadata /\ md_Icephys metadata <> None) /\
  (exists path sessions,
     Abf.metadata_file_path two_files = Some path /\
     holds_sessions (side_table path) sessions) /\
  Abf.readers_list two_files <> [] /\
  Forall (fun reader => (exists t, Abf.abf_date_time reader = Ok t) /\
                        nb_segment reader <> []) (Abf.readers_list two_files).
Proof.
  assert (exists recs, Abf.get_metadata side_table two_files = Ok recs) as [recs Hrun]
    by (eexists; vm_compute; reflexivity).
  exact (get_metadata_returns_only_if side_table two_files recs Hrun).
Defined.

Lemma appended_files_keep_earlier_entries_witness :
  take 4 two_files_recordings `prefix_of` two_files_recordings.
Proof.
  apply (appended_files_keep_earlier_entries no_metafile first_file_only
           [ example_reader "/data/cell1/21o05001.abf" 20211005 37500000 1 2 ]).
  - vm_compute. reflexivity.
  - vm_compute. reflexivity.
Defined.

Lemma sessions_are_matched_by_base_name_witness :
  Abf.session_info
    (Abf.Iterable [ PyDict {[ "abf_file_name" := "21o05001.abf";
                              "stimulus_type" := "long square" ]} ])
    (example_reader "/data/cell1/21o05001.abf" 20211005 37500000 1 2) =
  Abf.session_info
    (Abf.Iterable [ PyDict {[ "abf_file_name" := "21o05001.abf";
                              "stimulus_type" := "long square" ]} ])
    (example_reader "21o05001.abf" 20211005 37500000 1 2).
Proof.
  apply (sessions_are_matched_by_base_name _ _ _ "/data/cell1").
  reflexivity.
Defined.

Lemma entries_carry_the_first_matching_session_witness :
  exists recs x,
    Abf.get_metadata side_table two_files = Ok recs /\
    recs !! 5 = Some x /\
    Abf.stimulus_type x = "long square" /\
    Abf.icephys_experiment_type x = None.
Proof.
  assert (exists recs, Abf.get_metadata side_table two_files = Ok recs) as [recs Hrun]
    by (eexists; vm_compute; reflexivity).
  destruct (entries_carry_the_first_matching_session side_table two_files recs
              [(2, 2); (1, 2)] 1
              (example_reader "/data/cell1/21o05001.abf" 20211005 37500000 1 2)
              1 2 0 1 "/data/cell1/metadata.json" Hrun)
    as (sessions & x & Hsessions & Hx & Hfields).
  - repeat constructor.
  - reflexivity.
  - reflexivity.
  - lia.
  - lia.
  - reflexivity.
  - assert (sessions = [ {[ "abf_file_name" := "21o05001.abf";
                            "stimulus_type" := "long square" ]} ]) as ->.
    { destruct Hsessions as [[Hfile _]|[[Hfile _]|Hfile]]; [done|done|].
      vm_compute in Hfile. injection Hfile as Hfile.
      destruct sessions as [|sess [|sess' rest]]; [done| |done].
      simpl in Hfile. by injection Hfile as <-. }
    exists recs, x. split; [exact Hrun|]. split; [exact Hx|]. exact Hfields.
Defined.

Lemma returning_call_leaves_an_electrode_witness :
  icephys_electrodes (nwbfile (Neo.add_icephys_electrode one_channel None empty_file).2) <> [].
Proof.
  apply (returning_call_leaves_an_electrode one_channel None empty_file
           (Neo.set_electrodes None
              [PyDict {[ "name" := "icephys_electrode_0";
                         "description" := "no description";
                         "device_name" := "Device" ]}])).
  - vm_compute. lia.
  - vm_compute. reflexivity.
Defined.

Lemma stored_stimulus_is_the_command_trace_witness :
  exists row,
    intracellular_recordings
      (nwbfile (Neo.add_icephys_recording with_protocol None rig_file).2) !! 0 = Some row /\
    ir_electrode row = {| el_name := "electrode_0";
                          el_description := "whole-cell";
                          el_device := amplifier |} /\
    vcss_data (ir_stimulus row) = [0%float; 10%float; 0%float].
Proof.
  apply (stored_stimulus_is_the_command_trace with_protocol None rig_file
           (Neo.add_icephys_recording with_protocol None rig_file).2 0 0 0
           [0%float; 10%float; 0%float] "Cmd 0" "mV").
  - vm_compute. reflexivity.
  - vm_compute. reflexivity.
  - reflexivity.
Defined.

Lemma failed_recording_keeps_devices_and_electrodes_witness :
  Neo.add_all_to_nwbfile three_commands None empty_file =
    (Raise (AssertionError
              (Neo.commands_assertion 2 (length (read_raw_protocol three_commands).1.1))),
     (Neo.add_icephys_electrode three_commands None
        (Neo.add_devices Icephys None empty_file).2).2) /\
  map dev_name
    (devices (nwbfile (Neo.add_icephys_electrode three_commands None
                         (Neo.add_devices Icephys None empty_file).2).2)) = ["Device"] /\
  map el_name
    (icephys_electrodes (nwbfile (Neo.add_icephys_electrode three_commands None
                                    (Neo.add_devices Icephys None empty_file).2).2)) =
    ["icephys_electrode_0"].
Proof.
  split; [|split; vm_compute; reflexivity].
  apply (failed_recording_keeps_devices_and_electrodes three_commands None empty_file 2).
  - vm_compute. lia.
  - reflexivity.
  - reflexivity.
  - simpl. lia.
  - simpl. lia.
Defined.

Lemma same_day_relative_time_witness :
  exists x,
    two_files_recordings !! 4 = Some x /\
    Abf.relative_session_start_time x = 1500%Z.
Proof.
  apply (same_day_relative_time no_metafile two_files two_files_recordings
           [(2, 2); (1, 2)] 1
           (example_reader "/data/cell1/21o05000.abf" 20211005 36000000 2 2)
           (example_reader "/data/cell1/21o05001.abf" 20211005 37500000 1 2) 1 2 0 0).
  - vm_compute. reflexivity.
  - repeat constructor.
  - reflexivity.
  - reflexivity.
  - reflexivity.
  - lia.
  - lia.
  - reflexivity.
  - vm_compute. split; [discriminate|reflexivity].
Defined.

Lemma default_conversion_of_a_new_file_witness :
  exists w' rows,
    Neo.add_all_to_nwbfile (sampled_reader 2 1)
      (Some (Neo.get_nwb_metadata (sampled_reader 2 1) None)) empty_file = (Ok tt, w') /\
    map dev_name (devices (nwbfile w')) = ["Device"] /\
    map el_name (icephys_electrodes (nwbfile w')) = ["icephys_electrode_0"] /\
    intracellular_recordings (nwbfile w') = rows /\
    length rows = 2 /\
    exists row,
      rows !! 1 = Some row /\
      vcss_name (ir_stimulus row) = "stimulus-1-ch-0" /\
      vcs_name (ir_response row) = "response-1-ch-0".
Proof.
  destruct (default_conversion_of_a_new_file (sampled_reader 2 1) None 2)
    as (w' & rows & Hrun & Hd & He & _ & _ & Hr & _ & Hlen & Hlook).
  - reflexivity.
  - right. reflexivity.
  - intros si ei Hsi Hei.
    assert (ei = 0) as -> by (vm_compute in Hei; lia).
    assert (si = 0 \/ si = 1) as [-> | ->] by lia; vm_compute; reflexivity.
  - exists w', rows. split; [exact Hrun|]. split; [by rewrite Hd|].
    split; [by rewrite He|]. split; [exact Hr|]. split; [exact Hlen|].
    destruct (Hlook 1 0) as (row & Hrow & _ & _ & _ & Hs & Ha); [lia|vm_compute; lia|].
    exists row. split; [exact Hrow|]. split; [exact Hs|exact Ha].
Defined.
